(** * gae_dashboard/email_bq_data.py and gae_util.py: a shallow embedding

    The script queries BigQuery, saves each day's rows as a pickle, reads back
    up to two weeks of earlier pickles, shapes the rows into tables with a
    sparkline column and mails them as HTML.  This file embeds the functions
    of that pipeline as Rocq functions and proves properties of them; the
    functions of [gae_util.py], which look up the App Engine SDK and set up
    [sys.path], follow the reports.

    Conventions.
    - Python values that occur in rows are [atom]s: int/long ([Z]), float
      (IEEE binary64, Rocq's primitive floats) and str.
    - A raised exception is the [Raise] case of [result]; stateful code runs
      in the monad [M] over a [world] (files, directories, subprocesses that
      were started, mails that were sent).
    - A date is the proleptic Gregorian ordinal of its day, as
      [toordinal()] gives it: the reports work on whole days.
    - What the script obtains from outside its own source (the pickle codec,
      [strftime], float formatting, the gnuplot binary, sha1, imghdr, $HOME)
      is a field of the class [Externals]. *)

From Stdlib Require Import ZArith QArith String Ascii List Floats Lia DecimalString.
From stdpp Require Import base option list gmap strings pretty sorting.

Set Warnings "-inexact-float".
#[local] Open Scope Z_scope.

(** ** Python exceptions and results *)

Inductive exn : Type :=
  | TypeError | ValueError | KeyError | ZeroDivisionError | OverflowError
  | IOError | OSError | UnpicklingError.

Inductive result (A : Type) : Type :=
  | Ok (a : A)
  | Raise (e : exn).
Arguments Ok {A} a.
Arguments Raise {A} e.

#[global] Instance result_ret : MRet result := λ A, Ok.
#[global] Instance result_bind : MBind result := λ A B f m,
  match m with Ok a => f a | Raise e => Raise e end.
#[global] Instance result_fmap : FMap result := λ A B f m,
  match m with Ok a => Ok (f a) | Raise e => Raise e end.

(** ** Python values *)

Inductive atom : Type :=
  | AInt (z : Z)
  | AFloat (f : float)
  | AStr (s : string).

(** A table cell is an atom or a sparkline series (a list whose entries are
    atoms or [None]). *)
Inductive value : Type :=
  | VAtom (a : atom)
  | VList (l : list (option atom)).

(** A row as [_query_bigquery] returns it, and a row after a report has added
    its derived columns. *)
Abbreviation bqrow := (gmap string atom).
Abbreviation row := (gmap string value).

(** [float(z)] for an int or long: round to nearest even; a long that does
    not fit raises OverflowError. *)
Definition py_float (z : Z) : result float :=
  let f := SF2Prim (binary_normalize prec emax z 0 false) in
  if PrimFloat.is_infinity f then Raise OverflowError else Ok f.

(** *** Comparison

    Python compares an int with a float, and two floats, by their exact
    values; a NaN compares false with everything.  [exact] gives the value of
    a number as a rational, an infinity or NaN. *)
Inductive xreal : Type :=
  | XNaN
  | XInf (negative : bool)
  | XFin (q : Q).

Definition exact_float (f : float) : xreal :=
  match Prim2SF f with
  | S754_zero _ => XFin 0%Q
  | S754_infinity s => XInf s
  | S754_nan => XNaN
  | S754_finite s m e =>
      let v := if s then Z.neg m else Z.pos m in
      XFin (if 0 <=? e then inject_Z (v * 2 ^ e) else Qmake v (2 ^ Z.to_pos (- e)))
  end.

Definition xgt (x y : xreal) : bool :=
  match x, y with
  | XNaN, _ | _, XNaN => false
  | XInf sx, XInf sy => negb sx && sy
  | XInf sx, XFin _ => negb sx
  | XFin _, XInf sy => sy
  | XFin p, XFin q => match Qcompare p q with Gt => true | _ => false end
  end.

Definition xeq (x y : xreal) : bool :=
  match x, y with
  | XInf sx, XInf sy => Bool.eqb sx sy
  | XFin p, XFin q => Qeq_bool p q
  | _, _ => false
  end.

Definition is_num (a : atom) : bool :=
  match a with AStr _ => false | _ => true end.

Definition exact (a : atom) : xreal :=
  match a with
  | AInt z => XFin (inject_Z z)
  | AFloat f => exact_float f
  | AStr _ => XNaN
  end.

(** [a > b].  In Python 2 a number is smaller than any string. *)
Definition py_gt (a b : atom) : bool :=
  match a, b with
  | AStr s, AStr t => String.ltb t s
  | AStr _, _ => true
  | _, AStr _ => false
  | _, _ => xgt (exact a) (exact b)
  end.

(** [a == b], which is also how a dict compares keys. *)
Definition py_eq (a b : atom) : bool :=
  match a, b with
  | AStr s, AStr t => String.eqb s t
  | AStr _, _ | _, AStr _ => false
  | _, _ => xeq (exact a) (exact b)
  end.

(** [max(l)]: the first element that no later element exceeds; an empty
    sequence raises ValueError. *)
Definition py_max (l : list atom) : result atom :=
  match l with
  | [] => Raise ValueError
  | x :: l' => Ok (fold_left (λ m v, if py_gt v m then v else m) l' x)
  end.

(** *** Arithmetic (Python 2: [/] on two ints is floor division) *)

Definition float_div (x y : float) : result float :=
  if PrimFloat.eqb y 0%float then Raise ZeroDivisionError else Ok (x / y)%float.

Definition str_repeat (s : string) (n : Z) : string :=
  String.concat "" (replicate (Z.to_nat n) s).

Definition py_add (a b : atom) : result atom :=
  match a, b with
  | AInt x, AInt y => Ok (AInt (x + y))
  | AInt x, AFloat y => fx ← py_float x; Ok (AFloat (fx + y)%float)
  | AFloat x, AInt y => fy ← py_float y; Ok (AFloat (x + fy)%float)
  | AFloat x, AFloat y => Ok (AFloat (x + y)%float)
  | AStr s, AStr t => Ok (AStr (s +:+ t))
  | _, _ => Raise TypeError
  end.

Definition py_mul (a b : atom) : result atom :=
  match a, b with
  | AInt x, AInt y => Ok (AInt (x * y))
  | AInt x, AFloat y => fx ← py_float x; Ok (AFloat (fx * y)%float)
  | AFloat x, AInt y => fy ← py_float y; Ok (AFloat (x * fy)%float)
  | AFloat x, AFloat y => Ok (AFloat (x * y)%float)
  | AStr s, AInt n | AInt n, AStr s => Ok (AStr (str_repeat s n))
  | _, _ => Raise TypeError
  end.

Definition py_div (a b : atom) : result atom :=
  match a, b with
  | AInt x, AInt y => if y =? 0 then Raise ZeroDivisionError else Ok (AInt (x / y))
  | AInt x, AFloat y => fx ← py_float x; AFloat <$> float_div fx y
  | AFloat x, AInt y => fy ← py_float y; AFloat <$> float_div x fy
  | AFloat x, AFloat y => AFloat <$> float_div x y
  | _, _ => Raise TypeError
  end.

(** [row[k]]: KeyError when the field is missing. *)
Definition getitem {V} (r : gmap string V) (k : string) : result V :=
  match r !! k with Some v => Ok v | None => Raise KeyError end.

(** Truth value of a dict: non-empty. *)
Definition dict_truthy {V} (r : gmap string V) : bool :=
  negb (Nat.eqb (size r) 0).

(** ** What comes from outside the script *)

Class Externals : Type := {
  (** [os.getenv('HOME')] *)
  HOME : string;
  (** the text of [d.strftime("%Y%m%d")] for the day whose ordinal is [d],
      where Python prints one (see [date_strftime]) *)
  strftime : Z → string;
  cPickle_dumps : list bqrow → string;
  cPickle_loads : string → result (list bqrow);
  (** [str(f)] and ['%.2f' % f] for a float *)
  str_float : float → string;
  fmt_2f : float → string;
  (** standard output of the [gnuplot] process for a script on its input *)
  gnuplot : string → result string;
  sha1_hexdigest : string → string;
  (** [repr(s)] for a str and [str(l)] for a list *)
  py_repr : string → string;
  str_list : list (option atom) → string;
  (** [imghdr.what(None, image)]: the image type guessed from the first
      bytes, which [MIMEImage(image)] takes as the subtype *)
  imghdr_what : string → option string;
}.

(** ** Dates

    The calendar of [datetime] runs from 0001-01-01, ordinal 1, to
    9999-12-31. *)

Definition date_min : Z := 1.
Definition date_max : Z := 3652059.

(** The ordinal of 1900-01-01: the [strftime] of Python 2 refuses the years
    before 1900. *)
Definition strftime_first : Z := 693596.

(** [d - datetime.timedelta(i)]: OverflowError when the day is outside the
    calendar. *)
Definition date_sub (d i : Z) : result Z :=
  if (date_min <=? d - i) && (d - i <=? date_max) then Ok (d - i)
  else Raise OverflowError.

(** [d.strftime("%Y%m%d")]: ValueError for a year before 1900. *)
Definition date_strftime `{Externals} (d : Z) : result string :=
  if d <? strftime_first then Raise ValueError else Ok (strftime d).

(** ** The world and the monad of effects *)

Record mime : Type := {
  mime_html : string;
  mime_images : list (string * string);   (* Content-ID, PNG bytes *)
  mime_subject : string;
  mime_from : string;
  mime_to : string;
  mime_cc : option string;
}.

Record world : Type := {
  files : gmap string string;             (* regular files: path to contents *)
  dirs : gset string;                     (* directories *)
  spawned : list (string * string);       (* processes started: program, stdin *)
  outbox : list (list string * mime);     (* sendmail calls: recipients, message *)
}.

Definition empty_world : world :=
  {| files := ∅; dirs := ∅; spawned := []; outbox := [] |}.

Definition M (A : Type) : Type := world → result A * world.

#[global] Instance M_ret : MRet M := λ A a w, (Ok a, w).
#[global] Instance M_bind : MBind M := λ A B f m w,
  match m w with
  | (Ok a, w') => f a w'
  | (Raise e, w') => (Raise e, w')
  end.

Definition lift {A} (r : result A) : M A := λ w, (r, w).

(** *** os.path *)

Definition is_slash (c : ascii) : bool := Ascii.eqb c "/".

Fixpoint drop_while {A} (p : A → bool) (l : list A) : list A :=
  match l with
  | [] => []
  | x :: l' => if p x then drop_while p l' else l
  end.

Definition startswith_slash (s : string) : bool :=
  match s with String c _ => is_slash c | EmptyString => false end.

Definition endswith_slash (s : string) : bool :=
  match reverse (list_ascii_of_string s) with c :: _ => is_slash c | [] => false end.

(** [os.path.join(a, b)] (posixpath) *)
Definition path_join (a b : string) : string :=
  if startswith_slash b then b
  else if String.eqb a "" || endswith_slash a then a +:+ b
  else a +:+ "/" +:+ b.

(** [os.path.dirname(p)]: up to the last slash, trailing slashes stripped
    unless the head is nothing but slashes *)
Definition dirname (p : string) : string :=
  let head :=
    reverse (drop_while (λ c, negb (is_slash c)) (reverse (list_ascii_of_string p))) in
  string_of_list_ascii
    (if forallb is_slash head then head
     else reverse (drop_while is_slash (reverse head))).

Definition os_path_exists (p : string) : M bool := λ w,
  (Ok (bool_decide (is_Some (files w !! p)) || bool_decide (p ∈ dirs w)), w).

Definition os_path_isdir (p : string) : M bool := λ w,
  (Ok (bool_decide (p ∈ dirs w)), w).

(** The directories above [p], nearest first: [dirname p], the [dirname] of
    that, and so on up to the root (or to the first component of a relative
    path). *)
Fixpoint parents (fuel : nat) (p : string) : list string :=
  match fuel with
  | O => []
  | S fuel' =>
      let head := dirname p in
      if String.eqb head "" || String.eqb head p then []
      else head :: parents fuel' head
  end.

Definition ancestors (p : string) : list string := parents (String.length p) p.

(** [os.makedirs(p)]: makes [p] and the directories above it that are
    missing.  OSError when [p] already exists, or when a directory above it
    is a regular file. *)
Definition os_makedirs (p : string) : M unit := λ w,
  if bool_decide (is_Some (files w !! p)) || bool_decide (p ∈ dirs w)
     || existsb (λ a, bool_decide (is_Some (files w !! a))) (ancestors p)
  then (Raise OSError, w)
  else (Ok (), {| files := files w;
                  dirs := {[p]} ∪ list_to_set (ancestors p) ∪ dirs w;
                  spawned := spawned w; outbox := outbox w |}).

(** [open(p).read()] *)
Definition read_file (p : string) : M string := λ w,
  match files w !! p with
  | Some s => (Ok s, w)
  | None => (Raise IOError, w)
  end.

(** [open(p, 'w').write(s)]: IOError when [p] is a directory or its parent
    directory does not exist. *)
Definition write_file (p s : string) : M unit := λ w,
  if bool_decide (p ∈ dirs w) || negb (bool_decide (dirname p ∈ dirs w))
  then (Raise IOError, w)
  else (Ok (), {| files := <[p := s]> (files w); dirs := dirs w;
                  spawned := spawned w; outbox := outbox w |}).

(** [subprocess.Popen([prog], stdin=PIPE, stdout=PIPE).communicate(input)] *)
Definition popen_communicate `{Externals} (prog input : string) : M string := λ w,
  (gnuplot input, {| files := files w; dirs := dirs w;
                     spawned := spawned w ++ [(prog, input)]; outbox := outbox w |}).

(** ** Snapshot store *)

Section store.
Context `{Externals}.

Definition _DATA_DIRECTORY : string := path_join HOME "bq_data/".

Definition _get_data_filename (report yyyymmdd : string) : string :=
  path_join _DATA_DIRECTORY (report +:+ "_" +:+ yyyymmdd +:+ ".pickle").

Definition _get_past_data (report yyyymmdd : string) : M (option (list bqrow)) :=
  let filename := _get_data_filename report yyyymmdd in
  e ← os_path_exists filename;
  if negb e then mret None
  else s ← read_file filename;
       data ← lift (cPickle_loads s);
       mret (Some data).

Definition _save_daily_data (data : list bqrow) (report yyyymmdd : string) : M unit :=
  let filename := _get_data_filename report yyyymmdd in
  d ← os_path_isdir (dirname filename);
  (if negb d then os_makedirs (dirname filename) else mret ());;
  write_file filename (cPickle_dumps data).

End store.

(** ** History aggregator *)

(** The ints from 0 up to, not including, [n]. *)
Definition upto (n : Z) : list Z := Z.of_nat <$> seq 0 (Z.to_nat n).

(** [xrange(n)]: OverflowError when [n] does not fit a C long (64 bits). *)
Definition LONG_MAX : Z := 2 ^ 63 - 1.

Definition xrange (n : Z) : result (list Z) :=
  if (n <? - LONG_MAX - 1) || (LONG_MAX <? n) then Raise OverflowError
  else Ok (upto n).

Section history.
Context `{Externals} {K : Type} (key_eqb : K → K → bool).

(** A per-day index is a Python dict whose keys are compared with [==]. *)
Fixpoint dict_set (k : K) (v : bqrow) (d : list (K * bqrow)) : list (K * bqrow) :=
  match d with
  | [] => [(k, v)]
  | (k', v') :: d' =>
      if key_eqb k' k then (k', v) :: d' else (k', v') :: dict_set k v d'
  end.

Fixpoint dict_get (k : K) (d : list (K * bqrow)) : option bqrow :=
  match d with
  | [] => None
  | (k', v) :: d' => if key_eqb k' k then Some v else dict_get k d'
  end.

(** [{keyfn(row): row for row in old_data}] *)
Fixpoint build_index (keyfn : bqrow → result K) (old_data : list bqrow)
    (acc : list (K * bqrow)) : result (list (K * bqrow)) :=
  match old_data with
  | [] => Ok acc
  | r :: rest => k ← keyfn r; build_index keyfn rest (dict_set k r acc)
  end.

(** One turn of the loop of [_process_past_data]. *)
Definition day_index (report : string) (end_date : Z)
    (keyfn : bqrow → result K) (i : Z) : M (list (K * bqrow)) :=
  old_yyyymmdd ← lift (day ← date_sub end_date i; date_strftime day);
  old_data ← _get_past_data report old_yyyymmdd;
  match old_data with
  | Some (r :: rest) => lift (build_index keyfn (r :: rest) [])
  | _ => mret []
  end.

Definition _process_past_data (report : string) (end_date history_length : Z)
    (keyfn : bqrow → result K) : M (list (list (K * bqrow))) :=
  offsets ← lift (xrange (history_length + 1));
  historical_data ← mapM (day_index report end_date keyfn) offsets;
  mret (reverse historical_data).

End history.

(** ** Table shaper *)

(** [order.index(k)]: ValueError when [k] is not in [order]. *)
Fixpoint list_index (k : string) (order : list string) : result nat :=
  match order with
  | [] => Raise ValueError
  | k' :: rest => if String.eqb k' k then Ok 0%nat else S <$> list_index k rest
  end.

(** The order [row_contents.sort(key=...)] sorts by: the key computed for
    each item.  Two fields of one dict are different names, so their
    positions in [order] differ and no ties arise. *)
Definition sort_key_le (x y : nat * (string * value)) : Prop := (x.1 ≤ y.1)%nat.

#[global] Instance sort_key_le_dec : RelDecision sort_key_le.
Proof. intros x y. unfold sort_key_le. apply _. Defined.

Definition convert_row (order : list string) (r : row) : result (list value) :=
  decorated ← mapM (λ kv : string * value, i ← list_index kv.1 order; Ok (i, kv))
                   (map_to_list r);
  Ok ((λ x : nat * (string * value), x.2.2) <$> merge_sort sort_key_le decorated).

Definition _convert_table_rows_to_lists (table : list row) (order : list string)
    : result (list (list value)) :=
  retval ← mapM (convert_row order) table;
  Ok (((λ k, VAtom (AStr k)) <$> order) :: retval).

(** ** Sparkline renderer *)

Definition nl : string := String (ascii_of_nat 10) EmptyString.
Definition dq : string := String (ascii_of_nat 34) EmptyString.

(** [str(z)] for an int *)
Definition str_int (z : Z) : string := NilZero.string_of_int (Z.to_int z).

Section sparkline.
Context `{Externals}.

(** ['%s' % a] *)
Definition str_atom (a : atom) : string :=
  match a with
  | AInt z => str_int z
  | AFloat f => str_float f
  | AStr s => s
  end.

Definition existing_data (data : list (option atom)) : list atom := omap id data.

(** The points the plot is given: position and value of every datum that
    is not [None]; a [None] datum gives no point. *)
Definition data_points (data : list (option atom)) : list (option (nat * atom)) :=
  imap (λ i datum, pair i <$> datum) data.

(** One entry of [data_lines]: empty for a missing datum, ["%s %s" % (i, datum)]
    otherwise. *)
Definition data_line (p : option (nat * atom)) : string :=
  match p with
  | None => ""
  | Some (i, datum) => str_int (Z.of_nat i) +:+ " " +:+ str_atom datum
  end.

Record plot_range : Type := {
  ymax : atom;
  ymin : atom;
  xmin : Z;
  xmax : Z;
}.

Definition sparkline_range (data : list (option atom)) : result plot_range :=
  m1 ← py_max (existing_data data);
  ymax ← py_mul (AFloat 1.05) m1;
  m2 ← py_max (existing_data data);
  ymin ← py_mul (AFloat (-0.05)) m2;
  Ok {| ymax := ymax; ymin := ymin; xmin := 1; xmax := Z.of_nat (length data) |}.

Definition gnuplot_script (data_lines : list string) (r : plot_range) : string :=
  "unset border" +:+ nl +:+
  "unset xtics" +:+ nl +:+
  "unset ytics" +:+ nl +:+
  "unset key" +:+ nl +:+
  "set lmargin 0" +:+ nl +:+
  "set rmargin 0" +:+ nl +:+
  "set tmargin 0" +:+ nl +:+
  "set bmargin 0" +:+ nl +:+
  "set yrange [" +:+ str_atom (ymin r) +:+ ":" +:+ str_atom (ymax r) +:+ "]" +:+ nl +:+
  "set xrange [" +:+ str_int (xmin r) +:+ ":" +:+ str_int (xmax r) +:+ "]" +:+ nl +:+
  "set terminal pngcairo size 100,20" +:+ nl +:+
  "plot " +:+ dq +:+ "-" +:+ dq +:+ " using 1:2 notitle with lines linetype rgb "
    +:+ dq +:+ "black" +:+ dq +:+ nl +:+
  String.concat nl data_lines +:+ nl +:+
  "e" +:+ nl.

(** [_render_sparkline(data)]; the [width] and [height] parameters of the
    source are not used by its body. *)
Definition _render_sparkline (data : list (option atom)) : M (option string) :=
  let existing := existing_data data in
  if (length existing <? 3)%nat then mret None
  else
    let data_lines := data_line <$> data_points data in
    script ← lift (gnuplot_script data_lines <$> sparkline_range data);
    png ← popen_communicate "gnuplot" script;
    mret (Some png).

End sparkline.

(** ** The [%] operator: a str format applied to a tuple of str

    [_embed_images_to_mime] computes [html % tuple(image_tags)].  The
    formatter reads the format one character at a time; [fstate] is where it
    stands inside a conversion specifier
    [%[flags][width][.precision][length]conversion]. *)

Inductive fstate : Type :=
  | FLit                                  (* copying literal text *)
  | FStart                                (* just after the '%' *)
  | FFlags (ljust : bool)                 (* reading flags *)
  | FWidth (ljust : bool) (width : Z)     (* reading the digits of the width *)
  | FDot (ljust : bool) (width : Z)       (* just after the '.' *)
  | FPrec (ljust : bool) (width prec : Z) (* reading the digits of the precision *)
  | FConv (ljust : bool) (width prec : Z) (* after h, l or L *).

Definition is_digit (c : ascii) : bool :=
  let n := nat_of_ascii c in (48 <=? n)%nat && (n <=? 57)%nat.

Definition digit_val (c : ascii) : Z := Z.of_nat (nat_of_ascii c) - 48.

Definition in_chars (c : ascii) (s : string) : bool :=
  existsb (Ascii.eqb c) (list_ascii_of_string s).

Definition PY_SSIZE_T_MAX : Z := 2 ^ 63 - 1.
Definition INT_MAX : Z := 2 ^ 31 - 1.

(** Pad with spaces to [width] (no padding for a width of -1, which stands
    for none), on the right when the [-] flag was given. *)
Definition pad (ljust : bool) (width : Z) (s : string) : string :=
  let fill :=
    string_of_list_ascii (replicate (Z.to_nat width - String.length s)%nat " "%char) in
  if ljust then s +:+ fill else fill +:+ s.

Definition truncate (prec : Z) (s : string) : string :=
  if prec <? 0 then s else substring 0 (Z.to_nat prec) s.

Section format.
Context `{Externals}.

(** The conversion character [c] itself.  Every argument is a str, so the
    numeric conversions raise TypeError. *)
Definition convert (ljust : bool) (width prec : Z) (c : ascii) (args : list string)
    : result (fstate * list string * string) :=
  if Ascii.eqb c "%" then Ok (FLit, args, pad ljust width "%")
  else
    match args with
    | [] => Raise TypeError                (* not enough arguments *)
    | v :: args' =>
        if Ascii.eqb c "s" then Ok (FLit, args', pad ljust width (truncate prec v))
        else if Ascii.eqb c "r" then
          Ok (FLit, args', pad ljust width (truncate prec (py_repr v)))
        else if in_chars c "diuoxXeEfFgG" then Raise TypeError
        else if Ascii.eqb c "c" then
          if (String.length v =? 1)%nat then Ok (FLit, args', pad ljust width v)
          else Raise TypeError
        else Raise ValueError              (* unsupported format character *)
    end.

Definition length_or_convert (ljust : bool) (width prec : Z) (c : ascii)
    (args : list string) : result (fstate * list string * string) :=
  if in_chars c "hlL" then Ok (FConv ljust width prec, args, "")
  else convert ljust width prec c args.

Definition dot_or_later (ljust : bool) (width : Z) (c : ascii) (args : list string)
    : result (fstate * list string * string) :=
  if Ascii.eqb c "." then Ok (FDot ljust width, args, "")
  else length_or_convert ljust width (-1) c args.

Definition flags_step (ljust : bool) (c : ascii) (args : list string)
    : result (fstate * list string * string) :=
  if Ascii.eqb c "-" then Ok (FFlags true, args, "")
  else if in_chars c "+ #0" then Ok (FFlags ljust, args, "")
  else if Ascii.eqb c "*" then Raise TypeError      (* [*] wants an int *)
  else if is_digit c then Ok (FWidth ljust (digit_val c), args, "")
  else dot_or_later ljust (-1) c args.

(** One character of the format: the next state, the arguments left and the
    text produced. *)
Definition fstep (st : fstate) (c : ascii) (args : list string)
    : result (fstate * list string * string) :=
  match st with
  | FLit =>
      if Ascii.eqb c "%" then Ok (FStart, args, "")
      else Ok (FLit, args, String c "")
  | FStart =>
      if Ascii.eqb c "(" then Raise TypeError       (* format requires a mapping *)
      else flags_step false c args
  | FFlags ljust => flags_step ljust c args
  | FWidth ljust width =>
      if is_digit c then
        if (PY_SSIZE_T_MAX - digit_val c) / 10 <? width then Raise ValueError
        else Ok (FWidth ljust (width * 10 + digit_val c), args, "")
      else dot_or_later ljust width c args
  | FDot ljust width =>
      if Ascii.eqb c "*" then Raise TypeError
      else if is_digit c then Ok (FPrec ljust width (digit_val c), args, "")
      else length_or_convert ljust width 0 c args
  | FPrec ljust width prec =>
      if is_digit c then
        if (INT_MAX - digit_val c) / 10 <? prec then Raise ValueError
        else Ok (FPrec ljust width (prec * 10 + digit_val c), args, "")
      else length_or_convert ljust width prec c args
  | FConv ljust width prec => convert ljust width prec c args
  end.

(** At the end of the format: a specifier left open is "incomplete format"
    (ValueError); arguments left over are "not all arguments converted"
    (TypeError). *)
Fixpoint format_loop (fmt : string) (st : fstate) (args : list string) : result string :=
  match fmt with
  | EmptyString =>
      match st, args with
      | FLit, [] => Ok ""
      | FLit, _ :: _ => Raise TypeError
      | _, _ => Raise ValueError
      end
  | String c fmt' =>
      '(st', args', piece) ← fstep st c args;
      rest ← format_loop fmt' st' args';
      Ok (piece +:+ rest)
  end.

Definition py_format (fmt : string) (args : list string) : result string :=
  format_loop fmt FLit args.

End format.

(** ** Report composer and mailer *)

Abbreviation table := (list (list value)).

Definition td (style col : string) : string :=
  "<td style=" +:+ dq +:+ style +:+ dq +:+ ">" +:+ col +:+ "</td>".

Definition table_open : string :=
  "<table cellspacing=" +:+ dq +:+ "1" +:+ dq +:+ " cellpadding=" +:+ dq +:+ "3" +:+ dq
  +:+ " border=" +:+ dq +:+ "1" +:+ dq
  +:+ "       style=" +:+ dq +:+ "table-layout:fixed;font-size:13px;"
  +:+ "              font-family:arial,sans,sans-serif;"
  +:+ "              border-collapse:collapse;border:1px "
  +:+ "              solid rgb(204,204,204)" +:+ dq +:+ ">".

Definition heading_le (x y : string * table) : Prop := String.leb x.1 y.1 = true.

#[global] Instance heading_le_dec : RelDecision heading_le.
Proof. intros x y. unfold heading_le. apply _. Defined.

Definition image_tag (image_id : string) : string :=
  "<img src=" +:+ dq +:+ "cid:" +:+ image_id +:+ dq +:+ " alt=" +:+ dq +:+ dq +:+ "/>".

Definition sender : string :=
  dq +:+ "bq-cron-reporter" +:+ dq +:+ " <toby-admin+bq-cron@khanacademy.org>".

Section mailer.
Context `{Externals}.

(** ['%s' % v] for a cell of the header row *)
Definition str_value (v : value) : string :=
  match v with
  | VAtom a => str_atom a
  | VList l => str_list l
  end.

(** Runs [f] over [l] in order and concatenates the body lines and the
    images each call adds. *)
Definition collect {A} (f : A → M (list string * list string)) (l : list A)
    : M (list string * list string) :=
  parts ← mapM f l;
  mret (concat (parts.*1), concat (parts.*2)).

(** One cell of a data row: the [<td>] line and the image it adds, if any. *)
Definition cell_html (col : value) : M (list string * list string) :=
  match col with
  | VAtom (AInt z) =>
      mret ([td "padding: 3px 5px 3px 8px;text-align: right;" (str_int z)], [])
  | VAtom (AFloat f) =>
      mret ([td "padding: 3px 5px 3px 8px;text-align: right;" (fmt_2f f)], [])
  | VList l =>
      image ← _render_sparkline l;
      match image with
      | Some (String c png) =>
          mret ([td "padding: 0px; text-align: center;" "%s"], [String c png])
      | _ => mret ([td "padding: 0px; text-align: center;" "(insufficient data)"], [])
      end
  | VAtom (AStr s) => mret ([td "padding: 3px 5px 3px 8px;" s], [])
  end.

Definition row_html (r : list value) : M (list string * list string) :=
  '(cells, images) ← collect cell_html r;
  mret (["<tr>"] ++ cells ++ ["</tr>"], images).

Definition table_html (ht : string * table) : M (list string * list string) :=
  let '(heading, t) := ht in
  let h3 := if String.eqb heading "" then [] else ["<h3>" +:+ heading +:+ "</h3>"] in
  match t with
  | (hd :: hds) :: rows =>
      '(body, images) ← collect row_html rows;
      mret (h3 ++ [table_open; "<thead>"; "<tr>"]
               ++ ((λ header, "<th>" +:+ str_value header +:+ "</th>") <$> (hd :: hds))
               ++ ["</tr>"; "</thead>"; "<tbody>"]
               ++ body
               ++ ["</tbody>"; "</table>"], images)
  | _ => mret (h3, [])
  end.

(** The body lines and the images of [_send_email], before they are joined
    and embedded.  [tables] is the dict the callers pass; the [graph]
    argument, which the source ignores, is left out. *)
Definition compose (tables : gmap string table) (preamble : option string)
    : M (list string * list string) :=
  let p := match preamble with
           | Some (String c s) => ["<p>" +:+ String c s +:+ "</p>"]
           | _ => []
           end in
  '(body, images) ← collect table_html (merge_sort heading_le (map_to_list tables));
  mret (p ++ body, images).

Definition image_id (image : string) : string :=
  sha1_hexdigest image +:+ "@khanacademy.org".

(** One turn of the loop over the images: the tag and the inline part, with
    its Content-ID.  [MIMEImage(image)] raises TypeError when it cannot guess
    the type of the image. *)
Definition embed_image (image : string) : result (string * (string * string)) :=
  let image_id := image_id image in
  match imghdr_what image with
  | Some _ => Ok (image_tag image_id, (image_id, image))
  | None => Raise TypeError
  end.

(** [_embed_images_to_mime(html, images)]: the HTML after the substitution
    and the inline parts. *)
Definition _embed_images_to_mime (html : string) (images : list string)
    : result (string * list (string * string)) :=
  match images with
  | [] => body ← py_format html []; Ok (body, [])
  | _ =>
      embedded ← mapM embed_image images;
      body ← py_format html (embedded.*1);
      Ok (body, embedded.*2)
  end.

(** [smtplib.SMTP('localhost').sendmail(...)] *)
Definition sendmail (to : list string) (msg : mime) : M unit := λ w,
  (Ok (), {| files := files w; dirs := dirs w; spawned := spawned w;
             outbox := outbox w ++ [(to, msg)] |}).

Definition _send_email (tables : gmap string table) (to : list string)
    (cc : list string) (subject : string) (preamble : option string) : M unit :=
  '(body, images) ← compose tables preamble;
  '(html, parts) ← lift (_embed_images_to_mime (String.concat nl body) images);
  sendmail to {| mime_html := html; mime_images := parts;
                 mime_subject := subject; mime_from := sender;
                 mime_to := String.concat ", " to;
                 mime_cc := match cc with
                            | [] => None
                            | _ => Some (String.concat ", " cc)
                            end |}.

End mailer.

(** ** Reports *)

(** Arithmetic on the fields of a row being shaped: a list operand is a
    TypeError. *)
Definition as_atom (v : value) : result atom :=
  match v with VAtom a => Ok a | VList _ => Raise TypeError end.

Definition v_add (x y : value) : result value :=
  a ← as_atom x; b ← as_atom y; VAtom <$> py_add a b.
Definition v_mul (x y : value) : result value :=
  a ← as_atom x; b ← as_atom y; VAtom <$> py_mul a b.
Definition v_div (x y : value) : result value :=
  a ← as_atom x; b ← as_atom y; VAtom <$> py_div a b.

(** [yyyymmdd[0:4]-yyyymmdd[4:6]-yyyymmdd[6:8]] *)
Definition _pretty_date (yyyymmdd : string) : string :=
  substring 0 4 yyyymmdd +:+ "-" +:+ substring 4 2 yyyymmdd +:+ "-"
  +:+ substring 6 2 yyyymmdd.

Definition recipients : list string := ["infrastructure-blackhole@khanacademy.org"].

(** Equality of the keys [(module_id, url_route)] *)
Definition pair_eq (x y : atom * atom) : bool := py_eq x.1 y.1 && py_eq x.2 y.2.

(** [total = 0.0; for row in data: total += row[k]] *)
Fixpoint sum_field (k : string) (data : list row) (total : value) : result value :=
  match data with
  | [] => Ok total
  | r :: rest => x ← getitem r k; t ← v_add total x; sum_field k rest t
  end.

(** The rows of a query result as the dicts the report then extends. *)
Definition as_rows (data : list bqrow) : list row :=
  (λ r : gmap string atom, VAtom <$> r) <$> data.

Section reports.
Context `{Externals}.

(** *** Instance hours by route

    [data] stands for the result of [_query_bigquery(query)]. *)

Definition instance_hours_sample (key : atom) (old_data : list (atom * bqrow))
    : result (option atom) :=
  match dict_get py_eq key old_data with
  | Some old_row =>
      if dict_truthy old_row then
        x ← getitem old_row "instance_hours";
        y ← getitem old_row "count_";
        Some <$> py_div x y
      else Ok None
  | None => Ok None
  end.

Definition instance_hours_row (total : value)
    (historical_data : list (list (atom * bqrow))) (row0 : row) : result row :=
  x ← getitem row0 "instance_hours";
  q ← v_div x total;
  pct ← v_mul q (VAtom (AInt 100));
  let row1 := <["%% of total" := pct]> row0 in
  x ← getitem row1 "instance_hours";
  c ← getitem row1 "count_";
  q ← v_div x c;
  per1k ← v_mul q (VAtom (AInt 1000));
  let row2 := <["per 1k requests" := per1k]> row1 in
  sparkline_data ← mapM (λ old_data,
      route ← getitem row2 "url_route";
      key ← as_atom route;
      instance_hours_sample key old_data) historical_data;
  Ok (<["last 2 weeks (per request)" := VList sparkline_data]> row2).

Definition instance_hours_ORDER : list string :=
  ["%% of total"; "instance_hours"; "count_"; "per 1k requests";
   "last 2 weeks (per request)"; "url_route"].

(** Everything [email_instance_hours] does before it sends the mail: the
    shaped table.  The stamp [yyyymmdd] is the first thing the function
    computes; the parts below each compute it for themselves. *)
Definition instance_hours_table (data : list bqrow) (date : Z) : M table :=
  yyyymmdd ← lift (date_strftime date);
  _save_daily_data data "instance_hours" yyyymmdd;;
  historical_data ← _process_past_data py_eq "instance_hours" date 14
                       (λ r, getitem r "url_route");
  lift (total_instance_hours ← sum_field "instance_hours" (as_rows data)
                                 (VAtom (AFloat 0));
        rows ← mapM (instance_hours_row total_instance_hours historical_data)
                    (as_rows data);
        _convert_table_rows_to_lists rows instance_hours_ORDER).

(** The dict of tables [email_instance_hours] hands to [_send_email]. *)
Definition instance_hours_content (data : list bqrow) (date : Z)
    : M (gmap string table) :=
  yyyymmdd ← lift (date_strftime date);
  data ← instance_hours_table data date;
  let heading := "Instance hours by route for " +:+ _pretty_date yyyymmdd in
  mret {[ heading := take 50 data ]}.

Definition email_instance_hours (data : list bqrow) (date : Z) : M unit :=
  content ← instance_hours_content data date;
  _send_email content recipients [] "Instance Hours by Route" None.

(** *** RPC calls by route *)

Definition rpc_fields : list string := ["Get"; "Put"; "Next"; "RunQuery"; "Delete"].
Definition micropennies : string := "&mu;&cent;".

Definition rpcs_sample (key : atom) (old_data : list (atom * bqrow))
    : result (option atom) :=
  match dict_get py_eq key old_data with
  | Some old_row =>
      if dict_truthy old_row && bool_decide (is_Some (old_row !! "rpc_cost")) then
        x ← getitem old_row "rpc_cost";
        y ← py_mul x (AFloat 1);
        n ← getitem old_row "requests";
        Some <$> py_div y n
      else Ok None
  | None => Ok None
  end.

(** [for stat in rpc_fields: row['%s/req' % stat] = row['rpc_%s' % stat] * 1.0 / row['requests']] *)
Fixpoint per_request (stats : list string) (r : row) : result row :=
  match stats with
  | [] => Ok r
  | stat :: rest =>
      x ← getitem r ("rpc_" +:+ stat);
      y ← v_mul x (VAtom (AFloat 1));
      n ← getitem r "requests";
      q ← v_div y n;
      per_request rest (<[stat +:+ "/req" := q]> r)
  end.

Definition rpcs_row (historical_data : list (list (atom * bqrow))) (row0 : row)
    : result row :=
  row1 ← per_request rpc_fields row0;
  x ← getitem row1 "rpc_cost";
  y ← v_mul x (VAtom (AFloat 1));
  n ← getitem row1 "requests";
  q ← v_div y n;
  let row2 := <[micropennies +:+ "/req" := q]> row1 in
  x ← getitem row2 "rpc_cost";
  dollars ← v_mul x (VAtom (AFloat 1.0e-8));
  let row3 := <["$" := dollars]> row2 in
  sparkline_data ← mapM (λ old_data,
      route ← getitem row3 "url_route";
      key ← as_atom route;
      rpcs_sample key old_data) historical_data;
  let row4 := <["last 2 weeks (" +:+ micropennies +:+ "/req)" := VList sparkline_data]> row3 in
  _ ← getitem row4 "rpc_cost";
  Ok (delete "rpc_cost" row4).

Definition rpcs_ORDER : list string :=
  ["url_route"; "requests"; "$"; micropennies +:+ "/req";
   "last 2 weeks (" +:+ micropennies +:+ "/req)"]
  ++ ((λ f, "rpc_" +:+ f) <$> rpc_fields)
  ++ ((λ f, f +:+ "/req") <$> rpc_fields).

Definition rpcs_table (data : list bqrow) (date : Z) : M table :=
  yyyymmdd ← lift (date_strftime date);
  _save_daily_data data "rpcs" yyyymmdd;;
  historical_data ← _process_past_data py_eq "rpcs" date 14
                       (λ r, getitem r "url_route");
  lift (rows ← mapM (rpcs_row historical_data) (as_rows data);
        _convert_table_rows_to_lists rows rpcs_ORDER).

(** The dict of tables [email_rpcs] hands to [_send_email]. *)
Definition rpcs_content (data : list bqrow) (date : Z) : M (gmap string table) :=
  yyyymmdd ← lift (date_strftime date);
  data ← rpcs_table data date;
  let heading := "RPC calls by route for " +:+ _pretty_date yyyymmdd in
  mret {[ heading := take 75 data ]}.

Definition email_rpcs (data : list bqrow) (date : Z) : M unit :=
  content ← rpcs_content data date;
  _send_email content recipients [] "RPC calls by route" None.

(** *** Out-of-memory errors, by module and by route *)

(** One entry of [sparkline_data] in both out-of-memory reports. *)
Definition oom_sample {K} (key_eqb : K → K → bool) (key : K)
    (old_data : list (K * bqrow)) : result (option atom) :=
  match dict_get key_eqb key old_data with
  | Some old_row =>
      if dict_truthy old_row then Some <$> getitem old_row "count_"
      else match old_data with
           | _ :: _ => Ok (Some (AInt 0))
           | [] => Ok None
           end
  | None =>
      match old_data with
      | _ :: _ => Ok (Some (AInt 0))
      | [] => Ok None
      end
  end.

Definition oom_by_module_row (historical_data : list (list (atom * bqrow)))
    (row0 : row) : result row :=
  sparkline_data ← mapM (λ old_data,
      m ← getitem row0 "module_id";
      key ← as_atom m;
      oom_sample py_eq key old_data) historical_data;
  Ok (<["last 2 weeks" := VList sparkline_data]> row0).

Definition oom_by_module_ORDER : list string :=
  ["count_"; "last 2 weeks"; "module_id";
   "numserved_10th"; "numserved_50th"; "numserved_90th"].

Definition oom_by_module_table (data : list bqrow) (date : Z) : M table :=
  yyyymmdd ← lift (date_strftime date);
  _save_daily_data data "out_of_memory_errors_by_module" yyyymmdd;;
  historical_data ← _process_past_data py_eq "out_of_memory_errors_by_module" date 14
                       (λ r, getitem r "module_id");
  lift (rows ← mapM (oom_by_module_row historical_data) (as_rows data);
        _convert_table_rows_to_lists rows oom_by_module_ORDER).

Definition oom_by_route_row (historical_data : list (list (atom * atom * bqrow)))
    (row0 : row) : result row :=
  sparkline_data ← mapM (λ old_data,
      m ← getitem row0 "module_id";
      r ← getitem row0 "url_route";
      km ← as_atom m;
      kr ← as_atom r;
      oom_sample pair_eq (km, kr) old_data) historical_data;
  Ok (<["last 2 weeks" := VList sparkline_data]> row0).

Definition oom_by_route_ORDER : list string :=
  ["count_"; "last 2 weeks"; "module_id"; "url_route"].

Definition oom_by_route_table (data : list bqrow) (date : Z) : M table :=
  yyyymmdd ← lift (date_strftime date);
  _save_daily_data data "out_of_memory_errors_by_route" yyyymmdd;;
  historical_data ← _process_past_data pair_eq "out_of_memory_errors_by_route" date 14
                       (λ r, m ← getitem r "module_id";
                             u ← getitem r "url_route";
                             Ok (m, u));
  lift (rows ← mapM (oom_by_route_row historical_data) (as_rows data);
        _convert_table_rows_to_lists rows oom_by_route_ORDER).

(** [data1] and [data2] stand for the results of the two queries. *)
Definition email_out_of_memory_errors (data1 data2 : list bqrow) (date : Z) : M unit :=
  yyyymmdd ← lift (date_strftime date);
  by_module ← oom_by_module_table data1 date;
  let email_content : gmap string table :=
    {[ "OOM errors by module for " +:+ _pretty_date yyyymmdd := by_module ]} in
  by_route ← oom_by_route_table data2 date;
  let email_content :=
    <["OOM errors by route for " +:+ _pretty_date yyyymmdd := by_route]> email_content in
  _send_email email_content recipients [] "OOM errors" None.

End reports.

(** * The rest of the script *)

(** ** [_is_number] *)

(** [s.strip(cs)]: the characters of [cs] removed from both ends. *)
Definition py_strip (cs s : string) : string :=
  let strippable := λ c, in_chars c cs in
  string_of_list_ascii
    (reverse (drop_while strippable (reverse (drop_while strippable (list_ascii_of_string s))))).

(** The argument is any Python object: [None] here stands for an object
    that is neither a number nor a string. *)
Definition _is_number (s : option value) : bool :=
  match s with
  | Some (VAtom (AInt _)) | Some (VAtom (AFloat _)) => true
  | Some (VAtom (AStr s)) => String.eqb (py_strip "01234567890.-" s) ""
  | _ => false
  end.

(** ** [_query_bigquery]: the naive type conversion *)

(** A value of the parsed JSON.  What an array or an object holds plays no
    part in the conversion. *)
Inductive json : Type :=
  | JNull
  | JBool (b : bool)
  | JInt (z : Z)
  | JFloat (f : float)
  | JStr (s : string)
  | JContainer.

(** [int(f)] for a float: truncation towards zero; ValueError for a NaN,
    OverflowError for an infinity. *)
Definition int_of_float (f : float) : result Z :=
  match Prim2SF f with
  | S754_zero _ => Ok 0
  | S754_infinity _ => Raise OverflowError
  | S754_nan => Raise ValueError
  | S754_finite s m e =>
      let magnitude := if 0 <=? e then Z.pos m * 2 ^ e else Z.pos m / 2 ^ (- e) in
      Ok (if s then - magnitude else magnitude)
  end.

Section query.
(** [int(s)] and [float(s)] for a string: [None] stands for ValueError. *)
Variables (int_of_str : string → option Z) (float_of_str : string → option float).

(** The new value of [row[key]]. *)
Definition convert_cell (v : json) : result atom :=
  match v with
  | JNull => Ok (AStr "(None)")
  | JBool b => Ok (AInt (if b then 1 else 0))
  | JInt z => Ok (AInt z)
  | JFloat f =>
      match int_of_float f with
      | Ok z => Ok (AInt z)
      | Raise ValueError => Ok (AFloat f)
      | Raise e => Raise e
      end
  | JStr s =>
      match int_of_str s with
      | Some z => Ok (AInt z)
      | None =>
          match float_of_str s with
          | Some f => Ok (AFloat f)
          | None => Ok (AStr s)
          end
      end
  | JContainer => Raise TypeError
  end.

(** A row is given by its items, in the order in which the dict iterates. *)
Definition convert_json_row (r : list (string * json)) : result (list (string * atom)) :=
  mapM (λ kv : string * json, v ← convert_cell kv.2; Ok (kv.1, v)) r.

Definition convert_json_table (table : list (list (string * json)))
    : result (list (list (string * atom))) :=
  mapM convert_json_row table.

End query.

(** ** Memory increases by route

    [data] stands for the result of [_query_bigquery(query)]; the
    [window_length] parameter of the source only shapes the query. *)

(** [by_module[heading].append(row)] on a [defaultdict(list)]: the groups,
    in the order in which their headings first came up. *)
Fixpoint group_append (heading : string) (r : bqrow)
    (by_module : list (string * list bqrow)) : list (string * list bqrow) :=
  match by_module with
  | [] => [(heading, [r])]
  | (h, rows) :: rest =>
      if String.eqb h heading then (h, rows ++ [r]) :: rest
      else (h, rows) :: group_append heading r rest
  end.

Definition memory_increases_ORDER : list string :=
  ["count_"; "added_avg"; "last 2 weeks (avg)"; "added_98th";
   "added_total"; "added %%"; "url_route"].

Section memory_increases.
Context `{Externals}.

(** The items of a dict in the order in which [for heading in by_module]
    visits them, from the items in the order of their insertion. *)
Variable dict_order : list (string * list bqrow) → list (string * list bqrow).

Definition memory_increases_heading (module : atom) (yyyymmdd : string) : string :=
  "Memory increases by route for " +:+ str_atom module +:+ " module on "
  +:+ _pretty_date yyyymmdd.

Fixpoint memory_increases_by_module (min_increase_in_mb : Z) (yyyymmdd : string)
    (data : list bqrow) (by_module : list (string * list bqrow))
    : result (list (string * list bqrow)) :=
  match data with
  | [] => Ok by_module
  | r :: rest =>
      x ← getitem r "added_total";
      if py_gt x (AInt min_increase_in_mb) then
        m ← getitem r "module";
        memory_increases_by_module min_increase_in_mb yyyymmdd rest
          (group_append (memory_increases_heading m yyyymmdd) r by_module)
      else memory_increases_by_module min_increase_in_mb yyyymmdd rest by_module
  end.

Definition memory_increases_sample (key : atom * atom)
    (old_data : list (atom * atom * bqrow)) : result (option atom) :=
  match dict_get pair_eq key old_data with
  | Some old_row =>
      if dict_truthy old_row then Some <$> getitem old_row "added_avg" else Ok None
  | None => Ok None
  end.

Definition memory_increases_row (total : value)
    (historical_data : list (list (atom * atom * bqrow))) (row0 : row) : result row :=
  x ← getitem row0 "added_total";
  q ← v_div x total;
  pct ← v_mul q (VAtom (AInt 100));
  let row1 := <["added %%" := pct]> row0 in
  sparkline_data ← mapM (λ old_data,
      m ← getitem row1 "module";
      u ← getitem row1 "url_route";
      km ← as_atom m;
      ku ← as_atom u;
      memory_increases_sample (km, ku) old_data) historical_data;
  let row2 := <["last 2 weeks (avg)" := VList sparkline_data]> row1 in
  _ ← getitem row2 "module";
  Ok (delete "module" row2).

(** One turn of [for heading in by_module]: the table that replaces the
    rows of the heading. *)
Definition memory_increases_module_table
    (historical_data : list (list (atom * atom * bqrow))) (rows0 : list bqrow)
    : result table :=
  let rows := as_rows rows0 in
  total ← sum_field "added_total" rows (VAtom (AInt 0));
  rows ← mapM (memory_increases_row total historical_data) rows;
  _convert_table_rows_to_lists (take 50 rows) memory_increases_ORDER.

(** The dict of tables [email_memory_increases] hands to [_send_email]. *)
Definition memory_increases_content (data : list bqrow) (date : Z)
    (min_increase_in_mb : Z) : M (gmap string table) :=
  yyyymmdd ← lift (date_strftime date);
  _save_daily_data data "memory_increases" yyyymmdd;;
  historical_data ← _process_past_data pair_eq "memory_increases" date 14
                       (λ r, m ← getitem r "module";
                             u ← getitem r "url_route";
                             Ok (m, u));
  lift (by_module ← memory_increases_by_module min_increase_in_mb yyyymmdd data [];
        tables ← mapM (λ group : string * list bqrow,
                    t ← memory_increases_module_table historical_data group.2;
                    Ok (group.1, t)) (dict_order by_module);
        Ok (list_to_map tables)).

Definition email_memory_increases (data : list bqrow) (date : Z)
    (min_increase_in_mb : Z) : M unit :=
  content ← memory_increases_content data date min_increase_in_mb;
  _send_email content recipients [] "Memory Increases by Route" None.

End memory_increases.

(** ** [main]

    The lines that [print] writes are kept beside the world. *)

Definition Script (A : Type) : Type := list string * world → result A * (list string * world).

#[global] Instance Script_ret : MRet Script := λ A a s, (Ok a, s).
#[global] Instance Script_bind : MBind Script := λ A B f m s,
  match m s with
  | (Ok a, s') => f a s'
  | (Raise e, s') => (Raise e, s')
  end.

Definition print (line : string) : Script unit := λ s, (Ok (), (s.1 ++ [line], s.2)).

Definition run {A} (m : M A) : Script A := λ s, ((m s.2).1, (s.1, (m s.2).2)).

(** The results of the five queries that the reports make. *)
Record query_results : Type := {
  instance_hours_data : list bqrow;
  rpcs_data : list bqrow;
  oom_by_module_data : list bqrow;
  oom_by_route_data : list bqrow;
  memory_increases_data : list bqrow;
}.

Section main.
Context `{Externals}.
Variable dict_order : list (string * list bqrow) → list (string * list bqrow).

(** [date] stands for [strptime(args.date, "%Y%m%d")]. *)
Definition main (q : query_results) (date : Z) : Script unit :=
  print "Emailing instance hour info";;
  run (email_instance_hours (instance_hours_data q) date);;
  print "Emailing rpc stats info";;
  run (email_rpcs (rpcs_data q) date);;
  print "Emailing out-of-memory info";;
  run (email_out_of_memory_errors (oom_by_module_data q) (oom_by_route_data q) date);;
  print "Emailing memory profiling info";;
  run (email_memory_increases dict_order (memory_increases_data q) date 1).

End main.

(** * gae_dashboard/gae_util.py *)

(** The exceptions of this module: KeyError (PATH is not set), OSError
    (a directory cannot be listed), RuntimeError (no SDK on the PATH),
    AssertionError (the directory found does not look like an SDK), and
    whatever the SDK's own [dev_appserver] raises. *)
Inductive gae_exn : Type :=
  | GaeKeyError | GaeOSError | GaeRuntimeError | GaeAssertionError | GaeSdkError.

(** What the module asks of the file system. *)
Record os_view : Type := {
  os_isdir : string → bool;
  os_listdir : string → option (list string);    (* [None]: OSError *)
  os_realpath : string → string;
}.

(** [s.split(sep)] for a separator of one character *)
Fixpoint split_on (sep : ascii) (s : string) : list string :=
  match s with
  | EmptyString => [""]
  | String c s' =>
      if Ascii.eqb c sep then "" :: split_on sep s'
      else match split_on sep s' with
           | word :: words => String c word :: words
           | [] => [String c ""]
           end
  end.

(** The [for ... else] loop of [_discover_sdk_path]. *)
Fixpoint find_sdk (os : os_view) (paths : list string) : gae_exn + string :=
  match paths with
  | [] => inl GaeRuntimeError
  | path :: rest =>
      if os_isdir os path then
        match os_listdir os path with
        | None => inl GaeOSError
        | Some names =>
            if bool_decide ("dev_appserver.py" ∈ names) then
              let realpath := os_realpath os (path_join path "dev_appserver.py") in
              inr (dirname realpath)
            else find_sdk os rest
        end
      else find_sdk os rest
  end.

Definition _discover_sdk_path (os : os_view) (environ : gmap string string)
    : gae_exn + string :=
  match environ !! "PATH" with
  | None => inl GaeKeyError
  | Some p =>
      match find_sdk os (split_on ":" p) with
      | inr path =>
          if os_isdir os (path_join (path_join path "google") "appengine")
          then inr path else inl GaeAssertionError
      | inl e => inl e
      end
  end.

(** The attributes of a module that [fix_sys_path] touches; [None] stands
    for an attribute the module does not have. *)
Record py_module : Type := {
  module_file : option string;            (* [__file__] *)
  module_path : option (list string);     (* [__path__] *)
}.

Record py_state : Type := {
  os_environ : gmap string string;
  sys_path : list string;
  sys_modules_google : option py_module;  (* [sys.modules.get('google')] *)
}.

(** [if k not in os.environ: os.environ[k] = v] *)
Definition set_default (k v : string) (environ : gmap string string)
    : gmap string string :=
  match environ !! k with Some _ => environ | None => <[k := v]> environ end.

(** The state in which [fix_sys_path] hands over to
    [dev_appserver.fix_sys_path()]. *)
Definition prepare_sys_path (appengine_sdk_dir : string) (st : py_state) : py_state :=
  {| os_environ := os_environ st;
     sys_path := appengine_sdk_dir :: sys_path st ++ [appengine_sdk_dir];
     sys_modules_google :=
       match sys_modules_google st with
       | Some {| module_file := f; module_path := Some p |} =>
           Some {| module_file := Some (path_join appengine_sdk_dir "google");
                   module_path := Some (path_join appengine_sdk_dir "google" :: p) |}
       | other => other
       end |}.

Section fix_sys_path.
Variable os : os_view.
(** [import dev_appserver; dev_appserver.fix_sys_path()] *)
Variable dev_appserver_fix_sys_path : py_state → option gae_exn * py_state.

(** The exception raised, if any, and the state left behind.  An
    [appengine_sdk_dir] that is [None] or empty is looked up on the PATH. *)
Definition fix_sys_path (appengine_sdk_dir : option string) (st : py_state)
    : option gae_exn * py_state :=
  let environ :=
    set_default "CURRENT_VERSION" "764.1"
      (set_default "SERVER_SOFTWARE" "Development" (os_environ st)) in
  let st1 := {| os_environ := environ; sys_path := sys_path st;
                sys_modules_google := sys_modules_google st |} in
  let found :=
    match appengine_sdk_dir with
    | Some (String c s) => inr (String c s)
    | _ => _discover_sdk_path os environ
    end in
  match found with
  | inl e => (Some e, st1)
  | inr sdk => dev_appserver_fix_sys_path (prepare_sys_path sdk st1)
  end.

End fix_sys_path.

(** * Vocabulary of the statements *)

(** ** Strings and file names *)

Abbreviation chars := list_ascii_of_string.

Definition no_slash (s : string) : bool :=
  forallb (λ c, negb (is_slash c)) (chars s).

(** A report name without a slash, and a date stamp of eight characters
    without a slash, as [strftime("%Y%m%d")] yields. *)
Definition wf_key (report yyyymmdd : string) : Prop :=
  no_slash report = true ∧ no_slash yyyymmdd = true ∧ String.length yyyymmdd = 8%nat.

Definition snapshot_name (report yyyymmdd : string) : string :=
  report +:+ "_" +:+ yyyymmdd +:+ ".pickle".

Section store_vocabulary.
Context `{Externals}.


(** The directory of a snapshot file and the directories above it. *)
Definition data_dirs (report yyyymmdd : string) : list string :=
  dirname (_get_data_filename report yyyymmdd)
  :: ancestors (dirname (_get_data_filename report yyyymmdd)).


(** The world in which one snapshot, and nothing else, has been saved. *)
Definition saved_world (data : list bqrow) (report yyyymmdd : string) : world :=
  {| files := {[ _get_data_filename report yyyymmdd := cPickle_dumps data ]};
     dirs := list_to_set (data_dirs report yyyymmdd);
     spawned := []; outbox := [] |}.

End store_vocabulary.

(** ** History aggregator *)

Section history_vocabulary.
Context `{Externals} {K : Type} (key_eqb : K → K → bool) (keyfn : bqrow → result K).

(** The record [r] has the key [q]. *)
Definition keyed (q : K) (r : bqrow) : bool :=
  match keyfn r with Ok k => key_eqb k q | Raise _ => false end.

(** The snapshot path of [report] for a day is absent, or a file holding a
    pickle that loads, of records that have a key. *)
Definition snapshot_readable (report yyyymmdd : string) (w : world) : Prop :=
  (_get_data_filename report yyyymmdd ∉ dirs w)
  ∧ ∀ s, files w !! _get_data_filename report yyyymmdd = Some s →
         ∃ data, cPickle_loads s = Ok data ∧ Forall (λ r, ∃ k, keyfn r = Ok k) data.

(** ... for every day of the window that ends at [end_date]. *)
Definition window_readable (report : string) (end_date history_length : Z)
    (w : world) : Prop :=
  ∀ i, 0 ≤ i ≤ history_length → snapshot_readable report (strftime (end_date - i)) w.

(** What the index of a day holds, given the contents of the snapshot file
    of that day, if there is one: nothing without a file; otherwise, for
    every key, the last record of the snapshot that has the key, and
    something unless the snapshot has no record. *)
Definition day_holds (snapshot : option string) (idx : list (K * bqrow)) : Prop :=
  match snapshot with
  | None => idx = []
  | Some s =>
      ∃ old_data, cPickle_loads s = Ok old_data
        ∧ (idx = [] ↔ old_data = [])
        ∧ ∀ q, dict_get key_eqb q idx = last (filter (λ r, keyed q r = true) old_data)
  end.

End history_vocabulary.

(** ** Table shaper *)

Definition header_row (order : list string) : list value :=
  (λ k, VAtom (AStr k)) <$> order.

(** The position [order.index(k)], for a [k] that is in [order]. *)
Definition position (order : list string) (k : string) : nat :=
  match list_index k order with Ok i => i | Raise _ => 0%nat end.

Definition decorate (order : list string) (kv : string * value) : nat * (string * value) :=
  (position order kv.1, kv).

Definition row_a_only : row := {[ "a" := VAtom (AInt 1) ]}.
Definition row_ab : row := {[ "b" := VAtom (AInt 2); "a" := VAtom (AInt 1) ]}.
Definition row_ac : row := {[ "a" := VAtom (AInt 1); "c" := VAtom (AInt 3) ]}.

(** ** Out-of-memory reports *)





(** ** Sparkline samples *)

(** A sample the plot can take: an int that converts to a float, or a float
    that is not a NaN. *)
Definition plottable (a : atom) : Prop :=
  match a with
  | AInt z => ∃ f, py_float z = Ok f
  | AFloat f => exact_float f ≠ XNaN
  | AStr _ => False
  end.

(** [float(a)] for a number. *)
Definition float_of_atom (a : atom) : result float :=
  match a with
  | AInt z => py_float z
  | AFloat f => Ok f
  | AStr _ => Raise TypeError
  end.

(** ** The instance-hours scenario *)

Definition route_row (url_route : string) (instance_hours : float) (count_ : Z) : bqrow :=
  {[ "url_route" := AStr url_route;
     "instance_hours" := AFloat instance_hours;
     "count_" := AInt count_ ]}.

(** Three records for routes /a, /b and /c. *)
Definition scenario : list bqrow :=
  [route_row "/a" 10 100; route_row "/b" 5 50; route_row "/c" 2 10].

(** The series of the /a row: fourteen days without data, then the day
    itself. *)
Definition scenario_sparkline : list (option atom) :=
  replicate 14 None ++ [Some (AFloat (10 / 100))].

Definition scenario_first_row : list value :=
  [VAtom (AFloat (10 / 17 * 100)); VAtom (AFloat 10); VAtom (AInt 100);
   VAtom (AFloat 100); VList scenario_sparkline; VAtom (AStr "/a")].

(** The index of the scenario's own day, keyed by route. *)
Definition scenario_index : list (atom * bqrow) :=
  [(AStr "/a", route_row "/a" 10 100); (AStr "/b", route_row "/b" 5 50);
   (AStr "/c", route_row "/c" 2 10)].

(** ** Placeholders of a format *)

(** The number of [%s] specifiers in a text all of whose other percent
    signs are written [%%]; [None] when some percent sign is neither. *)
Fixpoint placeholders (s : string) : option nat :=
  match s with
  | EmptyString => Some 0%nat
  | String c s1 =>
      if Ascii.eqb c "%" then
        match s1 with
        | String d s2 =>
            if Ascii.eqb d "%" then placeholders s2
            else if Ascii.eqb d "s" then S <$> placeholders s2
            else None
        | EmptyString => None
        end
      else placeholders s1
  end.

(** The text with every [%%] replaced by a percent sign and the i-th [%s]
    by the i-th argument. *)
Fixpoint substitute (s : string) (args : list string) : string :=
  match s with
  | EmptyString => EmptyString
  | String c s1 =>
      if Ascii.eqb c "%" then
        match s1 with
        | String d s2 =>
            if Ascii.eqb d "%" then String "%" (substitute s2 args)
            else match args with
                 | a :: args' => a +:+ substitute s2 args'
                 | [] => substitute s2 []
                 end
        | EmptyString => EmptyString
        end
      else String c (substitute s1 args)
  end.

(** No unescaped percent sign and no placeholder. *)
Definition clean_text (s : string) : Prop := placeholders s = Some 0%nat.

Fixpoint total_placeholders (lines : list string) : option nat :=
  match lines with
  | [] => Some 0%nat
  | l :: rest =>
      n ← placeholders l; m ← total_placeholders rest; Some (n + m)%nat
  end.

(** Body lines and images that go together: as many placeholders as
    images, and no other specifier. *)
Definition counts (r : list string * list string) : Prop :=
  total_placeholders r.1 = Some (length r.2).

Definition clean_cell (col : value) : Prop :=
  match col with
  | VAtom (AStr s) => clean_text s
  | _ => True
  end.

Section composed_body.
Context `{Externals}.

Definition clean_table (t : table) : Prop :=
  match t with
  | [] => True
  | header :: rows =>
      Forall (λ h, clean_text (str_value h)) header ∧ Forall (Forall clean_cell) rows
  end.

Definition clean_tables (tables : gmap string table) : Prop :=
  ∀ heading t, tables !! heading = Some t → clean_text heading ∧ clean_table t.

Definition clean_preamble (preamble : option string) : Prop :=
  match preamble with Some p => clean_text p | None => True end.

End composed_body.

(** ** The page that is mailed *)

(** What the formatter prints for a clean text: each [%%] as one percent
    sign. *)
Definition unescape (s : string) : string := substitute s [].

(** The lines with the arguments put in, each line taking as many as it has
    placeholders. *)
Fixpoint subst_lines (lines : list string) (args : list string) : list string :=
  match lines with
  | [] => []
  | l :: rest =>
      let n := default 0%nat (placeholders l) in
      substitute l (take n args) :: subst_lines rest (drop n args)
  end.

Section shown.
Context `{Externals}.

Definition tag_of (image : string) : string := image_tag (image_id image).

(** The image of a sparkline series, if one is rendered: the output of
    gnuplot, unless it is empty.  What [_render_sparkline] returns does not
    depend on the world it runs in. *)
Definition sparkline_image (l : list (option atom)) : option string :=
  match (_render_sparkline l empty_world).1 with
  | Ok (Some (String c png)) => Some (String c png)
  | _ => None
  end.

Definition cell_image (col : value) : option string :=
  match col with
  | VList l => sparkline_image l
  | VAtom _ => None
  end.

(** The data cells in the order in which [_send_email] goes through them:
    the tables by heading; in a table with a header, the rows below the
    header from the top, the cells of a row from the left. *)
Definition table_cells (t : table) : list value :=
  match t with
  | (hd :: hds) :: rows => concat rows
  | _ => []
  end.

Definition cells_in_order (tables : gmap string table) : list value :=
  concat ((λ ht : string * table, table_cells ht.2)
            <$> merge_sort heading_le (map_to_list tables)).

(** The page in which every sparkline cell shows the image of its own
    series. *)
Definition shown_cell (col : value) : string :=
  match col with
  | VAtom (AInt z) => td "padding: 3px 5px 3px 8px;text-align: right;" (str_int z)
  | VAtom (AFloat f) =>
      td "padding: 3px 5px 3px 8px;text-align: right;" (unescape (fmt_2f f))
  | VAtom (AStr s) => td "padding: 3px 5px 3px 8px;" (unescape s)
  | VList l =>
      td "padding: 0px; text-align: center;"
         match sparkline_image l with
         | Some image => tag_of image
         | None => "(insufficient data)"
         end
  end.

Definition shown_row (r : list value) : list string :=
  ["<tr>"] ++ (shown_cell <$> r) ++ ["</tr>"].

Definition shown_table (ht : string * table) : list string :=
  (if String.eqb ht.1 "" then [] else ["<h3>" +:+ unescape ht.1 +:+ "</h3>"])
  ++ match ht.2 with
     | (hd :: hds) :: rows =>
         [table_open; "<thead>"; "<tr>"]
         ++ ((λ header, "<th>" +:+ unescape (str_value header) +:+ "</th>") <$> (hd :: hds))
         ++ ["</tr>"; "</thead>"; "<tbody>"]
         ++ concat (shown_row <$> rows)
         ++ ["</tbody>"; "</table>"]
     | _ => []
     end.

Definition shown_body (tables : gmap string table) (preamble : option string)
    : list string :=
  match preamble with
  | Some (String c s) => ["<p>" +:+ unescape (String c s) +:+ "</p>"]
  | _ => []
  end
  ++ concat (shown_table <$> merge_sort heading_le (map_to_list tables)).

(** Body lines and images as [_send_email] collects them, against the lines
    to be shown and the images expected: the images are the expected ones,
    there is one placeholder for each, and putting their tags in gives the
    lines to be shown. *)
Definition paired (r : list string * list string) (shown : list string)
    (images : list string) : Prop :=
  r.2 = images
  ∧ total_placeholders r.1 = Some (length images)
  ∧ subst_lines r.1 (tag_of <$> images) = shown.

End shown.

(** ** A concrete environment

    Used to run the functions on concrete inputs: the stamps of the
    Gregorian calendar, a pickle codec that holds the scenario, a gnuplot
    whose output starts with the signature of a PNG file and goes on with the
    script it was given, the length of the input in place of its SHA-1. *)

(** Year, month and day of the day with ordinal [d]. *)
Definition civil (d : Z) : Z * Z * Z :=
  let z := d + 305 in                      (* days since 0000-03-01 *)
  let era := z / 146097 in
  let doe := z - era * 146097 in
  let yoe := (doe - doe / 1460 + doe / 36524 - doe / 146096) / 365 in
  let doy := doe - (365 * yoe + yoe / 4 - yoe / 100) in
  let mp := (5 * doy + 2) / 153 in
  let day := doy - (153 * mp + 2) / 5 + 1 in
  let month := if mp <? 10 then mp + 3 else mp - 9 in
  (yoe + era * 400 + (if month <=? 2 then 1 else 0), month, day).

Definition zero_padded (width : nat) (n : Z) : string :=
  string_of_list_ascii
    (replicate (width - String.length (str_int n)) "0"%char) +:+ str_int n.

Definition demo_strftime (d : Z) : string :=
  let '(year, month, day) := civil d in
  zero_padded 4 year +:+ zero_padded 2 month +:+ zero_padded 2 day.

(** 2014-08-31 *)
Definition demo_day : Z := 735476.

Definition png_signature : string :=
  string_of_list_ascii (ascii_of_nat <$> [137; 80; 78; 71; 13; 10; 26; 10]%nat).

Definition demo_externals : Externals := {|
  HOME := "/home/analytics";
  strftime := demo_strftime;
  cPickle_dumps := λ _, "scenario.pickle";
  cPickle_loads := λ _, Ok scenario;
  str_float := λ _, "0.1";
  fmt_2f := λ _, "0.10";
  gnuplot := λ script, Ok (png_signature +:+ script);
  sha1_hexdigest := λ s, str_int (Z.of_nat (String.length s));
  py_repr := λ s, s;
  str_list := λ _, "[]";
  imghdr_what := λ image,
    if String.prefix png_signature image then Some "png" else None;
|}.

(** Fifty records, for routes /r0 to /r49. *)
Definition fifty_routes : list bqrow :=
  (λ i : nat, route_row ("/r" +:+ str_int (Z.of_nat i)) 1 (Z.of_nat (S i))) <$> seq 0 50.

Definition heading_with_placeholder : gmap string table :=
  {[ "%s" := [[VAtom (AStr "count_")]; [VAtom (AInt 1)]] ]}.

Definition cell_with_flagged_percent : gmap string table :=
  {[ "Routes" := [[VAtom (AStr "url_route")]; [VAtom (AStr "/a% %b")]] ]}.

Definition cell_with_encoded_space : gmap string table :=
  {[ "Routes" := [[VAtom (AStr "url_route")]; [VAtom (AStr "/a%20b")]] ]}.

Definition cell_with_placeholder : gmap string table :=
  {[ "Routes" := [[VAtom (AStr "url_route")]; [VAtom (AStr "%s")]] ]}.

(** Three rows: a series that is plotted, one with too few samples, and
    another that is plotted. *)
Definition first_series : list (option atom) := [Some (AInt 1); Some (AInt 2); Some (AInt 3)].
Definition short_series : list (option atom) := [None; Some (AInt 1)].
Definition second_series : list (option atom) :=
  [Some (AInt 4); Some (AInt 5); Some (AInt 6); Some (AInt 7)].

Definition table_with_sparkline : gmap string table :=
  {[ "OOM errors" :=
       [[VAtom (AStr "%% of total"); VAtom (AStr "last 2 weeks")];
        [VAtom (AFloat 1.5); VList first_series];
        [VAtom (AFloat 2.5); VList short_series];
        [VAtom (AFloat 0.5); VList second_series]] ]}.

(** ** The rest of the script *)

(** A row of cells that holds a sparkline series of [n] samples. *)
Definition has_series (n : nat) (cells : list value) : Prop :=
  ∃ l, VList l ∈ cells ∧ length l = n.

(** The items of [r] for the names of [order], each with the position of its
    name, counted from [start]. *)
Definition listed (r : row) (start : nat) (order : list string)
    : list (nat * (string * value)) :=
  omap (λ ik : nat * string, (λ v, (ik.1, (ik.2, v))) <$> r !! ik.2)
       (zip (seq start (length order)) order).


(** A record that [email_memory_increases] lists under [heading]: its
    [added_total] exceeds the threshold and its module gives that heading. *)
Definition listed_under `{Externals} (min_increase_in_mb : Z) (yyyymmdd heading : string)
    (r : bqrow) : bool :=
  match r !! "added_total", r !! "module" with
  | Some x, Some m =>
      py_gt x (AInt min_increase_in_mb)
      && String.eqb (memory_increases_heading m yyyymmdd) heading
  | _, _ => false
  end.

(** The groups [by_module] holds after the records [seen]. *)
Definition groups_of `{Externals} (min_increase_in_mb : Z) (yyyymmdd : string)
    (seen : list bqrow) (g : list (string * list bqrow)) : Prop :=
  NoDup g.*1
  ∧ ∀ h rows, (h, rows) ∈ g
      ↔ rows = filter (λ r, listed_under min_increase_in_mb yyyymmdd h r = true) seen
        ∧ rows ≠ [].





(** A record with exactly the three fields of the instance-hours query. *)
Definition instance_hours_record (url_route instance_hours count_ : atom) : bqrow :=
  {[ "url_route" := url_route; "instance_hours" := instance_hours; "count_" := count_ ]}.

(** A PATH entry that is a directory holding [dev_appserver.py]; an entry
    that the search passes over. *)
Definition holds_sdk (os : os_view) (path : string) : Prop :=
  os_isdir os path = true
  ∧ ∃ names, os_listdir os path = Some names ∧ "dev_appserver.py" ∈ names.

Definition passed_over (os : os_view) (path : string) : Prop :=
  os_isdir os path = false
  ∨ ∃ names, os_listdir os path = Some names ∧ "dev_appserver.py" ∉ names.

(** ** More concrete inputs *)

Definition memory_row (module url_route : string) (added_total : float) : bqrow :=
  {[ "count_" := AInt 7; "url_route" := AStr url_route; "module" := AStr module;
     "added_avg" := AFloat 0.5; "added_98th" := AFloat 2;
     "added_total" := AFloat added_total ]}.

(** Two routes of the default module above the threshold of 1 MB, one
    route of the batch module below it and one above. *)
Definition memory_rows : list bqrow :=
  [memory_row "default" "/a" 3; memory_row "batch" "/b" 0.5;
   memory_row "default" "/c" 1.5; memory_row "batch" "/d" 8].

(** The environment of [demo_externals] with a pickle codec that holds
    [memory_rows]. *)
Definition memory_externals : Externals := {|
  HOME := "/home/analytics";
  strftime := demo_strftime;
  cPickle_dumps := λ _, "memory.pickle";
  cPickle_loads := λ _, Ok memory_rows;
  str_float := λ _, "0.1";
  fmt_2f := λ _, "0.10";
  gnuplot := λ script, Ok (png_signature +:+ script);
  sha1_hexdigest := λ s, str_int (Z.of_nat (String.length s));
  py_repr := λ s, s;
  str_list := λ _, "[]";
  imghdr_what := λ image,
    if String.prefix png_signature image then Some "png" else None;
|}.

(** A file system in which /opt/bin holds a link to the SDK's
    [dev_appserver.py]. *)
Definition demo_os : os_view := {|
  os_isdir := λ p, bool_decide (p ∈ ["/usr/bin"; "/opt/bin"; "/opt/google_appengine";
                                     "/opt/google_appengine/google/appengine"]);
  os_listdir := λ p, if String.eqb p "/opt/bin" then Some ["ls"; "dev_appserver.py"]
                     else Some ["ls"];
  os_realpath := λ p, if String.eqb p "/opt/bin/dev_appserver.py"
                      then "/opt/google_appengine/dev_appserver.py" else p;
|}.

Definition demo_state : py_state := {|
  os_environ := {[ "PATH" := "/usr/bin:/opt/bin"; "SERVER_SOFTWARE" := "Production" ]};
  sys_path := ["/usr/lib/python2.7"];
  sys_modules_google := None;
|}.

(** * Proofs *)

(** ** Sanity checks of the Python arithmetic *)

Example py_div_floor : py_div (AInt (-7)) (AInt 2) = Ok (AInt (-4)).
Proof. reflexivity. Qed.

Example py_div_float : py_div (AFloat 10) (AInt 100) = Ok (AFloat 0.1).
Proof. reflexivity. Qed.

Example py_div_by_zero : py_div (AFloat 1) (AInt 0) = Raise ZeroDivisionError.
Proof. reflexivity. Qed.

Example py_max_mixed : py_max [AInt 1; AFloat 2.5; AInt 2] = Ok (AFloat 2.5).
Proof. reflexivity. Qed.

Example py_eq_int_float : py_eq (AInt 1) (AFloat 1) = true.
Proof. reflexivity. Qed.

(** [==] on ints, floats and strs is symmetric and transitive. *)
Lemma xeq_sym (x y : xreal) : xeq x y = xeq y x.
Proof.
  destruct x as [|[]|p], y as [|[]|q]; try done. cbn.
  apply eq_true_iff_eq. rewrite !Qeq_bool_iff. split; intros E; by rewrite E.
Qed.

Lemma xeq_trans (x y z : xreal) : xeq x y = true → xeq y z = true → xeq x z = true.
Proof.
  destruct x as [|[]|p], y as [|[]|q], z as [|[]|r]; try done. cbn.
  rewrite !Qeq_bool_iff. intros E1 E2. by rewrite E1.
Qed.

Lemma py_eq_sym (a b : atom) : py_eq a b = py_eq b a.
Proof.
  destruct a, b; try done; unfold py_eq; first [apply xeq_sym|apply String.eqb_sym].
Qed.

Lemma py_eq_trans (a b c : atom) : py_eq a b = true → py_eq b c = true → py_eq a c = true.
Proof.
  destruct a, b, c; try done; unfold py_eq; try apply xeq_trans.
  intros ->%String.eqb_eq ->%String.eqb_eq. apply String.eqb_refl.
Qed.

(** ** The monad of effects *)

Lemma M_bind_unfold {A B} (f : A → M B) (m : M A) (w : world) :
  (m ≫= f) w = match m w with (Ok a, w') => f a w' | (Raise e, w') => (Raise e, w') end.
Proof. reflexivity. Qed.

Lemma M_bind_ok {A B} (f : A → M B) (m : M A) (w w' : world) (a : A) :
  m w = (Ok a, w') → (m ≫= f) w = f a w'.
Proof. intros E. rewrite M_bind_unfold, E. reflexivity. Qed.

Lemma M_bind_raise {A B} (f : A → M B) (m : M A) (w w' : world) (e : exn) :
  m w = (Raise e, w') → (m ≫= f) w = (Raise e, w').
Proof. intros E. rewrite M_bind_unfold, E. reflexivity. Qed.

(** A computation that only reads: it leaves the world as it found it. *)
Lemma mapM_read {A B} (f : A → M B) (g : A → B) (l : list A) (w : world) :
  (∀ x, x ∈ l → f x w = (Ok (g x), w)) → mapM f l w = (Ok (g <$> l), w).
Proof.
  induction l as [|x l IH]; intros Hf; [reflexivity|].
  cbn [mapM]. rewrite (M_bind_ok _ _ w w (g x)) by (apply Hf; left).
  rewrite (M_bind_ok _ _ w w (g <$> l)); [reflexivity|].
  apply IH. intros y Hy. apply Hf. by right.
Qed.

(** ** Sparkline renderer: too few samples *)

Section sparkline_facts.
Context `{Externals}.

Lemma render_sparkline_insufficient (data : list (option atom)) (w : world) :
  (length (existing_data data) < 3)%nat →
  _render_sparkline data w = (Ok None, w).
Proof.
  intros Hlen. unfold _render_sparkline.
  destruct (Nat.ltb_spec (length (existing_data data)) 3) as [_|Hge]; [reflexivity|lia].
Qed.

End sparkline_facts.

(** ** Strings as lists of characters *)

Lemma chars_app (s t : string) : chars (s +:+ t) = chars s ++ chars t.
Proof. induction s as [|c s IH]; [reflexivity|]. cbn. by rewrite <- IH. Qed.

Lemma chars_inj (s t : string) : chars s = chars t → s = t.
Proof.
  intros E. rewrite <- (string_of_list_ascii_of_string s),
    <- (string_of_list_ascii_of_string t). by rewrite E.
Qed.

Lemma chars_length (s : string) : length (chars s) = String.length s.
Proof. induction s; cbn; auto. Qed.

Lemma str_app_assoc (s t u : string) : (s +:+ t) +:+ u = s +:+ (t +:+ u).
Proof. apply chars_inj. by rewrite !chars_app, app_assoc. Qed.

Lemma drop_while_app_all {A} (p : A → bool) (l k : list A) :
  forallb p l = true → drop_while p (l ++ k) = drop_while p k.
Proof.
  induction l as [|x l IH]; cbn; [done|].
  intros [Hx Hl]%andb_prop. rewrite Hx. auto.
Qed.

Lemma drop_while_stop {A} (p : A → bool) (x : A) (l : list A) :
  p x = false → drop_while p (x :: l) = x :: l.
Proof. intros E. cbn. by rewrite E. Qed.

Lemma drop_while_skip {A} (p : A → bool) (x : A) (l : list A) :
  p x = true → drop_while p (x :: l) = drop_while p l.
Proof. intros E. cbn. by rewrite E. Qed.

Lemma head_up_to_last_slash (d name : list ascii) :
  forallb (λ c, negb (is_slash c)) name = true →
  reverse (drop_while (λ c, negb (is_slash c)) (reverse (d ++ ["/"%char] ++ name)))
  = d ++ ["/"%char].
Proof.
  intros Hname. rewrite !reverse_app, <- app_assoc.
  rewrite drop_while_app_all.
  - change (reverse ["/"%char]) with ["/"%char].
    rewrite <- (app_comm_cons [] _ "/"%char), app_nil_l.
    rewrite drop_while_stop by done.
    by rewrite reverse_cons, reverse_involutive.
  - rewrite forallb_forall in Hname |- *. intros c Hc. apply Hname.
    apply list_elem_of_In. apply list_elem_of_In in Hc. by rewrite elem_of_reverse in Hc.
Qed.

Lemma rstrip_slash (d : list ascii) (c : ascii) :
  is_slash c = false →
  reverse (drop_while is_slash (reverse ((d ++ [c]) ++ ["/"%char]))) = d ++ [c].
Proof.
  intros Hc. rewrite !reverse_snoc.
  rewrite drop_while_skip by done. rewrite drop_while_stop by done.
  by rewrite reverse_cons, reverse_involutive.
Qed.

Lemma drop_while_length {A} (p : A → bool) (l : list A) :
  (length (drop_while p l) ≤ length l)%nat.
Proof. induction l as [|x l IH]; cbn; [lia|]. destruct (p x); cbn; lia. Qed.

Lemma dirname_length (p : string) : (String.length (dirname p) ≤ String.length p)%nat.
Proof.
  unfold dirname. rewrite <- !chars_length, list_ascii_of_string_of_list_ascii.
  set (head := reverse (drop_while _ (reverse (chars p)))).
  assert (Hhead : (length head ≤ length (chars p))%nat).
  { unfold head. rewrite length_reverse.
    etrans; [apply drop_while_length|]. by rewrite length_reverse. }
  destruct (forallb is_slash head); [done|].
  rewrite length_reverse. etrans; [apply drop_while_length|].
  by rewrite length_reverse.
Qed.

Lemma parents_length (fuel : nat) (p a : string) :
  a ∈ parents fuel p → (String.length a ≤ String.length p)%nat.
Proof.
  revert p. induction fuel as [|fuel IH]; intros p; cbn.
  { by intros ?%elem_of_nil. }
  destruct (_ || _); [by intros ?%elem_of_nil|].
  pose proof (dirname_length p).
  intros [->|Ha%IH]%elem_of_cons; lia.
Qed.

Lemma all_slashes_snoc (d : list ascii) (c : ascii) :
  is_slash c = false → forallb is_slash ((d ++ [c]) ++ ["/"%char]) = false.
Proof. intros Hc. rewrite !forallb_app. cbn. rewrite Hc. by rewrite andb_false_r. Qed.

(** ** File names of the snapshot store *)

Section store_facts.
Context `{Externals}.

Lemma data_directory_shape :
  ∃ prefix, _DATA_DIRECTORY = prefix +:+ "bq_data/".
Proof.
  unfold _DATA_DIRECTORY, path_join. cbn [startswith_slash is_slash].
  change (Ascii.eqb "b" "/") with false. cbv iota.
  destruct (_ || _); [by exists HOME|].
  exists (HOME +:+ "/"). by rewrite str_app_assoc.
Qed.

Lemma no_slash_app (s t : string) :
  no_slash (s +:+ t) = no_slash s && no_slash t.
Proof. unfold no_slash. by rewrite chars_app, forallb_app. Qed.

Lemma snapshot_name_no_slash (report yyyymmdd : string) :
  no_slash report = true → no_slash yyyymmdd = true →
  no_slash (snapshot_name report yyyymmdd) = true.
Proof.
  intros Hr Hd. unfold snapshot_name.
  rewrite !no_slash_app, Hr, Hd. reflexivity.
Qed.

Lemma startswith_no_slash (s : string) : no_slash s = true → startswith_slash s = false.
Proof.
  destruct s as [|c s]; [done|]. unfold no_slash. cbn.
  intros [Hc _]%andb_prop. by apply negb_true_iff.
Qed.

Lemma endswith_slash_app (s : string) : endswith_slash (s +:+ "/") = true.
Proof.
  unfold endswith_slash. rewrite chars_app, reverse_app. reflexivity.
Qed.

Lemma get_data_filename_shape (report yyyymmdd : string) :
  no_slash report = true → no_slash yyyymmdd = true →
  _get_data_filename report yyyymmdd = _DATA_DIRECTORY +:+ snapshot_name report yyyymmdd.
Proof.
  intros Hr Hd. unfold _get_data_filename, path_join.
  fold (snapshot_name report yyyymmdd).
  rewrite (startswith_no_slash _ (snapshot_name_no_slash _ _ Hr Hd)).
  destruct data_directory_shape as [prefix ->].
  replace (prefix +:+ "bq_data/") with ((prefix +:+ "bq_data") +:+ "/")
    by (by rewrite str_app_assoc).
  rewrite endswith_slash_app, orb_true_r. reflexivity.
Qed.

Lemma dirname_data_file (name : string) :
  no_slash name = true →
  ∃ prefix, _DATA_DIRECTORY = prefix +:+ "bq_data/"
    ∧ dirname (_DATA_DIRECTORY +:+ name) = prefix +:+ "bq_data".
Proof.
  intros Hname. destruct data_directory_shape as [prefix E].
  exists prefix. split; [done|]. rewrite E. unfold dirname.
  apply chars_inj. rewrite list_ascii_of_string_of_list_ascii, !chars_app.
  change (chars "bq_data/") with (chars "bq_dat" ++ ["a"%char] ++ ["/"%char]).
  rewrite !app_assoc, <- (app_assoc _ ["/"%char]).
  rewrite head_up_to_last_slash by done.
  rewrite all_slashes_snoc by done.
  rewrite rstrip_slash by done.
  by rewrite <- !app_assoc.
Qed.

End store_facts.

Section store_proofs.
Context `{Externals}.

Lemma get_data_filename_inj (r1 d1 r2 d2 : string) :
  wf_key r1 d1 → wf_key r2 d2 →
  _get_data_filename r1 d1 = _get_data_filename r2 d2 → r1 = r2 ∧ d1 = d2.
Proof.
  intros (Hr1 & Hd1 & L1) (Hr2 & Hd2 & L2) E.
  rewrite !get_data_filename_shape in E by done.
  apply (inj _) in E. unfold snapshot_name in E.
  apply (f_equal chars) in E. rewrite !chars_app in E.
  assert (Hlen : length (chars r1) = length (chars r2)).
  { apply (f_equal length) in E. rewrite !length_app, !chars_length, L1, L2 in E.
    rewrite !chars_length. lia. }
  apply app_inj_1 in E as [Er E]; [|done].
  apply (inj (app _)) in E. apply app_inj_2 in E as [Ed _]; [|done].
  split; by apply chars_inj.
Qed.

Lemma get_data_filename_inj_date (report d1 d2 : string) :
  no_slash report = true → no_slash d1 = true → no_slash d2 = true →
  _get_data_filename report d1 = _get_data_filename report d2 → d1 = d2.
Proof.
  intros Hr Hd1 Hd2 E.
  rewrite !get_data_filename_shape in E by done.
  apply (inj _) in E. unfold snapshot_name in E.
  apply (inj _) in E. apply (inj _) in E.
  apply (f_equal chars) in E. rewrite !chars_app in E.
  apply app_inj_2 in E as [Ed _]; [|done]. by apply chars_inj.
Qed.

Lemma get_data_filename_longer (r1 d1 r2 d2 : string) :
  no_slash r1 = true → no_slash d1 = true →
  no_slash r2 = true → no_slash d2 = true →
  (String.length (dirname (_get_data_filename r2 d2))
   < String.length (_get_data_filename r1 d1))%nat.
Proof.
  intros Hr1 Hd1 Hr2 Hd2.
  rewrite !get_data_filename_shape by done.
  destruct (dirname_data_file (snapshot_name r2 d2)) as (prefix & ED & Edir).
  { by apply snapshot_name_no_slash. }
  rewrite Edir, ED.
  rewrite <- !chars_length, !chars_app, !length_app. cbn. lia.
Qed.

Lemma get_data_filename_not_dirname (r1 d1 r2 d2 : string) :
  no_slash r1 = true → no_slash d1 = true →
  no_slash r2 = true → no_slash d2 = true →
  _get_data_filename r1 d1 ≠ dirname (_get_data_filename r2 d2).
Proof.
  intros Hr1 Hd1 Hr2 Hd2 E.
  pose proof (get_data_filename_longer r1 d1 r2 d2 Hr1 Hd1 Hr2 Hd2) as Hlt.
  rewrite E in Hlt. lia.
Qed.

(** A snapshot file is none of the directories that a save makes. *)
Lemma get_data_filename_not_data_dir (r1 d1 r2 d2 : string) :
  no_slash r1 = true → no_slash d1 = true →
  no_slash r2 = true → no_slash d2 = true →
  _get_data_filename r1 d1 ∉ data_dirs r2 d2.
Proof.
  intros Hr1 Hd1 Hr2 Hd2 Hin.
  pose proof (get_data_filename_longer r1 d1 r2 d2 Hr1 Hd1 Hr2 Hd2) as Hlt.
  unfold data_dirs in Hin. apply elem_of_cons in Hin as [E|Hin].
  - rewrite E in Hlt. lia.
  - apply parents_length in Hin. lia.
Qed.

Lemma no_file_above (files : gmap string string) (l : list string) :
  (∀ a, files !! a = None) →
  existsb (λ a, bool_decide (is_Some (files !! a))) l = false.
Proof.
  intros Hnone. induction l as [|a l IH]; [done|]. cbn.
  rewrite Hnone, IH. rewrite bool_decide_eq_false_2; [done|]. by intros [? ?].
Qed.

(** What a save can have changed. *)
Lemma save_daily_data_effect (data : list bqrow) (report yyyymmdd : string)
    (w w' : world) (res : result ()) :
  _save_daily_data data report yyyymmdd w = (res, w') →
  let filename := _get_data_filename report yyyymmdd in
  (dirs w' = dirs w ∨ dirs w' = list_to_set (data_dirs report yyyymmdd) ∪ dirs w)
  ∧ match res with
    | Ok _ => files w' = <[filename := cPickle_dumps data]> (files w)
              ∧ filename ∉ dirs w'
    | Raise _ => files w' = files w
    end.
Proof.
  unfold _save_daily_data. cbv zeta.
  set (filename := _get_data_filename report yyyymmdd).
  rewrite M_bind_unfold. unfold os_path_isdir at 1.
  destruct (bool_decide (dirname filename ∈ dirs w)) eqn:Hd; cbn [negb].
  - rewrite M_bind_unfold. cbn [mret M_ret]. unfold write_file.
    destruct (_ || _) eqn:Hc; intros [= <- <-]; cbn; [auto|].
    apply orb_false_elim in Hc as [Hc _]. apply bool_decide_eq_false in Hc. auto.
  - rewrite M_bind_unfold. unfold os_makedirs.
    destruct (_ || _ || _); [intros [= <- <-]; auto|].
    unfold write_file. cbn [dirs files].
    destruct (bool_decide (filename ∈ _) || _) eqn:Hc; intros [= <- <-]; cbn; [auto|].
    apply orb_false_elim in Hc as [Hc _]. apply bool_decide_eq_false in Hc. auto.
Qed.

Lemma get_past_data_present (report yyyymmdd : string) (w : world)
    (s : string) (data : list bqrow) :
  files w !! _get_data_filename report yyyymmdd = Some s →
  cPickle_loads s = Ok data →
  _get_past_data report yyyymmdd w = (Ok (Some data), w).
Proof.
  intros Hf Hl. unfold _get_past_data. cbv zeta.
  rewrite M_bind_unfold. unfold os_path_exists. rewrite Hf.
  rewrite bool_decide_eq_true_2 by eauto. cbn [orb negb].
  rewrite M_bind_unfold. unfold read_file. rewrite Hf.
  rewrite M_bind_unfold. unfold lift. rewrite Hl. reflexivity.
Qed.

Lemma get_past_data_absent (report yyyymmdd : string) (w : world) :
  files w !! _get_data_filename report yyyymmdd = None →
  _get_data_filename report yyyymmdd ∉ dirs w →
  _get_past_data report yyyymmdd w = (Ok None, w).
Proof.
  intros Hf Hd. unfold _get_past_data. cbv zeta.
  rewrite M_bind_unfold. unfold os_path_exists. rewrite Hf.
  rewrite bool_decide_eq_false_2 by (by intros [? ?]).
  rewrite bool_decide_eq_false_2 by done. reflexivity.
Qed.


End store_proofs.

Section store_claims.
Context `{Externals}.


Lemma load_after_save (data : list bqrow) (report yyyymmdd : string) (w w' : world) :
  cPickle_loads (cPickle_dumps data) = Ok data →
  _save_daily_data data report yyyymmdd w = (Ok (), w') →
  _get_past_data report yyyymmdd w' = (Ok (Some data), w').
Proof.
  intros Hpickle Hsave.
  apply save_daily_data_effect in Hsave as [_ [Hfiles _]].
  apply (get_past_data_present _ _ _ (cPickle_dumps data)); [|done].
  rewrite Hfiles. apply lookup_insert_eq.
Qed.


End store_claims.

(** ** History aggregator *)

Section history_facts.
Context `{Externals} {K : Type} (key_eqb : K → K → bool).

Lemma upto_length (n : Z) : length (upto n) = Z.to_nat n.
Proof. unfold upto. by rewrite length_fmap, length_seq. Qed.

Lemma upto_lookup (n i : Z) : 0 ≤ i < n → upto n !! Z.to_nat i = Some i.
Proof.
  intros Hi. unfold upto. rewrite list_lookup_fmap, lookup_seq_lt by lia.
  cbn. f_equal. lia.
Qed.

Lemma upto_elem_of (n i : Z) : i ∈ upto n → 0 ≤ i < n.
Proof.
  unfold upto. intros (k & -> & Hk)%list_elem_of_fmap.
  apply elem_of_seq in Hk. lia.
Qed.

Lemma xrange_fits (n : Z) : -1 ≤ n ≤ date_max + 1 → xrange n = Ok (upto n).
Proof.
  intros Hn. unfold xrange.
  destruct (Z.ltb_spec n (- LONG_MAX - 1)) as [Hlo|_].
  { exfalso. revert Hlo. unfold date_max in Hn. change LONG_MAX with 9223372036854775807. lia. }
  destruct (Z.ltb_spec LONG_MAX n) as [Hhi|_]; [|done].
  exfalso. revert Hhi. unfold date_max in Hn. change LONG_MAX with 9223372036854775807. lia.
Qed.

(** The stamp of a day of the calendar from 1900 on. *)
Lemma day_stamp (end_date i : Z) :
  strftime_first ≤ end_date - i ≤ date_max →
  (day ← date_sub end_date i; date_strftime day) = Ok (strftime (end_date - i)).
Proof.
  intros [Hlo Hhi]. unfold date_sub, date_strftime.
  assert (Hmin : date_min ≤ end_date - i) by (unfold date_min, strftime_first in *; lia).
  rewrite (proj2 (Z.leb_le _ _) Hmin), (proj2 (Z.leb_le _ _) Hhi). cbn.
  by rewrite (proj2 (Z.ltb_ge _ _) Hlo).
Qed.

Lemma date_strftime_from_1900 (date : Z) :
  strftime_first ≤ date → date_strftime date = Ok (strftime date).
Proof. intros Hlo. unfold date_strftime. by rewrite (proj2 (Z.ltb_ge _ _) Hlo). Qed.

(** *** The index of a day *)

Lemma dict_set_not_nil (k : K) (v : bqrow) (d : list (K * bqrow)) :
  dict_set key_eqb k v d ≠ [].
Proof. destruct d as [|[k' v'] d]; cbn; [done|]. by destruct (key_eqb k' k). Qed.

Lemma build_index_not_nil (keyfn : bqrow → result K) (old_data : list bqrow)
    (acc idx : list (K * bqrow)) :
  acc ≠ [] ∨ old_data ≠ [] →
  build_index key_eqb keyfn old_data acc = Ok idx → idx ≠ [].
Proof.
  revert acc. induction old_data as [|r rest IH]; intros acc Hne; cbn.
  { intros [= <-]. by destruct Hne. }
  destruct (keyfn r) as [k|]; [|done]. cbn.
  apply IH. left. apply dict_set_not_nil.
Qed.

Lemma build_index_total (keyfn : bqrow → result K) (old_data : list bqrow)
    (acc : list (K * bqrow)) :
  Forall (λ r, ∃ k, keyfn r = Ok k) old_data →
  ∃ idx, build_index key_eqb keyfn old_data acc = Ok idx.
Proof.
  intros Hk. revert acc. induction Hk as [|r rest [k Hr] _ IH]; intros acc; cbn; [eauto|].
  rewrite Hr. cbn. apply IH.
Qed.

Lemma dict_get_set (k q : K) (v : bqrow) (d : list (K * bqrow)) :
  (∀ x y, key_eqb x y = key_eqb y x) →
  (∀ x y z, key_eqb x y = true → key_eqb y z = true → key_eqb x z = true) →
  dict_get key_eqb q (dict_set key_eqb k v d)
  = if key_eqb k q then Some v else dict_get key_eqb q d.
Proof.
  intros Hsym Htrans. induction d as [|[k' v'] d IH]; cbn; [done|].
  destruct (key_eqb k' k) eqn:Ek; cbn.
  - destruct (key_eqb k' q) eqn:Eq, (key_eqb k q) eqn:Ekq; try done.
    + rewrite Hsym in Ek. by rewrite (Htrans _ _ _ Ek Eq) in Ekq.
    + by rewrite (Htrans _ _ _ Ek Ekq) in Eq.
  - rewrite IH. destruct (key_eqb k' q) eqn:Eq, (key_eqb k q) eqn:Ekq; try done.
    rewrite (Hsym k q) in Ekq. by rewrite (Htrans _ _ _ Eq Ekq) in Ek.
Qed.

(** A lookup in the index finds the last record that has the key. *)
Lemma build_index_lookup (keyfn : bqrow → result K) (old_data : list bqrow)
    (acc idx : list (K * bqrow)) (q : K) :
  (∀ x y, key_eqb x y = key_eqb y x) →
  (∀ x y z, key_eqb x y = true → key_eqb y z = true → key_eqb x z = true) →
  build_index key_eqb keyfn old_data acc = Ok idx →
  dict_get key_eqb q idx
  = match last (filter (λ r, keyed key_eqb keyfn q r = true) old_data) with
    | Some r => Some r
    | None => dict_get key_eqb q acc
    end.
Proof.
  intros Hsym Htrans. revert acc. induction old_data as [|r rest IH]; intros acc; cbn.
  { by intros [= <-]. }
  destruct (keyfn r) as [k|] eqn:Ek; [|done]. cbn.
  intros Hb. rewrite (IH _ Hb). rewrite dict_get_set by done.
  destruct (decide (keyed key_eqb keyfn q r = true)) as [E|E].
  - assert (Ekq : key_eqb k q = true) by (unfold keyed in E; by rewrite Ek in E).
    rewrite Ekq. destruct (filter _ rest) as [|r' l'] eqn:Ef; [done|].
    rewrite last_cons_cons. destruct (last (r' :: l')) eqn:El; [done|].
    by apply last_None in El.
  - assert (Ekq : key_eqb k q = false).
    { apply not_true_is_false. unfold keyed in E. by rewrite Ek in E. }
    by rewrite Ekq.
Qed.

Lemma day_index_holds (keyfn : bqrow → result K) (report : string)
    (end_date i : Z) (w : world) :
  (∀ x y, key_eqb x y = key_eqb y x) →
  (∀ x y z, key_eqb x y = true → key_eqb y z = true → key_eqb x z = true) →
  strftime_first ≤ end_date - i ≤ date_max →
  snapshot_readable keyfn report (strftime (end_date - i)) w →
  ∃ idx, day_index key_eqb report end_date keyfn i w = (Ok idx, w)
    ∧ day_holds key_eqb keyfn
        (files w !! _get_data_filename report (strftime (end_date - i))) idx.
Proof.
  intros Hsym Htrans Hday [Hd Hf]. unfold day_index.
  rewrite (day_stamp _ _ Hday). rewrite M_bind_unfold. unfold lift at 1.
  destruct (files w !! _get_data_filename report (strftime (end_date - i)))
    as [s|] eqn:E.
  - destruct (Hf s eq_refl) as (old_data & Hl & Hk).
    rewrite (M_bind_ok _ _ w w (Some old_data)) by (by eapply get_past_data_present).
    destruct old_data as [|r rest].
    + exists []. split; [done|]. exists []. split; [done|]. split; done.
    + destruct (build_index_total keyfn (r :: rest) [] Hk) as [idx Hidx].
      exists idx. unfold lift. rewrite Hidx. split; [done|].
      exists (r :: rest). split; [done|]. split.
      * split; [|done]. intros ->.
        by eapply build_index_not_nil in Hidx; [|by right].
      * intros q. rewrite (build_index_lookup _ _ _ _ q Hsym Htrans Hidx).
        by destruct (last _).
  - rewrite (M_bind_ok _ _ w w None) by (by apply get_past_data_absent).
    by exists [].
Qed.

(** C1.  For a window length [history_length >= 0], [_process_past_data]
    returns exactly [history_length + 1] per-day indices, whatever days have
    a snapshot; the index of the day [end_date - i] (offset [i] from the
    anchor) stands at position [history_length - i], so the oldest day comes
    first.  The index of a day is what [day_holds] says of the day's snapshot
    file: empty without a file; otherwise a key finds the last record of the
    snapshot with that key.  Keys are compared with an equality that is
    symmetric and transitive; the days of the window are days [strftime]
    prints (from 1900 on), and their snapshots are readable pickles of
    records on which the key function is defined. *)
Theorem process_past_data_window (keyfn : bqrow → result K) (report : string)
    (end_date history_length : Z) (w : world) :
  (∀ x y, key_eqb x y = key_eqb y x) →
  (∀ x y z, key_eqb x y = true → key_eqb y z = true → key_eqb x z = true) →
  0 ≤ history_length →
  strftime_first ≤ end_date - history_length →
  end_date ≤ date_max →
  window_readable keyfn report end_date history_length w →
  ∃ historical_data,
    _process_past_data key_eqb report end_date history_length keyfn w
      = (Ok historical_data, w)
    ∧ length historical_data = Z.to_nat (history_length + 1)
    ∧ ∀ i, 0 ≤ i ≤ history_length →
        ∃ idx, historical_data !! Z.to_nat (history_length - i) = Some idx
          ∧ day_holds key_eqb keyfn
              (files w !! _get_data_filename report (strftime (end_date - i))) idx.
Proof.
  intros Hsym Htrans HW Hfirst Hlast Hw.
  set (g := λ i, match (day_index key_eqb report end_date keyfn i w).1 with
                 | Ok idx => idx
                 | Raise _ => []
                 end).
  assert (Hg : ∀ i, 0 ≤ i ≤ history_length →
            day_index key_eqb report end_date keyfn i w = (Ok (g i), w)
            ∧ day_holds key_eqb keyfn
                (files w !! _get_data_filename report (strftime (end_date - i))) (g i)).
  { intros i Hi.
    destruct (day_index_holds keyfn report end_date i w Hsym Htrans) as (idx & E & Hidx);
      [lia|by apply Hw|].
    unfold g. by rewrite E. }
  exists (reverse (g <$> upto (history_length + 1))).
  unfold _process_past_data.
  rewrite xrange_fits by (unfold strftime_first in Hfirst; lia).
  rewrite M_bind_unfold. unfold lift at 1.
  rewrite (M_bind_ok _ _ w w (g <$> upto (history_length + 1)))
    by (apply mapM_read; intros i Hi%upto_elem_of; apply Hg; lia).
  split; [done|]. split.
  { by rewrite length_reverse, length_fmap, upto_length. }
  intros i Hi. exists (g i). split; [|by apply Hg].
  rewrite reverse_lookup; rewrite length_fmap, upto_length; [|lia].
  replace (Z.to_nat (history_length + 1) - S (Z.to_nat (history_length - i)))%nat
    with (Z.to_nat i) by lia.
  rewrite list_lookup_fmap, upto_lookup by lia. done.
Qed.

End history_facts.

(** ** [mapM] in the [result] monad *)

Lemma mapM_result_ok {A B} (f : A → result B) (g : A → B) (l : list A) :
  (∀ x, x ∈ l → f x = Ok (g x)) → mapM f l = Ok (g <$> l).
Proof.
  induction l as [|x l IH]; intros Hf; [reflexivity|].
  cbn [mapM]. rewrite (Hf x) by left. cbn.
  rewrite IH by (intros y Hy; apply Hf; by right). reflexivity.
Qed.

Lemma mapM_result_raise {A B} (f : A → result B) (e : exn) (l : list A) :
  (∀ x, x ∈ l → f x = Raise e ∨ ∃ y, f x = Ok y) →
  (∃ x, x ∈ l ∧ f x = Raise e) →
  mapM f l = Raise e.
Proof.
  induction l as [|x l IH]; intros Hall (x0 & Hin & Hx0).
  { by apply elem_of_nil in Hin. }
  cbn [mapM]. destruct (Hall x) as [E|[y E]]; [by left|by rewrite E|].
  rewrite E. cbn.
  rewrite IH; [done| |].
  - intros z Hz. apply Hall. by right.
  - apply elem_of_cons in Hin as [->|Hin]; [congruence|eauto].
Qed.

Lemma mapM_result_length {A B} (f : A → result B) (l : list A) (k : list B) :
  mapM f l = Ok k → length k = length l.
Proof.
  revert k. induction l as [|x l IH]; intros k; cbn [mapM].
  { by intros [= <-]. }
  destruct (f x); [|done]. cbn.
  destruct (mapM f l) as [k'|]; [|done]. cbn. intros [= <-]. cbn. by rewrite (IH k').
Qed.

Lemma mapM_result_lookup {A B} (f : A → result B) (l : list A) (k : list B) (i : nat) (x : A) :
  mapM f l = Ok k → l !! i = Some x → ∃ y, k !! i = Some y ∧ f x = Ok y.
Proof.
  revert k i. induction l as [|x' l IH]; intros k i; cbn [mapM]; [done|].
  destruct (f x') as [y'|] eqn:E; [|done]. cbn.
  destruct (mapM f l) as [k'|]; [|done]. cbn. intros [= <-].
  destruct i as [|i]; cbn.
  - intros [= ->]. eauto.
  - intros Hl. by apply IH.
Qed.

(** ** Table shaper *)

Lemma list_index_absent (k : string) (order : list string) :
  k ∉ order → list_index k order = Raise ValueError.
Proof.
  induction order as [|k' rest IH]; [done|]. intros Hk. cbn.
  apply not_elem_of_cons in Hk as [Hne Hk].
  destruct (String.eqb_spec k' k) as [->|_]; [done|]. by rewrite IH.
Qed.

Lemma list_index_present (k : string) (order : list string) :
  k ∈ order → ∃ i, list_index k order = Ok i ∧ order !! i = Some k.
Proof.
  induction order as [|k' rest IH]; intros Hk; [by apply elem_of_nil in Hk|].
  cbn. destruct (String.eqb_spec k' k) as [->|Hne]; [by exists 0%nat|].
  apply elem_of_cons in Hk as [->|Hk]; [done|].
  destruct (IH Hk) as (i & -> & Hi). by exists (S i).
Qed.

Lemma list_index_NoDup (order : list string) (i : nat) (k : string) :
  NoDup order → order !! i = Some k → list_index k order = Ok i.
Proof.
  intros Hnd. revert i. induction Hnd as [|k' rest Hnotin Hnd IH]; intros i; [done|].
  destruct i as [|i]; cbn.
  - intros [= ->]. by rewrite String.eqb_refl.
  - intros Hi. destruct (String.eqb_spec k' k) as [->|_].
    + exfalso. apply Hnotin. by eapply list_elem_of_lookup_2.
    + by rewrite (IH i).
Qed.

Lemma convert_row_extra_field (order : list string) (r : row) (k : string) :
  is_Some (r !! k) → k ∉ order → convert_row order r = Raise ValueError.
Proof.
  intros [v Hv] Hk. unfold convert_row.
  rewrite (mapM_result_raise _ ValueError); [done| |].
  - intros [k' v'] _. cbn.
    destruct (decide (k' ∈ order)) as [Hin|Hout].
    + destruct (list_index_present k' order Hin) as (i & -> & _). cbn. eauto.
    + rewrite list_index_absent by done. by left.
  - exists (k, v). split; [by apply elem_of_map_to_list|].
    cbn. by rewrite list_index_absent.
Qed.

Lemma convert_row_fields_known (order : list string) (r : row) :
  (∀ k, is_Some (r !! k) → k ∈ order) →
  convert_row order r
  = Ok ((λ x : nat * (string * value), x.2.2)
          <$> merge_sort sort_key_le (decorate order <$> map_to_list r)).
Proof.
  intros Hk. unfold convert_row.
  rewrite (mapM_result_ok _ (decorate order)); [done|].
  intros [k v] Hin. apply elem_of_map_to_list in Hin.
  destruct (list_index_present k order) as (i & E & _); [eauto|].
  unfold decorate, position. cbn. by rewrite E.
Qed.

Lemma sort_key_le_total : Total sort_key_le.
Proof. intros x y. unfold sort_key_le. lia. Qed.

Lemma sort_key_le_trans : Transitive sort_key_le.
Proof. intros x y z. unfold sort_key_le. lia. Qed.

#[local] Existing Instance sort_key_le_total.
#[local] Existing Instance sort_key_le_trans.

Lemma positions_of_order (order : list string) :
  NoDup order → position order <$> order = seq 0 (length order).
Proof.
  intros Hnd. apply list_eq. intros i.
  rewrite list_lookup_fmap.
  destruct (order !! i) as [k|] eqn:E; cbn.
  - unfold position. rewrite (list_index_NoDup order i k) by done.
    symmetry. apply lookup_seq. split; [done|]. by eapply lookup_lt_Some.
  - symmetry. apply lookup_seq_ge. by apply lookup_ge_None.
Qed.

Lemma sorted_seq (start n : nat) : Sorted le (seq start n).
Proof.
  revert start. induction n as [|n IH]; intros start; cbn; constructor; [apply IH|].
  destruct n; cbn; constructor. lia.
Qed.

(** When the fields of a row are exactly the names of [order], sorting by
    position puts the value of the [j]-th name at position [j]. *)
Lemma convert_row_aligned (order : list string) (r : row) :
  (map_to_list r).*1 ≡ₚ order →
  ∃ cells, convert_row order r = Ok cells
    ∧ length cells = length order
    ∧ ∀ j k, order !! j = Some k → cells !! j = r !! k.
Proof.
  intros Hperm.
  assert (Hnd : NoDup order) by (rewrite <- Hperm; apply NoDup_fst_map_to_list).
  assert (Hknown : ∀ k, is_Some (r !! k) → k ∈ order).
  { intros k [v Hv]. rewrite <- Hperm. apply list_elem_of_fmap.
    exists (k, v). split; [done|]. by apply elem_of_map_to_list. }
  rewrite convert_row_fields_known by done.
  set (sorted := merge_sort sort_key_le (decorate order <$> map_to_list r)).
  assert (Hs : sorted ≡ₚ decorate order <$> map_to_list r)
    by apply merge_sort_Permutation.
  assert (Hkeys : sorted.*1 = seq 0 (length order)).
  { apply (Sorted_unique le).
    - apply (Sorted_fmap _ sort_key_le); [done|]. apply Sorted_merge_sort, _.
    - apply sorted_seq.
    - rewrite Hs, <- positions_of_order by done.
      trans (position order <$> (map_to_list r).*1).
      + by rewrite <- !list_fmap_compose.
      + by apply fmap_Permutation. }
  eexists. split; [done|]. split.
  { rewrite length_fmap. rewrite <- (length_fmap fst), Hkeys. apply length_seq. }
  intros j k Hj.
  assert (Hlt : (j < length order)%nat) by (by eapply lookup_lt_Some).
  assert (Hsj : sorted.*1 !! j = Some j) by (rewrite Hkeys; by apply lookup_seq_lt).
  rewrite list_lookup_fmap in Hsj.
  destruct (sorted !! j) as [[i [k' v]]|] eqn:E; [|done].
  cbn in Hsj. injection Hsj as ->.
  rewrite list_lookup_fmap, E. cbn.
  assert (Hin : (j, (k', v)) ∈ decorate order <$> map_to_list r).
  { rewrite <- Hs. by eapply list_elem_of_lookup_2. }
  apply list_elem_of_fmap in Hin as ([k'' v''] & [= Hpos <- <-] & Hin).
  apply elem_of_map_to_list in Hin.
  destruct (list_index_present k' order) as (i & Ei & Hi); [eauto|].
  unfold position in Hpos. cbn in Hpos. rewrite Ei in Hpos. subst i.
  rewrite Hj in Hi. injection Hi as ->. done.
Qed.

Lemma convert_row_outcome (order : list string) (r : row) :
  convert_row order r = Raise ValueError ∨ ∃ cells, convert_row order r = Ok cells.
Proof.
  destruct (decide (Forall (λ k, k ∈ order) (map_to_list r).*1)) as [Hall|Hnot].
  - right. eexists. apply convert_row_fields_known.
    rewrite Forall_forall in Hall.
    intros k [v Hv]. apply Hall. apply list_elem_of_fmap.
    exists (k, v). split; [done|]. by apply elem_of_map_to_list.
  - left. apply not_Forall_Exists in Hnot; [|apply _].
    apply Exists_exists in Hnot as (k & Hin & Hout).
    apply list_elem_of_fmap in Hin as ([k' v] & -> & Hin).
    apply elem_of_map_to_list in Hin.
    by apply (convert_row_extra_field order r k').
Qed.

(** C2, as amended.  [_convert_table_rows_to_lists] fails (ValueError, from
    [order.index]) when some record has a field that is not in [order]; it
    does not fail when records only lack columns; and when the fields of
    every record are exactly the names of [order], the first row is [order]
    and the [j]-th cell of the [i]-th data row is the [i]-th record's value
    for the [j]-th name. *)
Theorem convert_table_rows_to_lists_spec (table : list row) (order : list string) :
  ((∃ r k, r ∈ table ∧ is_Some (r !! k) ∧ k ∉ order) →
     _convert_table_rows_to_lists table order = Raise ValueError)
  ∧ ((∀ r k, r ∈ table → is_Some (r !! k) → k ∈ order) →
     ∃ rows, _convert_table_rows_to_lists table order = Ok (header_row order :: rows)
       ∧ length rows = length table)
  ∧ ((∀ r, r ∈ table → (map_to_list r).*1 ≡ₚ order) →
     ∃ rows, _convert_table_rows_to_lists table order = Ok (header_row order :: rows)
       ∧ length rows = length table
       ∧ ∀ i r, table !! i = Some r →
           ∃ cells, rows !! i = Some cells
             ∧ length cells = length order
             ∧ ∀ j k, order !! j = Some k → cells !! j = r !! k).
Proof.
  unfold _convert_table_rows_to_lists. split; [|split].
  - intros (r & k & Hr & Hk & Hout).
    rewrite (mapM_result_raise _ ValueError); [done| |].
    + intros r' _. apply convert_row_outcome.
    + exists r. split; [done|]. by apply (convert_row_extra_field order r k).
  - intros Hknown.
    rewrite (mapM_result_ok _
      (λ r, (λ x : nat * (string * value), x.2.2)
              <$> merge_sort sort_key_le (decorate order <$> map_to_list r))).
    + eexists. split; [reflexivity|]. by rewrite length_fmap.
    + intros r Hr. apply convert_row_fields_known. eauto.
  - intros Hexact.
    destruct (mapM (convert_row order) table) as [rows|e] eqn:E.
    + exists rows. split; [done|]. split; [by eapply mapM_result_length|].
      intros i r Hi.
      destruct (mapM_result_lookup _ _ _ i r E Hi) as (cells & Hcells & Hrow).
      exists cells. split; [done|].
      destruct (convert_row_aligned order r) as (cells' & E' & Hlen & Halign).
      { apply Hexact. by eapply list_elem_of_lookup_2. }
      rewrite Hrow in E'. injection E' as <-. done.
    + exfalso. revert E.
      rewrite (mapM_result_ok _
        (λ r, (λ x : nat * (string * value), x.2.2)
                <$> merge_sort sort_key_le (decorate order <$> map_to_list r))); [done|].
      intros r Hr. apply convert_row_fields_known.
      intros k [v Hv]. rewrite <- (Hexact r Hr). apply list_elem_of_fmap.
      exists (k, v). split; [done|]. by apply elem_of_map_to_list.
Qed.

(** C2, counterexample.  A record that lacks the column b is converted
    without any failure, into a row shorter than the header. *)
Lemma convert_missing_column_no_failure :
  row_a_only !! "b" = None
  ∧ _convert_table_rows_to_lists [row_a_only] ["a"; "b"]
    = Ok [[VAtom (AStr "a"); VAtom (AStr "b")]; [VAtom (AInt 1)]].
Proof. split; reflexivity. Qed.

Lemma convert_table_rows_to_lists_spec_witness :
  _convert_table_rows_to_lists [row_ac] ["a"; "b"] = Raise ValueError
  ∧ (∃ rows, _convert_table_rows_to_lists [row_ab] ["a"; "b"]
             = Ok (header_row ["a"; "b"] :: rows)
       ∧ length rows = 1%nat
       ∧ ∀ i r, [row_ab] !! i = Some r →
           ∃ cells, rows !! i = Some cells
             ∧ length cells = 2%nat
             ∧ ∀ j k, ["a"; "b"] !! j = Some k → cells !! j = r !! k).
Proof.
  split.
  - apply (proj1 (convert_table_rows_to_lists_spec [row_ac] ["a"; "b"])).
    exists row_ac, "c". split; [by left|]. split; [by eexists|].
    intros Hc. by repeat (apply elem_of_cons in Hc as [?|Hc]; [done|]);
      apply elem_of_nil in Hc.
  - apply (proj2 (proj2 (convert_table_rows_to_lists_spec [row_ab] ["a"; "b"]))).
    intros r Hr. apply list_elem_of_singleton in Hr as ->. vm_compute. reflexivity.
Defined.

(** ** Out-of-memory reports: zero activity and no data *)


Lemma dict_truthy_lookup {V} (r : gmap string V) (k : string) :
  is_Some (r !! k) → dict_truthy r = true.
Proof.
  intros [v Hv]. unfold dict_truthy.
  destruct (Nat.eqb_spec (size r) 0) as [E|_]; [|done].
  apply map_size_empty_iff in E. subst r. by rewrite lookup_empty in Hv.
Qed.




Lemma result_bind_ok {A B} (f : A → result B) (a : A) : (Ok a ≫= f) = f a.
Proof. reflexivity. Qed.

(** ** Sparkline renderer: the vertical range *)

Lemma xgt_irrefl (x : xreal) : xgt x x = false.
Proof.
  destruct x as [|[]|q]; cbn; try done.
  destruct (Qcompare_spec q q) as [_|Hlt|Hlt]; try done;
    by apply Qlt_irrefl in Hlt.
Qed.

Lemma xgt_replace (x m v : xreal) :
  x ≠ XNaN → m ≠ XNaN → v ≠ XNaN →
  xgt x m = false → xgt v m = true → xgt x v = false.
Proof.
  intros Hx Hm Hv.
  destruct x as [|[]|p], m as [|[]|q], v as [|[]|r]; cbn; try done.
  destruct (Qcompare_spec p q) as [E|Hpq|Hpq]; try done;
    destruct (Qcompare_spec r q) as [E'|Hrq|Hrq]; try done; intros _ _;
    destruct (Qcompare_spec p r) as [E''|Hpr|Hpr]; try done; exfalso.
  - rewrite E in Hpr. apply (Qlt_irrefl r). by apply (Qlt_trans r q r).
  - apply (Qlt_irrefl r). apply (Qlt_trans r p r); [done|].
    by apply (Qlt_trans p q r).
Qed.

Lemma plottable_exact (a : atom) : plottable a → exact a ≠ XNaN ∧ is_num a = true.
Proof. destruct a; cbn; done. Qed.

Lemma py_gt_num (a b : atom) :
  is_num a = true → is_num b = true → py_gt a b = xgt (exact a) (exact b).
Proof. by destruct a, b. Qed.

Lemma py_gt_irrefl (a : atom) : plottable a → py_gt a a = false.
Proof.
  intros [_ Hn]%plottable_exact. rewrite py_gt_num by done. apply xgt_irrefl.
Qed.

Lemma py_gt_replace (x m v : atom) :
  plottable x → plottable m → plottable v →
  py_gt x m = false → py_gt v m = true → py_gt x v = false.
Proof.
  intros [Hx Hnx]%plottable_exact [Hm Hnm]%plottable_exact [Hv Hnv]%plottable_exact.
  rewrite !py_gt_num by done. by apply xgt_replace.
Qed.

Lemma fold_max_spec (l seen : list atom) (m0 : atom) :
  Forall plottable l → Forall plottable seen → plottable m0 →
  m0 ∈ seen → (∀ x, x ∈ seen → py_gt x m0 = false) →
  let m := fold_left (λ m v, if py_gt v m then v else m) l m0 in
  plottable m ∧ m ∈ seen ++ l ∧ ∀ x, x ∈ seen ++ l → py_gt x m = false.
Proof.
  revert seen m0. induction l as [|v l IH]; intros seen m0 Hl Hseen Hm0 Hin Hmax.
  { cbn. rewrite app_nil_r. done. }
  apply Forall_cons in Hl as [Hv Hl]. cbn [fold_left].
  replace (seen ++ v :: l) with ((seen ++ [v]) ++ l) by (by rewrite <- app_assoc).
  assert (Hseen' : Forall plottable (seen ++ [v])).
  { apply Forall_app. split; [done|]. by constructor. }
  rewrite Forall_forall in Hseen.
  destruct (py_gt v m0) eqn:Hgt.
  - apply IH; try done.
    + apply elem_of_app. right. by left.
    + intros x [Hx| ->%list_elem_of_singleton]%elem_of_app.
      * apply (py_gt_replace x m0 v); auto.
      * by apply py_gt_irrefl.
  - apply IH; try done.
    + apply elem_of_app. by left.
    + intros x [Hx| ->%list_elem_of_singleton]%elem_of_app; auto.
Qed.

Lemma py_max_spec (l : list atom) :
  l ≠ [] → Forall plottable l →
  ∃ m, py_max l = Ok m ∧ plottable m ∧ m ∈ l ∧ ∀ x, x ∈ l → py_gt x m = false.
Proof.
  destruct l as [|x l]; [done|]. intros _ [Hx Hl]%Forall_cons.
  eexists. split; [reflexivity|].
  apply (fold_max_spec l [x] x); try done.
  - by constructor.
  - by left.
  - intros y ->%list_elem_of_singleton. by apply py_gt_irrefl.
Qed.

Lemma py_mul_float (c : float) (m : atom) :
  plottable m →
  ∃ fm, float_of_atom m = Ok fm ∧ py_mul (AFloat c) m = Ok (AFloat (c * fm)%float).
Proof.
  destruct m as [z|f|s]; cbn; [|by eauto|done].
  intros [f E]. exists f. by rewrite E.
Qed.

Section sparkline_range_facts.
Context `{Externals}.

(** C4.  On a series with at least three samples that are not [None] (all
    of them numbers), the range in the script piped to gnuplot has
    [ymin = -0.05 * m] and [ymax = 1.05 * m], where [m] is a sample that no
    sample exceeds, taken as a float. *)
Theorem sparkline_vertical_range (data : list (option atom)) (w : world) :
  (3 ≤ length (existing_data data))%nat →
  Forall plottable (existing_data data) →
  ∃ m fm r,
    m ∈ existing_data data
    ∧ (∀ x, x ∈ existing_data data → py_gt x m = false)
    ∧ float_of_atom m = Ok fm
    ∧ sparkline_range data = Ok r
    ∧ ymin r = AFloat (-0.05 * fm)%float
    ∧ ymax r = AFloat (1.05 * fm)%float
    ∧ (_render_sparkline data w).2.(spawned)
      = spawned w ++ [("gnuplot", gnuplot_script (data_line <$> data_points data) r)].
Proof.
  intros Hlen Hplot.
  destruct (py_max_spec (existing_data data)) as (m & Emax & Hm & Hin & Hub); [|done|].
  { intros E. rewrite E in Hlen. cbn in Hlen. lia. }
  destruct (py_mul_float 1.05 m Hm) as (fm & Efm & Ehi).
  destruct (py_mul_float (-0.05) m Hm) as (fm' & Efm' & Elo).
  rewrite Efm in Efm'. injection Efm' as <-.
  eexists m, fm, _. split; [done|]. split; [done|]. split; [done|].
  assert (Er : sparkline_range data
               = Ok {| ymax := AFloat (1.05 * fm)%float; ymin := AFloat (-0.05 * fm)%float;
                       xmin := 1; xmax := Z.of_nat (length data) |}).
  { unfold sparkline_range. rewrite Emax, !result_bind_ok, Ehi, !result_bind_ok, Elo.
    by rewrite result_bind_ok. }
  split; [exact Er|]. split; [done|]. split; [done|].
  unfold _render_sparkline.
  destruct (Nat.ltb_spec (length (existing_data data)) 3) as [Hlt|_]; [lia|].
  rewrite Er. rewrite M_bind_unfold. unfold lift. cbn [fmap result_fmap].
  rewrite M_bind_unfold. unfold popen_communicate.
  by destruct (gnuplot _).
Qed.

End sparkline_range_facts.

(** ** The instance-hours scenario *)

Section scenario_facts.
Context `{Externals}.

Lemma save_on_empty_world (data : list bqrow) (report yyyymmdd : string) :
  no_slash report = true → no_slash yyyymmdd = true →
  _save_daily_data data report yyyymmdd empty_world
  = (Ok (), saved_world data report yyyymmdd).
Proof.
  intros Hr Hd. unfold _save_daily_data. cbv zeta.
  rewrite M_bind_unfold. unfold os_path_isdir. cbn [dirs empty_world].
  rewrite bool_decide_eq_false_2 by apply not_elem_of_empty. cbn [negb].
  rewrite M_bind_unfold. unfold os_makedirs. cbn [dirs files empty_world].
  rewrite lookup_empty.
  rewrite bool_decide_eq_false_2 by (by intros [? ?]).
  rewrite bool_decide_eq_false_2 by apply not_elem_of_empty. cbn [orb].
  rewrite no_file_above by (intros a; apply lookup_empty).
  unfold write_file. cbn [dirs files spawned outbox].
  rewrite (right_id_L ∅ (∪)).
  change ({[dirname (_get_data_filename report yyyymmdd)]}
          ∪ list_to_set (ancestors (dirname (_get_data_filename report yyyymmdd))))
    with (list_to_set (C:=gset string) (data_dirs report yyyymmdd)).
  rewrite bool_decide_eq_false_2; cycle 1.
  { intros E%elem_of_list_to_set. by eapply get_data_filename_not_data_dir in E. }
  rewrite bool_decide_eq_true_2 by (apply elem_of_list_to_set; by left).
  reflexivity.
Qed.

Lemma get_past_data_saved_world (data : list bqrow) (report yyyymmdd : string) :
  cPickle_loads (cPickle_dumps data) = Ok data →
  _get_past_data report yyyymmdd (saved_world data report yyyymmdd)
  = (Ok (Some data), saved_world data report yyyymmdd).
Proof.
  intros Hp. apply (get_past_data_present _ _ _ (cPickle_dumps data)); [|done].
  apply lookup_singleton_eq.
Qed.

Lemma get_past_data_other_day (data : list bqrow) (report d d' : string) :
  no_slash report = true → no_slash d = true → no_slash d' = true →
  d' ≠ d →
  _get_past_data report d' (saved_world data report d)
  = (Ok None, saved_world data report d).
Proof.
  intros Hr Hd Hd' Hne. apply get_past_data_absent; cbn [files dirs saved_world].
  - apply lookup_singleton_ne. intros E.
    by apply get_data_filename_inj_date in E.
  - intros E%elem_of_list_to_set. by eapply get_data_filename_not_data_dir in E.
Qed.

Lemma scenario_history (D : Z) :
  strftime_first ≤ D - 14 → D ≤ date_max →
  (∀ i, 0 ≤ i ≤ 14 → no_slash (strftime (D - i)) = true) →
  (∀ i, 1 ≤ i ≤ 14 → strftime (D - i) ≠ strftime D) →
  cPickle_loads (cPickle_dumps scenario) = Ok scenario →
  let w := saved_world scenario "instance_hours" (strftime D) in
  _process_past_data py_eq "instance_hours" D 14 (λ r, getitem r "url_route") w
  = (Ok (replicate 14 [] ++ [scenario_index]), w).
Proof.
  intros Hfirst Hlast Hstamp Hdiff Hpickle w.
  assert (HD : no_slash (strftime D) = true).
  { replace D with (D - 0) by lia. apply Hstamp. lia. }
  set (g := λ i : Z, if i =? 0 then scenario_index else []).
  unfold _process_past_data.
  rewrite xrange_fits by (unfold date_max; lia).
  rewrite M_bind_unfold. unfold lift at 1.
  rewrite (M_bind_ok _ _ w w (g <$> upto (14 + 1))); [reflexivity|].
  apply mapM_read. intros i Hi%upto_elem_of.
  unfold day_index. rewrite day_stamp by lia.
  rewrite M_bind_unfold. unfold lift at 1.
  destruct (Z.eqb_spec i 0) as [->|Hne].
  - replace (D - 0) with D by lia.
    rewrite (M_bind_ok _ _ w w (Some scenario))
      by (by apply get_past_data_saved_world).
    reflexivity.
  - rewrite (M_bind_ok _ _ w w None); [unfold g; by rewrite (proj2 (Z.eqb_neq i 0))|].
    apply get_past_data_other_day; try done.
    + apply Hstamp. lia.
    + apply Hdiff. lia.
Qed.

(** C6, as amended.  For the three records of the scenario on day [D], with
    no earlier snapshot, the first data row of the instance-hours table is
    the /a row, its '% of total' is 10/17*100 (about 58.82), its 'per 1k
    requests' is 100.0, and its series holds 14 absent values followed by
    the day's own value, so one present sample: the cell is rendered as
    "(insufficient data)" and gnuplot is not started.  The day [D] and the
    fourteen days before it are days [strftime] prints (from 1900 on). *)
Theorem instance_hours_scenario (D : Z) :
  strftime_first ≤ D - 14 → D ≤ date_max →
  (∀ i, 0 ≤ i ≤ 14 → no_slash (strftime (D - i)) = true) →
  (∀ i, 1 ≤ i ≤ 14 → strftime (D - i) ≠ strftime D) →
  cPickle_loads (cPickle_dumps scenario) = Ok scenario →
  (∃ rest w',
     instance_hours_table scenario D empty_world
     = (Ok (header_row instance_hours_ORDER :: scenario_first_row :: rest), w'))
  ∧ length (filter (λ datum, datum = None) scenario_sparkline) = 14%nat
  ∧ length (existing_data scenario_sparkline) = 1%nat
  ∧ (∀ w, _render_sparkline scenario_sparkline w = (Ok None, w))
  ∧ (∀ w, cell_html (VList scenario_sparkline) w
          = (Ok ([td "padding: 0px; text-align: center;" "(insufficient data)"], []), w)).
Proof.
  intros Hfirst Hlast Hstamp Hdiff Hpickle.
  assert (HD : no_slash (strftime D) = true).
  { replace D with (D - 0) by lia. apply Hstamp. lia. }
  split; [|split; [reflexivity|split; [reflexivity|split]]].
  - eexists _, _. unfold instance_hours_table.
    rewrite date_strftime_from_1900 by lia.
    rewrite M_bind_unfold. unfold lift at 1.
    rewrite (M_bind_ok _ _ _ _ _ (save_on_empty_world scenario "instance_hours" _ eq_refl HD)).
    rewrite (M_bind_ok _ _ _ _ _ (scenario_history D Hfirst Hlast Hstamp Hdiff Hpickle)).
    unfold lift. f_equal.
  - intros w. apply render_sparkline_insufficient. vm_compute. lia.
  - intros w. unfold cell_html.
    rewrite (M_bind_ok _ _ w w None)
      by (apply render_sparkline_insufficient; vm_compute; lia).
    reflexivity.
Qed.

End scenario_facts.

(** ** Inversion of a successful run *)

Lemma M_bind_inv_ok {A B} (f : A → M B) (m : M A) (w w' : world) (b : B) :
  (m ≫= f) w = (Ok b, w') → ∃ a w1, m w = (Ok a, w1) ∧ f a w1 = (Ok b, w').
Proof.
  rewrite M_bind_unfold. destruct (m w) as [[a|e] w1]; [eauto|done].
Qed.

Lemma result_bind_inv_ok {A B} (f : A → result B) (m : result A) (b : B) :
  (m ≫= f) = Ok b → ∃ a, m = Ok a ∧ f a = Ok b.
Proof. destruct m as [a|e]; [eauto|done]. Qed.

Lemma lift_inv {A} (r : result A) (w w' : world) (a : A) :
  lift r w = (Ok a, w') → r = Ok a ∧ w' = w.
Proof. unfold lift. by intros [= -> ->]. Qed.

Lemma mret_inv {A} (a b : A) (w w' : world) :
  (mret a : M A) w = (Ok b, w') → b = a ∧ w' = w.
Proof. by intros [= -> ->]. Qed.

(** ** The rows that are mailed *)

Lemma convert_table_rows_shape (rows : list row) (order : list string) (t : table) :
  _convert_table_rows_to_lists rows order = Ok t →
  ∃ body, t = header_row order :: body ∧ length body = length rows.
Proof.
  unfold _convert_table_rows_to_lists.
  intros (body & E & [= <-])%result_bind_inv_ok.
  exists body. split; [done|]. by eapply mapM_result_length.
Qed.

Lemma as_rows_length (data : list bqrow) : length (as_rows data) = length data.
Proof. unfold as_rows. by rewrite length_fmap. Qed.

Section mailed_rows.
Context `{Externals}.

Lemma instance_hours_table_shape (data : list bqrow) (date : Z) (w w' : world) (t : table) :
  instance_hours_table data date w = (Ok t, w') →
  ∃ body, t = header_row instance_hours_ORDER :: body ∧ length body = length data.
Proof.
  unfold instance_hours_table.
  intros (yyyymmdd & w0 & _ & (_ & w1 & _ & (hist & w2 & _ & [E _]%lift_inv
    )%M_bind_inv_ok)%M_bind_inv_ok)%M_bind_inv_ok.
  apply result_bind_inv_ok in E as (total & _ & E).
  apply result_bind_inv_ok in E as (rows & Erows & E).
  apply convert_table_rows_shape in E as (body & -> & Hlen).
  exists body. split; [done|].
  by rewrite Hlen, (mapM_result_length _ _ _ Erows), as_rows_length.
Qed.

Lemma rpcs_table_shape (data : list bqrow) (date : Z) (w w' : world) (t : table) :
  rpcs_table data date w = (Ok t, w') →
  ∃ body, t = header_row rpcs_ORDER :: body ∧ length body = length data.
Proof.
  unfold rpcs_table.
  intros (yyyymmdd & w0 & _ & (_ & w1 & _ & (hist & w2 & _ & [E _]%lift_inv
    )%M_bind_inv_ok)%M_bind_inv_ok)%M_bind_inv_ok.
  apply result_bind_inv_ok in E as (rows & Erows & E).
  apply convert_table_rows_shape in E as (body & -> & Hlen).
  exists body. split; [done|].
  by rewrite Hlen, (mapM_result_length _ _ _ Erows), as_rows_length.
Qed.

(** C8, what the code does.  The tables handed to [_send_email] are the
    first 50 (instance hours) and 75 (RPCs) rows of the shaped table, header
    included: the header and [min 49 n], respectively [min 74 n], data rows
    for [n] records. *)
Theorem mailed_tables_keep_header_in_slice (data : list bqrow) (date : Z) (w w' : world)
    (content : gmap string table) :
  (instance_hours_content data date w = (Ok content, w') →
     ∃ heading body,
       content = {[ heading := header_row instance_hours_ORDER :: body ]}
       ∧ length body = Nat.min 49 (length data))
  ∧ (rpcs_content data date w = (Ok content, w') →
     ∃ heading body,
       content = {[ heading := header_row rpcs_ORDER :: body ]}
       ∧ length body = Nat.min 74 (length data)).
Proof.
  split.
  - unfold instance_hours_content.
    intros (yyyymmdd & w0 & _ & (t & w1 & Et & [-> _]%mret_inv)%M_bind_inv_ok)%M_bind_inv_ok.
    apply instance_hours_table_shape in Et as (body & -> & Hlen).
    eexists _, (take 49 body). split; [reflexivity|].
    by rewrite length_take, Hlen.
  - unfold rpcs_content.
    intros (yyyymmdd & w0 & _ & (t & w1 & Et & [-> _]%mret_inv)%M_bind_inv_ok)%M_bind_inv_ok.
    apply rpcs_table_shape in Et as (body & -> & Hlen).
    eexists _, (take 74 body). split; [reflexivity|].
    by rewrite length_take, Hlen.
Qed.

End mailed_rows.

(** ** Sparkline renderer: positions of the points *)

Lemma data_points_lookup (data : list (option atom)) (i : nat) :
  data_points data !! i = (λ datum, pair i <$> datum) <$> data !! i.
Proof. unfold data_points. by rewrite list_lookup_imap. Qed.

Lemma sparkline_range_horizontal (data : list (option atom)) (r : plot_range) :
  sparkline_range data = Ok r → xmin r = 1 ∧ xmax r = Z.of_nat (length data).
Proof.
  unfold sparkline_range.
  intros (m1 & _ & (hi & _ & (m2 & _ & (lo & _ & [= <-])%result_bind_inv_ok
    )%result_bind_inv_ok)%result_bind_inv_ok)%result_bind_inv_ok.
  done.
Qed.

(** C5, at the failing input.  For the series 1, 2, 3 the horizontal range
    is [1:3] while the points are emitted at 0, 1 and 2: the first sample is
    left of the range.  A [None] sample gives no point and does not shift
    the positions of the others. *)
Theorem sparkline_first_point_left_of_range :
  let data := [Some (AInt 1); Some (AInt 2); Some (AInt 3)] in
  (∃ r, sparkline_range data = Ok r ∧ xmin r = 1 ∧ xmax r = 3)
  ∧ data_points data = [Some (0%nat, AInt 1); Some (1%nat, AInt 2); Some (2%nat, AInt 3)]
  ∧ data_points [Some (AInt 1); None; Some (AInt 2); Some (AInt 3)]
    = [Some (0%nat, AInt 1); None; Some (2%nat, AInt 2); Some (3%nat, AInt 3)].
Proof. cbv zeta. split; [eexists; split; [reflexivity|done]|done]. Qed.

(** ** Placeholders of a format *)

(** Induction that follows [placeholders]: one or two characters at a time. *)
Lemma string_ind2 (P : string → Prop) :
  P EmptyString →
  (∀ c, P (String c EmptyString)) →
  (∀ c d s, P s → P (String d s) → P (String c (String d s))) →
  ∀ s, P s.
Proof.
  intros H0 H1 H2 s.
  assert (P s ∧ ∀ c, P (String c s)) as [? _]; [|done].
  induction s as [|d s [IH1 IH2]]; [by split|].
  split; [apply IH2|]. intros c. by apply H2.
Qed.

Lemma str_cons_app (c : ascii) (s : string) : String c "" +:+ s = String c s.
Proof. reflexivity. Qed.

Lemma str_nil_app (s : string) : "" +:+ s = s.
Proof. reflexivity. Qed.

Section format_facts.
Context `{Externals}.

Lemma format_loop_cons (c : ascii) (s : string) (st : fstate) (args : list string) :
  format_loop (String c s) st args
  = '(st', args', piece) ← fstep st c args;
    rest ← format_loop s st' args';
    Ok (piece +:+ rest).
Proof. reflexivity. Qed.

Lemma fstep_percent_percent (args : list string) :
  fstep FStart "%" args = Ok (FLit, args, "%").
Proof. reflexivity. Qed.

Lemma fstep_percent_s (a : string) (args : list string) :
  fstep FStart "s" (a :: args) = Ok (FLit, args, a).
Proof. reflexivity. Qed.

Lemma format_loop_literal (c : ascii) (s : string) (args : list string) :
  Ascii.eqb c "%" = false →
  format_loop (String c s) FLit args = (String c) <$> format_loop s FLit args.
Proof.
  intros Hc. rewrite format_loop_cons. cbn [fstep]. rewrite Hc.
  rewrite result_bind_ok. by destruct (format_loop s FLit args).
Qed.

Lemma format_loop_percent (s : string) (args : list string) :
  format_loop (String "%" (String "%" s)) FLit args
  = (String "%") <$> format_loop s FLit args.
Proof.
  rewrite format_loop_cons. cbn [fstep]. change (Ascii.eqb "%" "%") with true.
  cbv iota. rewrite result_bind_ok, format_loop_cons, fstep_percent_percent.
  rewrite result_bind_ok. by destruct (format_loop s FLit args).
Qed.

Lemma format_loop_placeholder (s : string) (a : string) (args : list string) :
  format_loop (String "%" (String "s" s)) FLit (a :: args)
  = (String.append a) <$> format_loop s FLit args.
Proof.
  rewrite format_loop_cons. cbn [fstep]. change (Ascii.eqb "%" "%") with true.
  cbv iota. rewrite result_bind_ok, format_loop_cons, fstep_percent_s.
  rewrite result_bind_ok. by destruct (format_loop s FLit args).
Qed.

Lemma format_loop_placeholder_none (s : string) :
  format_loop (String "%" (String "s" s)) FLit [] = Raise TypeError.
Proof. reflexivity. Qed.

(** A format with [n] placeholders and no other specifier: the formatter
    succeeds exactly on [n] arguments, and yields [substitute]. *)
Lemma format_loop_placeholders (s : string) :
  ∀ n args, placeholders s = Some n →
    format_loop s FLit args
    = if decide (length args = n) then Ok (substitute s args) else Raise TypeError.
Proof.
  induction s as [| c | c d s IH1 IH2] using string_ind2; intros n args.
  - cbn. intros [= <-]. by destruct args.
  - cbn [placeholders]. destruct (Ascii.eqb c "%") eqn:Hc; [done|].
    intros [= <-]. rewrite format_loop_literal by done.
    cbn [substitute]. rewrite Hc. cbn. by destruct args.
  - cbn [placeholders]. destruct (Ascii.eqb_spec c "%") as [->|Hc].
    + destruct (Ascii.eqb_spec d "%") as [->|Hd].
      * intros Hs. rewrite format_loop_percent, (IH1 n args Hs).
        cbn [substitute]. change (Ascii.eqb "%" "%") with true. cbv iota.
        by destruct (decide _).
      * destruct (Ascii.eqb_spec d "s") as [->|Hd']; [|done].
        destruct (placeholders s) as [m|] eqn:Hs; [|done].
        change (S <$> Some m) with (Some (S m)). intros [= <-].
        destruct args as [|a args].
        { rewrite format_loop_placeholder_none. by destruct (decide _). }
        rewrite format_loop_placeholder, (IH1 m args eq_refl).
        cbn [substitute length]. change (Ascii.eqb "%" "%") with true.
        change (Ascii.eqb "s" "%") with false. cbv iota.
        destruct (decide (length args = m)), (decide (S (length args) = S m));
          try done; lia.
    + intros Hs. apply Ascii.eqb_neq in Hc.
      rewrite format_loop_literal by done. rewrite (IH2 n args Hs).
      cbn [substitute]. rewrite Hc. by destruct (decide _).
Qed.

End format_facts.

Lemma placeholders_app (s t : string) (n : nat) :
  placeholders s = Some n →
  placeholders (s +:+ t) = (Nat.add n) <$> placeholders t.
Proof.
  revert n. induction s as [| c | c d s IH1 IH2] using string_ind2; intros n.
  - cbn. intros [= <-]. rewrite str_nil_app. by destruct (placeholders t).
  - cbn [placeholders]. destruct (Ascii.eqb c "%") eqn:Hc; [done|].
    intros [= <-]. rewrite str_cons_app. cbn [placeholders]. rewrite Hc.
    by destruct (placeholders t).
  - change (String c (String d s) +:+ t) with (String c (String d (s +:+ t))).
    cbn [placeholders]. destruct (Ascii.eqb c "%") eqn:Hc.
    + destruct (Ascii.eqb d "%") eqn:Hd; [apply IH1|].
      destruct (Ascii.eqb d "s") eqn:Hd'; [|done].
      destruct (placeholders s) as [m|] eqn:Hs; [|done]. cbn. intros [= <-].
      rewrite (IH1 m eq_refl). by destruct (placeholders t).
    + intros Hs. change (String d (s +:+ t)) with (String d s +:+ t). by apply IH2.
Qed.

Lemma clean_text_app (s t : string) : clean_text s → clean_text t → clean_text (s +:+ t).
Proof.
  unfold clean_text. intros Hs Ht. by rewrite (placeholders_app s t 0), Ht.
Qed.

(** ** Placeholders of the composed body *)

Lemma total_placeholders_app (l1 l2 : list string) (a b : nat) :
  total_placeholders l1 = Some a → total_placeholders l2 = Some b →
  total_placeholders (l1 ++ l2) = Some (a + b)%nat.
Proof.
  revert a. induction l1 as [|l l1 IH]; intros a; cbn.
  { by intros [= <-]. }
  destruct (placeholders l) as [n|]; [|done]. cbn.
  destruct (total_placeholders l1) as [m|]; [|done]. cbn.
  intros [= <-] Hb. rewrite (IH m eq_refl Hb). cbn. f_equal. lia.
Qed.

Lemma total_placeholders_clean (lines : list string) :
  Forall clean_text lines → total_placeholders lines = Some 0%nat.
Proof.
  induction 1 as [|l lines Hl _ IH]; [done|]. cbn. by rewrite Hl, IH.
Qed.

Lemma placeholders_joined (lines : list string) (n : nat) :
  total_placeholders lines = Some n →
  placeholders (String.concat nl lines) = Some n.
Proof.
  revert n. induction lines as [|l lines IH]; intros n; cbn [total_placeholders].
  { by intros [= <-]. }
  destruct (placeholders l) as [a|] eqn:Hl; [|done].
  destruct (total_placeholders lines) as [b|] eqn:Hrest; [|done].
  intros [= <-]. destruct lines as [|l' lines].
  { cbn in Hrest. injection Hrest as <-. cbn. rewrite Hl. f_equal. lia. }
  change (String.concat nl (l :: l' :: lines))
    with (l +:+ nl +:+ String.concat nl (l' :: lines)).
  rewrite (placeholders_app _ _ a Hl), (placeholders_app nl _ 0 eq_refl).
  by rewrite (IH b eq_refl).
Qed.

Lemma counts_app (r1 r2 : list string * list string) :
  counts r1 → counts r2 → counts (r1.1 ++ r2.1, r1.2 ++ r2.2).
Proof.
  unfold counts. cbn. intros H1 H2. rewrite length_app.
  by apply total_placeholders_app.
Qed.

Lemma counts_concat (parts : list (list string * list string)) :
  Forall counts parts → counts (concat (parts.*1), concat (parts.*2)).
Proof.
  induction 1 as [|r parts Hr _ IH]; [done|]. cbn [fmap list_fmap concat].
  by apply (counts_app r (_, _)).
Qed.

Lemma counts_wrap (pre post : list string) (r : list string * list string) :
  Forall clean_text pre → Forall clean_text post → counts r →
  counts (pre ++ r.1 ++ post, r.2).
Proof.
  unfold counts. cbn. intros Hpre Hpost Hr.
  rewrite (total_placeholders_app pre _ 0 (length r.2 + 0));
    [f_equal; lia|by apply total_placeholders_clean|].
  apply total_placeholders_app; [done|by apply total_placeholders_clean].
Qed.

Lemma counts_lines (lines : list string) : Forall clean_text lines → counts (lines, []).
Proof. apply total_placeholders_clean. Qed.

(** What every element of a successful [mapM] satisfies. *)
Lemma mapM_M_Forall {A B} (f : A → M B) (Q : B → Prop) (l : list A) :
  (∀ x w r w', x ∈ l → f x w = (Ok r, w') → Q r) →
  ∀ w parts w', mapM f l w = (Ok parts, w') → Forall Q parts.
Proof.
  induction l as [|x l IH]; intros Hf w parts w'.
  { intros [= <- _]. constructor. }
  cbn [mapM].
  intros (y & w1 & Ey & (k & w2 & Ek & [-> _]%mret_inv)%M_bind_inv_ok)%M_bind_inv_ok.
  constructor.
  - eapply Hf; [by left|done].
  - eapply IH; [|done]. intros z ? ? ? Hz. apply Hf. by right.
Qed.

Section composed_body_facts.
Context `{Externals}.

Lemma collect_counts {A} (f : A → M (list string * list string)) (l : list A) :
  (∀ x w r w', x ∈ l → f x w = (Ok r, w') → counts r) →
  ∀ w r w', collect f l w = (Ok r, w') → counts r.
Proof.
  intros Hf w r w'. unfold collect.
  intros (parts & w1 & Eparts & [-> _]%mret_inv)%M_bind_inv_ok.
  apply counts_concat. by eapply mapM_M_Forall.
Qed.

Lemma clean_uint (d : Decimal.uint) : clean_text (NilEmpty.string_of_uint d).
Proof. induction d; cbn; done. Qed.

Lemma clean_uint_zero (d : Decimal.uint) : clean_text (NilZero.string_of_uint d).
Proof. destruct d; [done|exact (clean_uint _)..]. Qed.

Lemma clean_str_int (z : Z) : clean_text (str_int z).
Proof.
  unfold str_int. destruct (Z.to_int z) as [d|d]; cbn [NilZero.string_of_int].
  - apply clean_uint_zero.
  - change (clean_text (NilZero.string_of_uint d)). apply clean_uint_zero.
Qed.

Lemma clean_td (style col : string) :
  clean_text style → clean_text col → clean_text (td style col).
Proof.
  intros Hs Hc. unfold td. repeat (first [done | apply clean_text_app]).
Qed.

Lemma cell_html_counts (col : value) (w w' : world) (r : list string * list string) :
  (∀ f, clean_text (fmt_2f f)) →
  clean_cell col →
  cell_html col w = (Ok r, w') → counts r.
Proof.
  intros Hfmt Hcol. destruct col as [[z|f|s]|l]; cbn [cell_html].
  - intros [-> _]%mret_inv. apply counts_lines. constructor; [|done].
    apply clean_td; [done|apply clean_str_int].
  - intros [-> _]%mret_inv. apply counts_lines. constructor; [|done].
    apply clean_td; [done|apply Hfmt].
  - intros [-> _]%mret_inv. apply counts_lines. constructor; [|done].
    by apply clean_td.
  - intros (image & w1 & _ & E)%M_bind_inv_ok.
    destruct image as [[|c png]|]; apply mret_inv in E as [-> _]; done.
Qed.

Lemma row_html_counts (r : list value) (w w' : world) (res : list string * list string) :
  (∀ f, clean_text (fmt_2f f)) →
  Forall clean_cell r →
  row_html r w = (Ok res, w') → counts res.
Proof.
  intros Hfmt Hr. unfold row_html.
  intros ([cells images] & w1 & Ec & [-> _]%mret_inv)%M_bind_inv_ok.
  apply (collect_counts cell_html r) in Ec.
  - apply (counts_wrap ["<tr>"] ["</tr>"] (cells, images)); [by repeat constructor..|done].
  - rewrite Forall_forall in Hr. intros col ? ? ? Hin. apply cell_html_counts; auto.
Qed.

Lemma table_html_counts (heading : string) (t : table) (w w' : world)
    (res : list string * list string) :
  (∀ f, clean_text (fmt_2f f)) →
  clean_text heading → clean_table t →
  table_html (heading, t) w = (Ok res, w') → counts res.
Proof.
  intros Hfmt Hh Ht. unfold table_html.
  assert (Hh3 : Forall clean_text (if String.eqb heading "" then []
                                   else ["<h3>" +:+ heading +:+ "</h3>"])).
  { destruct (String.eqb heading ""); [done|].
    constructor; [|done]. repeat (first [done | apply clean_text_app]). }
  destruct t as [|[|hd hds] rows];
    try (intros [-> _]%mret_inv; by apply counts_lines).
  destruct Ht as [Hhdr Hrows].
  intros ([body images] & w1 & Eb & [-> _]%mret_inv)%M_bind_inv_ok.
  apply (collect_counts row_html rows) in Eb; cycle 1.
  { rewrite Forall_forall in Hrows. intros r ? ? ? Hin. apply row_html_counts; auto. }
  rewrite !app_assoc, <- (app_assoc _ body).
  apply (counts_wrap _ _ (body, images)); [|by repeat constructor|done].
  repeat apply Forall_app_2; try done; try (by repeat constructor).
  apply Forall_fmap. eapply Forall_impl; [exact Hhdr|].
  intros h Hc. cbn. repeat (first [done | apply clean_text_app]).
Qed.

Lemma compose_counts (tables : gmap string table) (preamble : option string)
    (w w' : world) (res : list string * list string) :
  (∀ f, clean_text (fmt_2f f)) →
  clean_tables tables → clean_preamble preamble →
  compose tables preamble w = (Ok res, w') → counts res.
Proof.
  intros Hfmt Ht Hp. unfold compose.
  intros ([body images] & w1 & Eb & [-> _]%mret_inv)%M_bind_inv_ok.
  apply (collect_counts table_html) in Eb; cycle 1.
  { intros [heading t] ? ? ? Hin.
    rewrite merge_sort_Permutation in Hin. apply elem_of_map_to_list in Hin.
    destruct (Ht heading t Hin). by apply table_html_counts. }
  rewrite <- (app_nil_r body).
  apply (counts_wrap _ [] (body, images)); [|done|done].
  destruct preamble as [[|c p]|]; [done| |done].
  constructor; [|done]. repeat (first [done | apply clean_text_app]).
Qed.

End composed_body_facts.

(** ** The page that is mailed *)

Lemma substitute_literal (c : ascii) (s : string) (args : list string) :
  Ascii.eqb c "%" = false → substitute (String c s) args = String c (substitute s args).
Proof. intros Hc. cbn [substitute]. by rewrite Hc. Qed.

Lemma substitute_app (s t : string) (n : nat) (a1 a2 : list string) :
  placeholders s = Some n → length a1 = n →
  substitute (s +:+ t) (a1 ++ a2) = substitute s a1 +:+ substitute t a2.
Proof.
  revert n a1. induction s as [| c | c d s IH1 IH2] using string_ind2; intros n a1.
  - cbn. intros [= <-] Hl. by destruct a1.
  - cbn [placeholders]. destruct (Ascii.eqb c "%") eqn:Hc; [done|].
    intros [= <-] Hl. destruct a1; [|done].
    rewrite str_cons_app, !substitute_literal by done. reflexivity.
  - change (String c (String d s) +:+ t) with (String c (String d (s +:+ t))).
    cbn [placeholders]. destruct (Ascii.eqb_spec c "%") as [->|Hc].
    + destruct (Ascii.eqb_spec d "%") as [->|Hd].
      { intros Hs Hl. change (String "%" (substitute (s +:+ t) (a1 ++ a2))
                              = String "%" (substitute s a1) +:+ substitute t a2).
        by rewrite (IH1 n a1 Hs Hl). }
      destruct (Ascii.eqb_spec d "s") as [->|Hd']; [|done].
      destruct (placeholders s) as [m|] eqn:Hs; [|done]. cbn. intros [= <-] Hl.
      destruct a1 as [|a a1]; [done|].
      change (a +:+ substitute (s +:+ t) (a1 ++ a2)
              = (a +:+ substitute s a1) +:+ substitute t a2).
      rewrite (IH1 m a1 eq_refl) by (cbn in Hl; lia).
      by rewrite str_app_assoc.
    + intros Hs Hl. apply Ascii.eqb_neq in Hc.
      rewrite (substitute_literal c (String d (s +:+ t))) by done.
      rewrite (substitute_literal c (String d s)) by done.
      change (String d (s +:+ t)) with (String d s +:+ t).
      by rewrite (IH2 n a1 Hs Hl).
Qed.

Lemma unescape_app (s t : string) :
  clean_text s → unescape (s +:+ t) = unescape s +:+ unescape t.
Proof. intros Hs. apply (substitute_app s t 0 [] [] Hs eq_refl). Qed.

Lemma subst_lines_app (l1 l2 : list string) (n : nat) (a1 a2 : list string) :
  total_placeholders l1 = Some n → length a1 = n →
  subst_lines (l1 ++ l2) (a1 ++ a2) = subst_lines l1 a1 ++ subst_lines l2 a2.
Proof.
  revert n a1. induction l1 as [|l l1 IH]; intros n a1; cbn.
  { intros [= <-] Hl. by destruct a1. }
  destruct (placeholders l) as [k|] eqn:Hk; [|done]. cbn.
  destruct (total_placeholders l1) as [m|] eqn:Hm; [|done]. cbn.
  intros [= <-] Hl.
  rewrite take_app_le, drop_app_le by lia.
  by rewrite (IH m (drop k a1) eq_refl) by (rewrite length_drop; lia).
Qed.

Lemma substitute_joined (lines : list string) (n : nat) (args : list string) :
  total_placeholders lines = Some n → length args = n →
  substitute (String.concat nl lines) args = String.concat nl (subst_lines lines args).
Proof.
  revert n args. induction lines as [|l lines IH]; intros n args; cbn [total_placeholders].
  { intros [= <-] Hl. by destruct args. }
  destruct (placeholders l) as [k|] eqn:Hk; [|done].
  destruct (total_placeholders lines) as [m|] eqn:Hm; [|done].
  intros [= <-] Hl.
  assert (Es : subst_lines (l :: lines) args
               = substitute l (take k args) :: subst_lines lines (drop k args)).
  { cbn [subst_lines]. by rewrite Hk. }
  rewrite Es. clear Es.
  destruct lines as [|l' lines].
  { cbn in Hm. injection Hm as <-. cbn. by rewrite take_ge by lia. }
  assert (∃ x xs, subst_lines (l' :: lines) (drop k args) = x :: xs) as (x & xs & Ex).
  { eexists _, _. reflexivity. }
  rewrite Ex.
  change (String.concat nl (substitute l (take k args) :: x :: xs))
    with (substitute l (take k args) +:+ nl +:+ String.concat nl (x :: xs)).
  rewrite <- Ex.
  change (String.concat nl (l :: l' :: lines))
    with (l +:+ nl +:+ String.concat nl (l' :: lines)).
  rewrite <- (take_drop k args) at 1.
  rewrite (substitute_app l _ k) by (first [done | rewrite length_take; lia]).
  rewrite (substitute_app nl _ 0 [] (drop k args)) by done.
  rewrite (IH m (drop k args) eq_refl) by (rewrite length_drop; lia).
  reflexivity.
Qed.

Lemma subst_lines_clean (lines : list string) :
  Forall clean_text lines → subst_lines lines [] = unescape <$> lines.
Proof.
  induction 1 as [|l lines Hl _ IH]; [done|]. cbn. rewrite Hl. cbn. by rewrite IH.
Qed.

Lemma omap_concat {A B} (f : A → option B) (ll : list (list A)) :
  omap f (concat ll) = concat ((λ l : list A, omap f l) <$> ll).
Proof. induction ll as [|l ll IH]; [done|]. cbn. by rewrite omap_app, IH. Qed.

Lemma concat_singletons {A B} (f : A → B) (l : list A) :
  concat ((λ x, [f x]) <$> l) = f <$> l.
Proof. induction l as [|x l IH]; [done|]. cbn. by rewrite IH. Qed.

Lemma concat_option_list {A B} (f : A → option B) (l : list A) :
  concat ((λ x, option_list (f x)) <$> l) = omap f l.
Proof.
  induction l as [|x l IH]; [done|]. cbn. rewrite IH. by destruct (f x).
Qed.

(** Each element of a successful [mapM] against the element it came from. *)
Lemma mapM_M_Forall2 {A B} (f : A → M B) (Q : A → B → Prop) (l : list A) :
  (∀ x w r w', x ∈ l → f x w = (Ok r, w') → Q x r) →
  ∀ w parts w', mapM f l w = (Ok parts, w') → Forall2 Q l parts.
Proof.
  induction l as [|x l IH]; intros Hf w parts w'.
  { intros [= <- _]. constructor. }
  cbn [mapM].
  intros (y & w1 & Ey & (k & w2 & Ek & [-> _]%mret_inv)%M_bind_inv_ok)%M_bind_inv_ok.
  constructor.
  - eapply Hf; [by left|done].
  - eapply IH; [|done]. intros z ? ? ? Hz. apply Hf. by right.
Qed.

Section shown_facts.
Context `{Externals}.

Lemma paired_app (r1 r2 : list string * list string) (s1 s2 i1 i2 : list string) :
  paired r1 s1 i1 → paired r2 s2 i2 →
  paired (r1.1 ++ r2.1, r1.2 ++ r2.2) (s1 ++ s2) (i1 ++ i2).
Proof.
  intros (E1 & P1 & S1) (E2 & P2 & S2). split; [|split]; cbn.
  - by rewrite E1, E2.
  - rewrite length_app. by apply total_placeholders_app.
  - rewrite fmap_app.
    rewrite (subst_lines_app _ _ (length i1)) by (by rewrite ?length_fmap).
    by rewrite S1, S2.
Qed.

Lemma paired_lines (lines : list string) :
  Forall clean_text lines → paired (lines, []) (unescape <$> lines) [].
Proof.
  intros Hl. split; [done|]. split.
  - by apply total_placeholders_clean.
  - by apply subst_lines_clean.
Qed.

Lemma paired_wrap (pre post : list string) (r : list string * list string)
    (shown images : list string) :
  Forall clean_text pre → Forall clean_text post → paired r shown images →
  paired (pre ++ r.1 ++ post, r.2)
    ((unescape <$> pre) ++ shown ++ (unescape <$> post)) images.
Proof.
  intros Hpre Hpost Hr.
  pose proof (paired_app _ _ _ _ _ _ (paired_lines pre Hpre)
                (paired_app _ _ _ _ _ _ Hr (paired_lines post Hpost))) as Hp.
  cbn [fst snd app] in Hp. by rewrite !app_nil_r in Hp.
Qed.

Lemma paired_concat {A} (l : list A) (parts : list (list string * list string))
    (g h : A → list string) :
  Forall2 (λ x r, paired r (g x) (h x)) l parts →
  paired (concat (parts.*1), concat (parts.*2)) (concat (g <$> l)) (concat (h <$> l)).
Proof.
  induction 1 as [|x r l parts Hr _ IH]; [done|]. cbn [fmap list_fmap concat].
  by apply (paired_app r (_, _)).
Qed.

Lemma collect_paired {A} (f : A → M (list string * list string))
    (g h : A → list string) (l : list A) :
  (∀ x w r w', x ∈ l → f x w = (Ok r, w') → paired r (g x) (h x)) →
  ∀ w r w', collect f l w = (Ok r, w') →
    paired r (concat (g <$> l)) (concat (h <$> l)).
Proof.
  intros Hf w r w'. unfold collect.
  intros (parts & w1 & Eparts & [-> _]%mret_inv)%M_bind_inv_ok.
  apply paired_concat.
  by eapply (mapM_M_Forall2 f (λ x r, paired r (g x) (h x))).
Qed.

(** What [_render_sparkline] returns is the same in every world. *)
Lemma render_sparkline_result (l : list (option atom)) (w : world) :
  (_render_sparkline l w).1 = (_render_sparkline l empty_world).1.
Proof.
  unfold _render_sparkline. destruct (_ <? _)%nat; [done|].
  rewrite !M_bind_unfold. unfold lift.
  destruct (_ <$> sparkline_range l) as [script|e]; [|done].
  rewrite !M_bind_unfold. unfold popen_communicate.
  by destruct (gnuplot script).
Qed.

Lemma uint_no_percent (d : Decimal.uint) (args : list string) :
  substitute (NilEmpty.string_of_uint d) args = NilEmpty.string_of_uint d.
Proof. induction d; cbn; by rewrite ?IHd. Qed.

Lemma unescape_str_int (z : Z) : unescape (str_int z) = str_int z.
Proof.
  unfold unescape, str_int.
  destruct (Z.to_int z) as [d|d]; cbn [NilZero.string_of_int].
  - destruct d; try done; apply uint_no_percent.
  - change (substitute (String "-" (NilZero.string_of_uint d)) []
            = String "-" (NilZero.string_of_uint d)).
    cbn [substitute]. change (Ascii.eqb "-" "%") with false. cbv iota. f_equal.
    destruct d; try done; apply uint_no_percent.
Qed.

Lemma unescape_td (style col : string) :
  clean_text style → clean_text col →
  unescape (td style col) = td (unescape style) (unescape col).
Proof.
  intros Hs Hc. unfold td.
  rewrite (unescape_app "<td style=") by done.
  rewrite (unescape_app dq) by done.
  rewrite (unescape_app style) by done.
  rewrite (unescape_app dq) by done.
  rewrite (unescape_app ">") by done.
  rewrite (unescape_app col) by done.
  reflexivity.
Qed.

Lemma cell_html_paired (col : value) (w w' : world) (r : list string * list string) :
  (∀ f, clean_text (fmt_2f f)) →
  clean_cell col →
  cell_html col w = (Ok r, w') →
  paired r [shown_cell col] (option_list (cell_image col)).
Proof.
  intros Hfmt Hcol. destruct col as [[z|f|s]|l]; cbn [cell_html].
  - intros [-> _]%mret_inv.
    pose proof (paired_lines [td "padding: 3px 5px 3px 8px;text-align: right;" (str_int z)])
      as Hp.
    cbn [fmap list_fmap] in Hp.
    rewrite unescape_td, unescape_str_int in Hp by (first [done | apply clean_str_int]).
    apply Hp. constructor; [|done]. apply clean_td; [done|apply clean_str_int].
  - intros [-> _]%mret_inv.
    pose proof (paired_lines [td "padding: 3px 5px 3px 8px;text-align: right;" (fmt_2f f)])
      as Hp.
    cbn [fmap list_fmap] in Hp. rewrite unescape_td in Hp by (first [done | apply Hfmt]).
    apply Hp. constructor; [|done]. apply clean_td; [done|apply Hfmt].
  - intros [-> _]%mret_inv.
    pose proof (paired_lines [td "padding: 3px 5px 3px 8px;" s]) as Hp.
    cbn [fmap list_fmap] in Hp. rewrite unescape_td in Hp by done.
    apply Hp. constructor; [|done]. by apply clean_td.
  - intros (image & w1 & Er & E)%M_bind_inv_ok.
    assert (Ei : (_render_sparkline l empty_world).1 = Ok image).
    { by rewrite <- (render_sparkline_result l w), Er. }
    cbn [shown_cell cell_image]. unfold sparkline_image. rewrite Ei.
    destruct image as [[|c png]|]; apply mret_inv in E as [-> _]; by repeat split.
Qed.

Lemma row_html_paired (r : list value) (w w' : world) (res : list string * list string) :
  (∀ f, clean_text (fmt_2f f)) →
  Forall clean_cell r →
  row_html r w = (Ok res, w') →
  paired res (shown_row r) (omap cell_image r).
Proof.
  intros Hfmt Hr. unfold row_html.
  intros ([cells images] & w1 & Ec & [-> _]%mret_inv)%M_bind_inv_ok.
  apply (collect_paired cell_html (λ col, [shown_cell col])
           (λ col, option_list (cell_image col)) r) in Ec.
  - rewrite concat_singletons, concat_option_list in Ec.
    apply (paired_wrap ["<tr>"] ["</tr>"] (cells, images)); [by repeat constructor..|done].
  - rewrite Forall_forall in Hr. intros col ? ? ? Hin. apply cell_html_paired; auto.
Qed.

Lemma table_html_paired (heading : string) (t : table) (w w' : world)
    (res : list string * list string) :
  (∀ f, clean_text (fmt_2f f)) →
  clean_text heading → clean_table t →
  table_html (heading, t) w = (Ok res, w') →
  paired res (shown_table (heading, t)) (omap cell_image (table_cells t)).
Proof.
  intros Hfmt Hh Ht. unfold table_html, shown_table. cbn [fst snd].
  set (h3 := if String.eqb heading "" then [] else ["<h3>" +:+ heading +:+ "</h3>"]).
  assert (Hh3 : Forall clean_text h3).
  { unfold h3. destruct (String.eqb heading ""); [done|].
    constructor; [|done]. repeat (first [done | apply clean_text_app]). }
  assert (Eh3 : unescape <$> h3
                = if String.eqb heading "" then []
                  else ["<h3>" +:+ unescape heading +:+ "</h3>"]).
  { unfold h3. destruct (String.eqb heading ""); [done|]. cbn. f_equal.
    rewrite (unescape_app "<h3>") by done. by rewrite (unescape_app heading). }
  rewrite <- Eh3.
  assert (Hnone : paired (h3, []) ((unescape <$> h3) ++ []) (omap cell_image [])).
  { rewrite app_nil_r. by apply paired_lines. }
  destruct t as [|[|hd hds] rows]; try (intros [-> _]%mret_inv; exact Hnone).
  clear Hnone. destruct Ht as [Hhdr Hrows]. cbn [table_cells].
  intros ([body images] & w1 & Eb & [-> _]%mret_inv)%M_bind_inv_ok.
  apply (collect_paired row_html shown_row (omap cell_image) rows) in Eb; cycle 1.
  { rewrite Forall_forall in Hrows. intros r ? ? ? Hin. apply row_html_paired; auto. }
  rewrite <- omap_concat in Eb.
  set (head := h3 ++ [table_open; "<thead>"; "<tr>"]
               ++ ((λ header, "<th>" +:+ str_value header +:+ "</th>") <$> (hd :: hds))
               ++ ["</tr>"; "</thead>"; "<tbody>"]).
  assert (Hhead : Forall clean_text head).
  { unfold head. repeat apply Forall_app_2; try done; try (by repeat constructor).
    apply Forall_fmap. eapply Forall_impl; [exact Hhdr|].
    intros h Hc. cbn. repeat (first [done | apply clean_text_app]). }
  pose proof (paired_wrap head ["</tbody>"; "</table>"] (body, images) _ _
                Hhead ltac:(by repeat constructor) Eb) as Hp.
  cbn [fst snd] in Hp.
  replace (h3 ++ [table_open; "<thead>"; "<tr>"]
              ++ ((λ header, "<th>" +:+ str_value header +:+ "</th>") <$> (hd :: hds))
              ++ ["</tr>"; "</thead>"; "<tbody>"] ++ body ++ ["</tbody>"; "</table>"])
    with (head ++ body ++ ["</tbody>"; "</table>"])
    by (unfold head; by rewrite <- !app_assoc).
  replace ((unescape <$> h3)
           ++ [table_open; "<thead>"; "<tr>"]
           ++ ((λ header, "<th>" +:+ unescape (str_value header) +:+ "</th>") <$> (hd :: hds))
           ++ ["</tr>"; "</thead>"; "<tbody>"]
           ++ concat (shown_row <$> rows) ++ ["</tbody>"; "</table>"])
    with ((unescape <$> head) ++ concat (shown_row <$> rows)
          ++ (unescape <$> ["</tbody>"; "</table>"])); [exact Hp|].
  unfold head. rewrite !fmap_app, <- !app_assoc. f_equal. f_equal. f_equal.
  rewrite <- list_fmap_compose. apply Forall_fmap_ext_1.
  eapply Forall_impl; [exact Hhdr|]. intros h Hc. cbn beta.
  change (unescape ("<th>" +:+ str_value h +:+ "</th>")
          = "<th>" +:+ unescape (str_value h) +:+ "</th>").
  rewrite (unescape_app "<th>") by done. by rewrite (unescape_app (str_value h)).
Qed.

Lemma compose_paired (tables : gmap string table) (preamble : option string)
    (w w' : world) (res : list string * list string) :
  (∀ f, clean_text (fmt_2f f)) →
  clean_tables tables → clean_preamble preamble →
  compose tables preamble w = (Ok res, w') →
  paired res (shown_body tables preamble) (omap cell_image (cells_in_order tables)).
Proof.
  intros Hfmt Ht Hp. unfold compose, shown_body, cells_in_order.
  intros ([body images] & w1 & Eb & [-> _]%mret_inv)%M_bind_inv_ok.
  apply (collect_paired table_html shown_table
           (λ ht, omap cell_image (table_cells ht.2))) in Eb; cycle 1.
  { intros [heading t] ? ? ? Hin.
    rewrite merge_sort_Permutation in Hin. apply elem_of_map_to_list in Hin.
    destruct (Ht heading t Hin). by apply table_html_paired. }
  rewrite omap_concat, <- list_fmap_compose.
  set (p := match preamble with
            | Some (String c s) => ["<p>" +:+ String c s +:+ "</p>"]
            | _ => []
            end).
  assert (Hclean : Forall clean_text p).
  { unfold p. destruct preamble as [[|c s]|]; [done| |done].
    constructor; [|done]. repeat (first [done | apply clean_text_app]). }
  pose proof (paired_wrap p [] (body, images) _ _ Hclean ltac:(done) Eb) as Hw.
  cbn [fst snd] in Hw. rewrite !app_nil_r in Hw.
  replace (match preamble with
           | Some (String c s) => ["<p>" +:+ unescape (String c s) +:+ "</p>"]
           | _ => []
           end) with (unescape <$> p); [exact Hw|].
  unfold p. destruct preamble as [[|c s]|]; [done| |done]. cbn. f_equal.
  rewrite (unescape_app "<p>") by done. by rewrite (unescape_app (String c s)).
Qed.

End shown_facts.

(** ** The substitution of the images *)

Section embed_facts.
Context `{Externals}.

Lemma embed_images_recognised (images : list string) :
  Forall (λ image, is_Some (imghdr_what image)) images →
  mapM embed_image images
  = Ok ((λ image, (tag_of image, (image_id image, image))) <$> images).
Proof.
  intros Hrec. apply mapM_result_ok. intros image Hin.
  rewrite Forall_forall in Hrec. destruct (Hrec image Hin) as [subtype E].
  unfold embed_image. by rewrite E.
Qed.

Lemma embed_images_placeholders (html : string) (images : list string) :
  placeholders html = Some (length images) →
  Forall (λ image, is_Some (imghdr_what image)) images →
  _embed_images_to_mime html images
  = Ok (substitute html (tag_of <$> images),
        (λ image, (image_id image, image)) <$> images).
Proof.
  intros Hp Hrec. unfold _embed_images_to_mime, py_format.
  destruct images as [|image images].
  - rewrite (format_loop_placeholders html 0 [] Hp). reflexivity.
  - rewrite (embed_images_recognised _ Hrec), result_bind_ok.
    rewrite <- !list_fmap_compose.
    rewrite (format_loop_placeholders html _ _ Hp).
    rewrite decide_True by (by rewrite length_fmap). reflexivity.
Qed.

(** C10, as amended.  When the preamble, the headings, the header values
    and the string cells hold no unescaped percent sign, the composed body
    has one [%s] per rendered image and no other specifier; the images are
    those of the sparkline cells, in the order in which the cells are gone
    through; the substitution [html % tuple(image_tags)] succeeds and yields
    the page in which every sparkline cell shows the image of its own
    series, so the i-th image goes with the i-th sparkline cell that has
    one.  [_embed_images_to_mime] returns that page when [MIMEImage]
    recognises the images.  A url_route cell such as /a%20b, or a cell %s,
    makes the substitution raise, and no mail is sent. *)
Theorem composed_body_substitution (tables : gmap string table)
    (preamble : option string) (w w' : world) (body images : list string) :
  (∀ f, clean_text (fmt_2f f)) →
  clean_tables tables → clean_preamble preamble →
  compose tables preamble w = (Ok (body, images), w') →
  placeholders (String.concat nl body) = Some (length images)
  ∧ images = omap cell_image (cells_in_order tables)
  ∧ py_format (String.concat nl body) (tag_of <$> images)
    = Ok (String.concat nl (shown_body tables preamble))
  ∧ String.concat nl (shown_body tables preamble)
    = substitute (String.concat nl body) (tag_of <$> images)
  ∧ (Forall (λ image, is_Some (imghdr_what image)) images →
     _embed_images_to_mime (String.concat nl body) images
     = Ok (String.concat nl (shown_body tables preamble),
           (λ image, (image_id image, image)) <$> images))
  ∧ (∀ to subject w0,
       _send_email cell_with_encoded_space to [] subject None w0 = (Raise TypeError, w0)
       ∧ _send_email cell_with_placeholder to [] subject None w0 = (Raise TypeError, w0)).
Proof.
  intros Hfmt Ht Hp Ec.
  destruct (compose_paired _ _ _ _ _ Hfmt Ht Hp Ec) as (Ei & Hn & Hs).
  cbn [fst snd] in Ei, Hn, Hs. rewrite <- Ei in Hn, Hs.
  assert (Hcount : placeholders (String.concat nl body) = Some (length images))
    by (by apply placeholders_joined).
  assert (Hshown : String.concat nl (shown_body tables preamble)
                   = substitute (String.concat nl body) (tag_of <$> images)).
  { rewrite <- Hs. symmetry.
    apply (substitute_joined body (length images)); [done|by rewrite length_fmap]. }
  split; [done|]. split; [done|]. split; [|split; [done|split]].
  - unfold py_format. rewrite (format_loop_placeholders _ _ _ Hcount).
    rewrite decide_True by (by rewrite length_fmap). by rewrite Hshown.
  - intros Hrec. rewrite Hshown. by apply embed_images_placeholders.
  - intros to subject w0. split; vm_compute; reflexivity.
Qed.

End embed_facts.

(** C10, counterexample.  A heading that is a placeholder makes the
    substitution fail although no cell and no header holds a percent sign;
    a cell with the specifier [% %] (a percent sign with the blank flag) is
    accepted. *)
Lemma percent_outside_cells_and_flagged_percent :
  (∃ body,
     compose (H:=demo_externals) heading_with_placeholder None empty_world
       = (Ok (body, []), empty_world)
     ∧ _embed_images_to_mime (H:=demo_externals) (String.concat nl body) []
       = Raise TypeError)
  ∧ (∃ body html,
       compose (H:=demo_externals) cell_with_flagged_percent None empty_world
         = (Ok (body, []), empty_world)
       ∧ _embed_images_to_mime (H:=demo_externals) (String.concat nl body) []
         = Ok (html, [])).
Proof.
  split.
  - eexists. split; [vm_compute; reflexivity|]. vm_compute. reflexivity.
  - eexists _, _. split; [vm_compute; reflexivity|]. vm_compute. reflexivity.
Qed.

Section claims.
Context `{Externals}.

(** C3.  On a series with fewer than three samples that are not [None],
    [_render_sparkline] returns [None] and starts no process: the world,
    and with it the list of started processes, is unchanged. *)
Theorem render_sparkline_too_few_samples (data : list (option atom)) (w : world) :
  (length (existing_data data) < 3)%nat →
  _render_sparkline data w = (Ok None, w)
  ∧ spawned (_render_sparkline data w).2 = spawned w.
Proof.
  intros Hlen. by rewrite (render_sparkline_insufficient data w Hlen).
Qed.


End claims.

(** ** The theorems at concrete inputs *)

Lemma Z_range_forall (P : Z → Prop) `{∀ i, Decision (P i)} (lo hi : Z) :
  bool_decide (Forall P (seqZ lo (hi - lo + 1))) = true →
  ∀ i, lo ≤ i ≤ hi → P i.
Proof.
  intros Hb%bool_decide_eq_true i Hi. rewrite Forall_forall in Hb.
  apply Hb, elem_of_seqZ. lia.
Qed.

Lemma demo_stamps_no_slash :
  ∀ i, 0 ≤ i ≤ 14 → no_slash (demo_strftime (demo_day - i)) = true.
Proof. by apply (Z_range_forall _ 0 14). Qed.

Lemma demo_stamps_differ :
  ∀ i, 1 ≤ i ≤ 14 → demo_strftime (demo_day - i) ≠ demo_strftime demo_day.
Proof. by apply (Z_range_forall _ 1 14). Qed.

Lemma demo_window_readable :
  window_readable (H:=demo_externals) (λ r, getitem r "url_route") "instance_hours"
    demo_day 14 (saved_world (H:=demo_externals) scenario "instance_hours" "20140831").
Proof.
  intros i Hi. split.
  - cbn [dirs saved_world]. intros Hin%elem_of_list_to_set.
    eapply (get_data_filename_not_data_dir (H:=demo_externals)) in Hin;
      [done|done|by apply demo_stamps_no_slash|done|done].
  - intros s _. exists scenario. split; [reflexivity|].
    repeat constructor; by eexists.
Qed.

Lemma process_past_data_window_witness :
  ∃ historical_data idx,
    _process_past_data (H:=demo_externals) py_eq "instance_hours" demo_day 14
      (λ r, getitem r "url_route")
      (saved_world (H:=demo_externals) scenario "instance_hours" "20140831")
    = (Ok historical_data,
       saved_world (H:=demo_externals) scenario "instance_hours" "20140831")
    ∧ length historical_data = 15%nat
    ∧ historical_data !! 0%nat = Some []
    ∧ historical_data !! 14%nat = Some idx
    ∧ dict_get py_eq (AStr "/b") idx = Some (route_row "/b" 5 50)
    ∧ dict_get py_eq (AStr "/z") idx = None.
Proof.
  destruct (process_past_data_window (H:=demo_externals) py_eq
              (λ r, getitem r "url_route") "instance_hours" demo_day 14
              (saved_world (H:=demo_externals) scenario "instance_hours" "20140831")
              py_eq_sym py_eq_trans)
    as (hist & E & Hlen & Hslots).
  - lia.
  - by vm_compute.
  - by vm_compute.
  - exact demo_window_readable.
  - destruct (Hslots 14 ltac:(lia)) as (oldest & Holdest & Hnone).
    destruct (Hslots 0 ltac:(lia)) as (idx & Hidx & Hday).
    assert (En : files (saved_world (H:=demo_externals) scenario "instance_hours" "20140831")
                 !! _get_data_filename (H:=demo_externals) "instance_hours"
                      (strftime (Externals:=demo_externals) (demo_day - 14)) = None)
      by reflexivity.
    assert (Es : files (saved_world (H:=demo_externals) scenario "instance_hours" "20140831")
                 !! _get_data_filename (H:=demo_externals) "instance_hours"
                      (strftime (Externals:=demo_externals) (demo_day - 0))
                 = Some "scenario.pickle")
      by reflexivity.
    rewrite En in Hnone. rewrite Es in Hday.
    destruct Hday as (old_data & Hload & _ & Hget).
    injection Hload as <-.
    exists hist, idx.
    exact (conj E (conj Hlen (conj (eq_trans Holdest (f_equal Some Hnone))
             (conj Hidx (conj (Hget (AStr "/b")) (Hget (AStr "/z"))))))).
Defined.

Lemma render_sparkline_too_few_samples_witness :
  _render_sparkline (H:=demo_externals) [Some (AInt 1); None; Some (AInt 2)] empty_world
  = (Ok None, empty_world)
  ∧ spawned (_render_sparkline (H:=demo_externals)
               [Some (AInt 1); None; Some (AInt 2)] empty_world).2 = [].
Proof.
  apply (render_sparkline_too_few_samples (H:=demo_externals)
           [Some (AInt 1); None; Some (AInt 2)] empty_world).
  vm_compute. lia.
Defined.

Lemma sparkline_vertical_range_witness :
  ∃ r, sparkline_range [Some (AInt 1); None; Some (AFloat 2.5); Some (AInt 2)] = Ok r
    ∧ ymin r = AFloat (-0.05 * 2.5)%float
    ∧ ymax r = AFloat (1.05 * 2.5)%float.
Proof.
  destruct (sparkline_vertical_range (H:=demo_externals)
              [Some (AInt 1); None; Some (AFloat 2.5); Some (AInt 2)] empty_world)
    as (m & fm & r & Hin & Hub & Efm & Er & Hlo & Hhi & _).
  - vm_compute. lia.
  - repeat constructor; try (by eexists); by vm_compute.
  - exists r. split; [done|].
    vm_compute in Er. injection Er as <-. split; reflexivity.
Defined.

Lemma instance_hours_scenario_witness :
  ∃ rest w',
    instance_hours_table (H:=demo_externals) scenario demo_day empty_world
    = (Ok (header_row instance_hours_ORDER :: scenario_first_row :: rest), w').
Proof.
  apply (instance_hours_scenario (H:=demo_externals) demo_day).
  - by vm_compute.
  - by vm_compute.
  - apply demo_stamps_no_slash.
  - apply demo_stamps_differ.
  - reflexivity.
Defined.

(** C6, counterexample.  In the scenario the first cell of the /a row is
    10/17*100, between 58.82 and 58.83, and not 62.5. *)
Lemma instance_hours_scenario_percentage :
  (∃ rest w',
     instance_hours_table (H:=demo_externals) scenario demo_day empty_world
     = (Ok (header_row instance_hours_ORDER
            :: (VAtom (AFloat (10 / 17 * 100)) :: tail scenario_first_row) :: rest), w'))
  ∧ PrimFloat.eqb (10 / 17 * 100) 62.5 = false
  ∧ PrimFloat.ltb 58.82 (10 / 17 * 100) = true
  ∧ PrimFloat.ltb (10 / 17 * 100) 58.83 = true.
Proof.
  split; [|by vm_compute]. eexists _, _. vm_compute. reflexivity.
Qed.


Lemma mailed_tables_keep_header_in_slice_witness :
  ∃ heading body w',
    instance_hours_content (H:=demo_externals) fifty_routes demo_day empty_world
    = (Ok {[ heading := header_row instance_hours_ORDER :: body ]}, w')
    ∧ length fifty_routes = 50%nat
    ∧ length body = 49%nat.
Proof.
  assert (∃ content w',
            instance_hours_content (H:=demo_externals) fifty_routes demo_day empty_world
            = (Ok content, w')) as (content & w' & E).
  { eexists _, _. vm_compute. reflexivity. }
  destruct (proj1 (mailed_tables_keep_header_in_slice (H:=demo_externals)
                     fifty_routes demo_day empty_world w' content) E)
    as (heading & body & -> & Hlen).
  exists heading, body, w'. split; [done|]. split; [done|]. exact Hlen.
Defined.



Lemma demo_composed_body :
  ∃ body image1 image2 w',
    compose (H:=demo_externals) table_with_sparkline None empty_world
    = (Ok (body, [image1; image2]), w')
    ∧ sparkline_image (H:=demo_externals) first_series = Some image1
    ∧ sparkline_image (H:=demo_externals) short_series = None
    ∧ sparkline_image (H:=demo_externals) second_series = Some image2
    ∧ image1 ≠ image2
    ∧ imghdr_what (Externals:=demo_externals) image1 = Some "png"
    ∧ imghdr_what (Externals:=demo_externals) image2 = Some "png".
Proof.
  eexists _, _, _, _. split; [reflexivity|].
  repeat split; try reflexivity. by vm_compute.
Qed.

Lemma composed_body_substitution_witness :
  ∃ body image1 image2 w',
    compose (H:=demo_externals) table_with_sparkline None empty_world
    = (Ok (body, [image1; image2]), w')
    ∧ image1 ≠ image2
    ∧ placeholders (String.concat nl body) = Some 2%nat
    ∧ cell_image (H:=demo_externals) <$> cells_in_order table_with_sparkline
      = [None; Some image1; None; None; None; Some image2]
    ∧ _embed_images_to_mime (H:=demo_externals) (String.concat nl body) [image1; image2]
      = Ok (String.concat nl (shown_body (H:=demo_externals) table_with_sparkline None),
            [(image_id (H:=demo_externals) image1, image1);
             (image_id (H:=demo_externals) image2, image2)]).
Proof.
  destruct demo_composed_body
    as (body & image1 & image2 & w' & E & E1 & E0 & E2 & Hne & R1 & R2).
  destruct (composed_body_substitution (H:=demo_externals) table_with_sparkline None
              empty_world w' body [image1; image2]) as (Hp & Hi & _ & _ & He & _).
  - intros f. reflexivity.
  - unfold table_with_sparkline.
    intros heading t [<- <-]%lookup_singleton_Some. split; [reflexivity|].
    split; repeat constructor.
  - exact I.
  - exact E.
  - exists body, image1, image2, w'.
    refine (conj E (conj Hne (conj Hp (conj _ (He _))))).
    + change (cells_in_order table_with_sparkline)
        with [VAtom (AFloat 1.5); VList first_series; VAtom (AFloat 2.5);
              VList short_series; VAtom (AFloat 0.5); VList second_series].
      cbn [fmap list_fmap cell_image]. by rewrite E1, E0, E2.
    + repeat constructor; by eexists.
Defined.

(** * More properties of the code *)

(** ** Sparkline renderer: where the points are, in general *)

Section sparkline_more.
Context `{Externals}.

(** X4.  Whenever the plot range of a series is computed, the horizontal
    range is [1:len(data)] while every sample that is not [None] is plotted
    at its 0-based index: all points lie left of [xmax], a first sample that
    is not [None] lies at 0, left of [xmin], and a [None] sample gives an
    empty data line. *)
Theorem sparkline_points_zero_based (data : list (option atom)) (r : plot_range) :
  sparkline_range data = Ok r →
  xmin r = 1 ∧ xmax r = Z.of_nat (length data)
  ∧ (∀ i a, data !! i = Some (Some a) →
       data_points data !! i = Some (Some (i, a)) ∧ Z.of_nat i < xmax r)
  ∧ (∀ a, data !! 0%nat = Some (Some a) →
       data_points data !! 0%nat = Some (Some (0%nat, a)) ∧ Z.of_nat 0 < xmin r)
  ∧ (∀ i, data !! i = Some None → data_line <$> data_points data !! i = Some "").
Proof.
  intros Er. destruct (sparkline_range_horizontal data r Er) as [Hmin Hmax].
  split; [done|]. split; [done|]. split; [|split].
  - intros i a Hi. rewrite data_points_lookup, Hi. split; [done|].
    apply lookup_lt_Some in Hi. lia.
  - intros a Hi. rewrite data_points_lookup, Hi. split; [done|]. lia.
  - intros i Hi. by rewrite data_points_lookup, Hi.
Qed.

Lemma fold_max_string (l : list atom) (m0 : atom) :
  is_num m0 = false ∨ (∃ s, AStr s ∈ l) →
  is_num (fold_left (λ m v, if py_gt v m then v else m) l m0) = false.
Proof.
  revert m0. induction l as [|v l IH]; intros m0 [Hm|[s Hs]]; cbn [fold_left].
  - done.
  - by apply elem_of_nil in Hs.
  - apply IH. left. destruct (py_gt v m0) eqn:E; [|done].
    destruct m0, v; try done.
  - apply elem_of_cons in Hs as [<-|Hs]; [|apply IH; eauto].
    apply IH. left. destruct m0; cbn; try done. by destruct (String.ltb _ _).
Qed.

Lemma py_max_string (l : list atom) (s : string) :
  AStr s ∈ l → ∃ t, py_max l = Ok (AStr t).
Proof.
  destruct l as [|x l]; [by intros ?%elem_of_nil|]. intros Hs. cbn [py_max].
  assert (Hn : is_num (fold_left (λ m v, if py_gt v m then v else m) l x) = false).
  { apply fold_max_string. apply elem_of_cons in Hs as [<-|Hs]; [by left|eauto]. }
  destruct (fold_left _ l x) as [| |t]; try done. by exists t.
Qed.

(** X5.  When a series has at least three samples that are not [None] and
    one of them is a string (such as the '(None)' that [_query_bigquery] puts
    for a null), [_render_sparkline] raises TypeError: in Python 2 the string
    is the maximum, and a float times a string is a TypeError.  gnuplot is
    not started. *)
Theorem render_sparkline_string_sample (data : list (option atom)) (s : string) (w : world) :
  (3 ≤ length (existing_data data))%nat →
  AStr s ∈ existing_data data →
  _render_sparkline data w = (Raise TypeError, w).
Proof.
  intros Hlen Hs. unfold _render_sparkline.
  destruct (Nat.ltb_spec (length (existing_data data)) 3) as [Hlt|_]; [lia|].
  destruct (py_max_string _ _ Hs) as [t Et].
  unfold sparkline_range. rewrite Et. reflexivity.
Qed.

End sparkline_more.

Lemma M_bind_lift_ok {A B} (f : A → M B) (a : A) (w : world) :
  (lift (Ok a) ≫= f) w = f a w.
Proof. reflexivity. Qed.

Lemma M_bind_lift_raise {A B} (f : A → M B) (e : exn) (w : world) :
  (lift (Raise e) ≫= f) w = (Raise e, w).
Proof. reflexivity. Qed.

Lemma date_strftime_inv `{Externals} (date : Z) (stamp : string) :
  date_strftime date = Ok stamp → stamp = strftime date ∧ strftime_first ≤ date.
Proof.
  unfold date_strftime. destruct (Z.ltb_spec date strftime_first); [done|].
  by intros [= <-].
Qed.

Section embed_more.
Context `{Externals}.

Lemma embed_image_raises (images : list string) (e : exn) :
  mapM embed_image images = Raise e → e = TypeError.
Proof.
  induction images as [|image images IH]; cbn [mapM]; [done|].
  destruct (embed_image image) as [y|e0] eqn:Ey.
  - rewrite result_bind_ok. destruct (mapM embed_image images) as [k|e']; [done|].
    cbn. intros [= ->]. by apply IH.
  - cbn. intros [= <-]. unfold embed_image in Ey.
    destruct (imghdr_what image); [done|]. by injection Ey as <-.
Qed.

(** X10.  When the HTML holds [n] placeholders (and no other specifier)
    and the number of images is not [n], [_embed_images_to_mime] raises
    TypeError, whether images are missing or left over. *)
Theorem embed_images_count_mismatch (html : string) (images : list string) (n : nat) :
  placeholders html = Some n →
  length images ≠ n →
  _embed_images_to_mime html images = Raise TypeError.
Proof.
  intros Hp Hn. unfold _embed_images_to_mime, py_format.
  destruct images as [|image images].
  - rewrite (format_loop_placeholders html n [] Hp).
    by rewrite decide_False.
  - destruct (mapM embed_image (image :: images)) as [embedded|e] eqn:E.
    + rewrite result_bind_ok, (format_loop_placeholders html n _ Hp).
      rewrite decide_False; [done|].
      by rewrite length_fmap, (mapM_result_length _ _ _ E).
    + by rewrite (embed_image_raises _ _ E).
Qed.

End embed_more.

Section store_more.
Context `{Externals}.

Lemma save_daily_data_ok (data : list bqrow) (report yyyymmdd : string) (w w' : world) :
  _save_daily_data data report yyyymmdd w = (Ok (), w') →
  let filename := _get_data_filename report yyyymmdd in
  (dirname filename ∈ dirs w' ∧ (filename ∉ dirs w')
   ∧ files w' = <[filename := cPickle_dumps data]> (files w)
   ∧ spawned w' = spawned w ∧ outbox w' = outbox w).
Proof.
  unfold _save_daily_data. cbv zeta.
  set (filename := _get_data_filename report yyyymmdd).
  rewrite M_bind_unfold. unfold os_path_isdir at 1.
  destruct (bool_decide (dirname filename ∈ dirs w)) eqn:Hd; cbn [negb].
  - rewrite M_bind_unfold. cbn [mret M_ret]. unfold write_file.
    destruct (_ || _) eqn:Hc; intros [= <-]; cbn.
    apply orb_false_elim in Hc as [Hc Hc']. apply bool_decide_eq_false in Hc.
    apply bool_decide_eq_true in Hd. done.
  - rewrite M_bind_unfold. unfold os_makedirs.
    destruct (_ || _ || _); [done|].
    unfold write_file. cbn [dirs files].
    destruct (bool_decide (filename ∈ _) || _) eqn:Hc; intros [= <-]; cbn.
    apply orb_false_elim in Hc as [Hc Hc']. apply bool_decide_eq_false in Hc.
    apply negb_false_iff, bool_decide_eq_true in Hc'. done.
Qed.

Lemma save_daily_data_again (data : list bqrow) (report yyyymmdd : string) (w : world) :
  let filename := _get_data_filename report yyyymmdd in
  dirname filename ∈ dirs w → filename ∉ dirs w →
  _save_daily_data data report yyyymmdd w
  = (Ok (), {| files := <[filename := cPickle_dumps data]> (files w); dirs := dirs w;
               spawned := spawned w; outbox := outbox w |}).
Proof.
  intros filename Hd Hf. unfold _save_daily_data. cbv zeta. fold filename.
  rewrite M_bind_unfold. unfold os_path_isdir at 1.
  rewrite bool_decide_eq_true_2 by done. cbn [negb].
  rewrite M_bind_unfold. cbn [mret M_ret]. unfold write_file.
  rewrite bool_decide_eq_false_2 by done.
  rewrite bool_decide_eq_true_2 by done. reflexivity.
Qed.

(** X11.  After a save that succeeded, a second save under the same report
    and date succeeds as well, creates no directory, leaves every other file
    as it was, and replaces the snapshot: loading returns the records of the
    second save. *)
Theorem save_daily_data_clobbers (data1 data2 : list bqrow) (report yyyymmdd : string)
    (w w1 : world) :
  _save_daily_data data1 report yyyymmdd w = (Ok (), w1) →
  cPickle_loads (cPickle_dumps data2) = Ok data2 →
  ∃ w2, _save_daily_data data2 report yyyymmdd w1 = (Ok (), w2)
    ∧ _get_past_data report yyyymmdd w2 = (Ok (Some data2), w2)
    ∧ dirs w2 = dirs w1
    ∧ ∀ p, p ≠ _get_data_filename report yyyymmdd → files w2 !! p = files w1 !! p.
Proof.
  intros Hsave Hpickle.
  apply save_daily_data_ok in Hsave as (Hd & Hf & _).
  eexists. split; [by apply save_daily_data_again|].
  split; [|split; [done|]].
  - apply (get_past_data_present _ _ _ (cPickle_dumps data2)); [|done].
    cbn. apply lookup_insert_eq.
  - intros p Hp. cbn. by rewrite lookup_insert_ne.
Qed.

Lemma get_past_data_depends (report yyyymmdd : string) (w w' : world) :
  let filename := _get_data_filename report yyyymmdd in
  files w' !! filename = files w !! filename →
  (filename ∈ dirs w' ↔ filename ∈ dirs w) →
  (_get_past_data report yyyymmdd w').1 = (_get_past_data report yyyymmdd w).1.
Proof.
  intros filename Hf Hd. unfold _get_past_data. cbv zeta. fold filename.
  rewrite !M_bind_unfold. unfold os_path_exists. rewrite Hf.
  rewrite (bool_decide_ext _ _ Hd).
  destruct (_ || _); cbn [negb]; [|done].
  rewrite !M_bind_unfold. unfold read_file. rewrite Hf.
  destruct (files w !! filename) as [s|]; [|done].
  rewrite !M_bind_unfold. unfold lift. by destruct (cPickle_loads s).
Qed.

(** X12.  A save under one key (a report name without a slash and an
    eight-character date stamp), whether it succeeds or fails, does not
    change what loading any other such key returns. *)
Theorem save_daily_data_keeps_other_snapshots (data : list bqrow)
    (r1 d1 r2 d2 : string) (w w' : world) (res : result ()) :
  wf_key r1 d1 → wf_key r2 d2 → (r1, d1) ≠ (r2, d2) →
  _save_daily_data data r1 d1 w = (res, w') →
  (_get_past_data r2 d2 w').1 = (_get_past_data r2 d2 w).1.
Proof.
  intros Hk1 Hk2 Hne Hsave.
  assert (Hfn : _get_data_filename r1 d1 ≠ _get_data_filename r2 d2).
  { intros E. apply get_data_filename_inj in E as [-> ->]; done. }
  destruct Hk1 as (Hr1 & Hd1 & _), Hk2 as (Hr2 & Hd2 & _).
  apply save_daily_data_effect in Hsave as [Hdirs Hfiles]. cbv zeta in Hdirs, Hfiles.
  apply get_past_data_depends.
  - destruct res; [destruct Hfiles as [-> _]; by rewrite lookup_insert_ne|by rewrite Hfiles].
  - destruct Hdirs as [->| ->]; [done|].
    rewrite elem_of_union, elem_of_list_to_set. split; [|auto].
    intros [E|Hin]; [|done].
    by eapply get_data_filename_not_data_dir in E.
Qed.

End store_more.

Section history_more.
Context `{Externals} {K : Type} (key_eqb : K → K → bool).

Lemma get_past_data_world (report yyyymmdd : string) (w : world) :
  (_get_past_data report yyyymmdd w).2 = w.
Proof.
  unfold _get_past_data. cbv zeta. rewrite M_bind_unfold. unfold os_path_exists.
  destruct (_ || _); cbn [negb]; [|done].
  rewrite M_bind_unfold. unfold read_file.
  destruct (files w !! _) as [s|]; [|done].
  rewrite M_bind_unfold. unfold lift. by destruct (cPickle_loads s).
Qed.

Lemma day_index_world (report : string) (end_date : Z) (keyfn : bqrow → result K)
    (i : Z) (w : world) :
  (day_index key_eqb report end_date keyfn i w).2 = w.
Proof.
  unfold day_index. rewrite M_bind_unfold. unfold lift at 1.
  destruct (date_sub end_date i ≫= λ day, date_strftime day) as [old_yyyymmdd|e]; [|done].
  rewrite M_bind_unfold.
  pose proof (get_past_data_world report old_yyyymmdd w) as Hw.
  destruct (_get_past_data _ _ w) as [[old|e] w1]; cbn in Hw; subst w1; [|done].
  by destruct old as [[|r rest]|].
Qed.

Lemma mapM_M_world {A B} (f : A → M B) (l : list A) (w : world) :
  (∀ x w, (f x w).2 = w) → (mapM f l w).2 = w.
Proof.
  intros Hf. revert w. induction l as [|x l IH]; intros w; [done|].
  cbn [mapM]. rewrite M_bind_unfold.
  pose proof (Hf x w) as Hx. destruct (f x w) as [[y|e] w1]; cbn in Hx; subst w1; [|done].
  rewrite M_bind_unfold.
  pose proof (IH w) as Hl. destruct (mapM f l w) as [[k|e] w1]; cbn in Hl; subst w1; done.
Qed.

Lemma mapM_M_length {A B} (f : A → M B) (l : list A) (w w' : world) (k : list B) :
  mapM f l w = (Ok k, w') → length k = length l.
Proof.
  revert w w' k. induction l as [|x l IH]; intros w w' k; cbn [mapM].
  { by intros [= <- _]. }
  intros (y & w1 & Ey & (k' & w2 & Ek & [-> _]%mret_inv)%M_bind_inv_ok)%M_bind_inv_ok.
  cbn. f_equal. by eapply IH.
Qed.

Lemma process_past_data_frame (report : string) (end_date history_length : Z)
    (keyfn : bqrow → result K) (w : world) :
  ∃ res, _process_past_data key_eqb report end_date history_length keyfn w = (res, w)
    ∧ ∀ historical_data, res = Ok historical_data →
        length historical_data = Z.to_nat (history_length + 1).
Proof.
  unfold _process_past_data. rewrite M_bind_unfold. unfold lift at 1, xrange.
  destruct (_ || _); [by eexists|].
  rewrite M_bind_unfold.
  pose proof (mapM_M_world (day_index key_eqb report end_date keyfn)
                (upto (history_length + 1)) w
                (day_index_world report end_date keyfn)) as Hw.
  destruct (mapM (day_index key_eqb report end_date keyfn)
              (upto (history_length + 1)) w) as [[hist|e] w1] eqn:E; cbn in Hw; subst w1.
  - eexists. split; [reflexivity|]. intros ? [= <-].
    rewrite length_reverse, (mapM_M_length _ _ _ _ _ E). apply upto_length.
  - eexists. split; [reflexivity|]. done.
Qed.

(** X13.  [_process_past_data] only reads: whatever the store holds and
    whether or not it fails, it leaves the world (files, directories, started
    processes, mails) as it found it; and whenever it returns, it returns
    [history_length + 1] per-day indices. *)
Theorem process_past_data_reads_only (report : string) (end_date history_length : Z)
    (keyfn : bqrow → result K) (w : world) :
  (_process_past_data key_eqb report end_date history_length keyfn w).2 = w
  ∧ ∀ historical_data,
      (_process_past_data key_eqb report end_date history_length keyfn w).1
        = Ok historical_data →
      length historical_data = Z.to_nat (history_length + 1).
Proof.
  destruct (process_past_data_frame report end_date history_length keyfn w)
    as (res & E & Hlen).
  rewrite E. split; [done|]. exact Hlen.
Qed.

End history_more.

(** ** Table shaper: records that lack columns *)

Lemma listed_cons (r : row) (start : nat) (k : string) (order : list string) :
  listed r start (k :: order)
  = match r !! k with
    | Some v => (start, (k, v)) :: listed r (S start) order
    | None => listed r (S start) order
    end.
Proof. unfold listed. cbn. by destruct (r !! k). Qed.

Lemma elem_of_listed (r : row) (start : nat) (order : list string)
    (x : nat * (string * value)) :
  x ∈ listed r start order
  ↔ ∃ i k v, order !! i = Some k ∧ r !! k = Some v ∧ x = ((start + i)%nat, (k, v)).
Proof.
  revert start. induction order as [|k0 order IH]; intros start.
  { split; [by intros ?%elem_of_nil|]. by intros (i & k & v & Hi & _). }
  rewrite listed_cons. split.
  - destruct (r !! k0) as [v0|] eqn:E0.
    + intros [->|Hin]%elem_of_cons.
      * exists 0%nat, k0, v0. by rewrite Nat.add_0_r.
      * apply IH in Hin as (i & k & v & Hi & Hk & ->).
        exists (S i), k, v. repeat split; [done..|]. f_equal. lia.
    + intros Hin. apply IH in Hin as (i & k & v & Hi & Hk & ->).
      exists (S i), k, v. repeat split; [done..|]. f_equal. lia.
  - intros (i & k & v & Hi & Hk & ->). destruct i as [|i].
    + cbn in Hi. injection Hi as ->. rewrite Hk, Nat.add_0_r. by left.
    + cbn in Hi.
      assert (((start + S i)%nat, (k, v)) ∈ listed r (S start) order).
      { apply IH. exists i, k, v. repeat split; [done..|]. f_equal. lia. }
      destruct (r !! k0); [by right|done].
Qed.

Lemma listed_sorted (r : row) (start : nat) (order : list string) :
  StronglySorted sort_key_le (listed r start order).
Proof.
  revert start. induction order as [|k0 order IH]; intros start; [constructor|].
  rewrite listed_cons. destruct (r !! k0) as [v0|]; [|apply IH].
  constructor; [apply IH|]. apply Forall_forall.
  intros x (i & k & v & _ & _ & ->)%elem_of_listed.
  unfold sort_key_le. cbn. lia.
Qed.

Lemma listed_values (r : row) (start : nat) (order : list string) :
  (λ x : nat * (string * value), x.2.2) <$> listed r start order
  = omap (λ k, r !! k) order.
Proof.
  revert start. induction order as [|k0 order IH]; intros start; [done|].
  rewrite listed_cons. cbn [omap list_omap]. destruct (r !! k0) as [v0|]; cbn; by rewrite IH.
Qed.

Lemma listed_NoDup (r : row) (start : nat) (order : list string) :
  NoDup (listed r start order).
Proof.
  revert start. induction order as [|k0 order IH]; intros start; [constructor|].
  rewrite listed_cons. destruct (r !! k0) as [v0|]; [|apply IH].
  constructor; [|apply IH].
  intros (i & k & v & _ & _ & [= Hi _ _])%elem_of_listed. lia.
Qed.

Lemma listed_decorated (r : row) (order : list string) :
  NoDup order → (∀ k, is_Some (r !! k) → k ∈ order) →
  listed r 0 order ≡ₚ decorate order <$> map_to_list r.
Proof.
  intros Hnd Hknown. apply NoDup_Permutation.
  - apply listed_NoDup.
  - apply NoDup_fmap_2; [|apply NoDup_map_to_list].
    intros x y [= _ E]. done.
  - intros x. rewrite elem_of_listed, list_elem_of_fmap. split.
    + intros (i & k & v & Hi & Hk & ->). exists (k, v).
      split; [|by apply elem_of_map_to_list].
      unfold decorate, position. cbn. by rewrite (list_index_NoDup order i k).
    + intros ([k v] & -> & Hin). apply elem_of_map_to_list in Hin.
      destruct (list_index_present k order) as (i & Ei & Hi); [eauto|].
      exists i, k, v. unfold decorate, position. cbn. by rewrite Ei.
Qed.

(** A record whose fields are all named in [order]: its row holds the
    values of the names of [order] it has, in the order of [order]. *)
Lemma convert_row_listed (order : list string) (r : row) :
  NoDup order → (∀ k, is_Some (r !! k) → k ∈ order) →
  convert_row order r = Ok (omap (λ k, r !! k) order).
Proof.
  intros Hnd Hknown. rewrite convert_row_fields_known by done.
  f_equal. rewrite <- (listed_values r 0 order). f_equal.
  assert (Hperm : merge_sort sort_key_le (decorate order <$> map_to_list r)
                  ≡ₚ listed r 0 order).
  { rewrite merge_sort_Permutation. symmetry. by apply listed_decorated. }
  apply (StronglySorted_unique_strong sort_key_le); [| |apply listed_sorted|done].
  - intros x1 x2 Hx1 Hx2 Hle1 Hle2. rewrite Hperm in Hx1.
    apply elem_of_listed in Hx1 as (i1 & k1 & v1 & Hi1 & Hk1 & ->).
    apply elem_of_listed in Hx2 as (i2 & k2 & v2 & Hi2 & Hk2 & ->).
    unfold sort_key_le in Hle1, Hle2. cbn in Hle1, Hle2.
    assert (i1 = i2) as -> by lia. rewrite Hi1 in Hi2. injection Hi2 as ->.
    rewrite Hk1 in Hk2. by injection Hk2 as ->.
  - apply StronglySorted_merge_sort; apply _.
Qed.

(** X3.  When the column order names no column twice and every field of
    every record is named in it, [_convert_table_rows_to_lists] returns the
    header followed, for each record in turn, by the record's values for the
    columns it has, in column order; a column the record lacks is skipped,
    not padded. *)
Theorem convert_table_rows_listed_columns (table : list row) (order : list string) :
  NoDup order →
  (∀ r k, r ∈ table → is_Some (r !! k) → k ∈ order) →
  _convert_table_rows_to_lists table order
  = Ok (header_row order :: ((λ r : row, omap (λ k, r !! k) order) <$> table)).
Proof.
  intros Hnd Hknown. unfold _convert_table_rows_to_lists.
  rewrite (mapM_result_ok _ (λ r : row, omap (λ k, r !! k) order)); [done|].
  intros r Hr. apply convert_row_listed; [done|]. intros k. by apply Hknown.
Qed.

(** ** Mailer: what [_send_email] touches *)





Section mailer_more.
Context `{Externals}.









End mailer_more.

(** ** Reports: a total of zero *)

Lemma sum_field_first (k : string) (r : row) (rest : list row) (total t : value) :
  sum_field k (r :: rest) total = Ok t →
  ∃ x t1, r !! k = Some x ∧ v_add total x = Ok t1.
Proof.
  cbn [sum_field]. unfold getitem. destruct (r !! k) as [x|]; [|done]. cbn.
  destruct (v_add total x) as [t1|] eqn:E; [|done]. eauto.
Qed.

Lemma v_div_by_zero (x t1 : value) (t : float) :
  v_add (VAtom (AFloat 0)) x = Ok t1 → PrimFloat.eqb t 0 = true →
  v_div x (VAtom (AFloat t)) = Raise ZeroDivisionError.
Proof.
  intros Hadd Ht. destruct x as [[z|f|s]|l]; try done; cbn in Hadd |- *.
  - destruct (py_float z) as [fz|]; [|done]. cbn. unfold float_div. by rewrite Ht.
  - unfold float_div. by rewrite Ht.
Qed.

Section reports_more.
Context `{Externals}.

Lemma save_daily_data_frame (data : list bqrow) (report yyyymmdd : string)
    (w w' : world) (res : result ()) :
  _save_daily_data data report yyyymmdd w = (res, w') →
  spawned w' = spawned w ∧ outbox w' = outbox w.
Proof.
  unfold _save_daily_data. cbv zeta.
  rewrite M_bind_unfold. unfold os_path_isdir at 1.
  destruct (bool_decide _); cbn [negb].
  - rewrite M_bind_unfold. cbn [mret M_ret]. unfold write_file.
    by destruct (_ || _); intros [= <- <-].
  - rewrite M_bind_unfold. unfold os_makedirs.
    destruct (_ || _ || _); [by intros [= <- <-]|].
    unfold write_file. cbn [dirs files].
    by destruct (_ || _); intros [= <- <-].
Qed.

(** X15.  When the instance hours of the day's records add up to zero,
    [email_instance_hours] raises ZeroDivisionError (at the '% of total' of
    the first record): no mail is sent, but the day's snapshot has already
    been saved.  The day is one that [strftime] prints (from 1900 on). *)
Theorem instance_hours_zero_total (data : list bqrow) (date : Z) (w w1 : world)
    (t : float) :
  strftime_first ≤ date →
  data ≠ [] →
  sum_field "instance_hours" (as_rows data) (VAtom (AFloat 0)) = Ok (VAtom (AFloat t)) →
  PrimFloat.eqb t 0 = true →
  _save_daily_data data "instance_hours" (strftime date) w = (Ok (), w1) →
  (∃ historical_data,
     _process_past_data py_eq "instance_hours" date 14 (λ r, getitem r "url_route") w1
     = (Ok historical_data, w1)) →
  email_instance_hours data date w = (Raise ZeroDivisionError, w1)
  ∧ outbox w1 = outbox w
  ∧ files w1 !! _get_data_filename "instance_hours" (strftime date)
    = Some (cPickle_dumps data).
Proof.
  intros Hdate Hdata Hsum Ht Hsave [hist Hhist].
  split; [|split].
  - unfold email_instance_hours, instance_hours_content.
    apply M_bind_raise with (w' := w1).
    rewrite (date_strftime_from_1900 _ Hdate), M_bind_lift_ok.
    apply M_bind_raise with (w' := w1).
    unfold instance_hours_table.
    rewrite (date_strftime_from_1900 _ Hdate), M_bind_lift_ok.
    rewrite (M_bind_ok _ _ _ _ _ Hsave), (M_bind_ok _ _ _ _ _ Hhist).
    unfold lift. rewrite Hsum, result_bind_ok.
    destruct data as [|r rest]; [done|].
    change (as_rows (r :: rest)) with ((VAtom <$> r) :: as_rows rest) in Hsum |- *.
    destruct (sum_field_first _ _ _ _ _ Hsum) as (x & t1 & Hx & Hadd).
    assert (Hrow : instance_hours_row (VAtom (AFloat t)) hist (VAtom <$> r)
                   = Raise ZeroDivisionError).
    { unfold instance_hours_row, getitem. rewrite Hx, result_bind_ok.
      by rewrite (v_div_by_zero x t1 t Hadd Ht). }
    cbn [mapM]. by rewrite Hrow.
  - by apply save_daily_data_frame in Hsave as [_ ?].
  - apply save_daily_data_ok in Hsave as (_ & _ & -> & _). apply lookup_insert_eq.
Qed.

End reports_more.

(** ** Reports: the series of every row *)

Lemma mapM_result_Forall {A B} (f : A → result B) (Q : B → Prop) (l : list A) (k : list B) :
  (∀ x y, x ∈ l → f x = Ok y → Q y) → mapM f l = Ok k → Forall Q k.
Proof.
  revert k. induction l as [|x l IH]; intros k Hf; cbn [mapM].
  { intros [= <-]. constructor. }
  destruct (f x) as [y|] eqn:E; [|done]. cbn.
  destruct (mapM f l) as [k'|]; [|done]. cbn. intros [= <-].
  constructor; [apply (Hf x); [by left|done]|].
  apply IH; [|done]. intros z y' Hz. apply Hf. by right.
Qed.

Lemma convert_row_values (order : list string) (r : row) (cells : list value)
    (k : string) (v : value) :
  convert_row order r = Ok cells → r !! k = Some v → v ∈ cells.
Proof.
  unfold convert_row. intros (decorated & Ed & [= <-])%result_bind_inv_ok Hk.
  apply elem_of_map_to_list in Hk.
  apply list_elem_of_lookup_1 in Hk as [j Hj].
  destruct (mapM_result_lookup _ _ _ j (k, v) Ed Hj) as (y & Hy & Ey).
  cbn in Ey. apply result_bind_inv_ok in Ey as (i & _ & [= <-]).
  apply list_elem_of_fmap. exists (i, (k, v)). split; [done|].
  rewrite merge_sort_Permutation. by eapply list_elem_of_lookup_2.
Qed.

Lemma convert_rows_series (rows : list row) (order : list string) (t : table)
    (key : string) (n : nat) :
  _convert_table_rows_to_lists rows order = Ok t →
  Forall (λ r : row, ∃ l, r !! key = Some (VList l) ∧ length l = n) rows →
  Forall (has_series n) (tail t).
Proof.
  unfold _convert_table_rows_to_lists.
  intros (body & E & [= <-])%result_bind_inv_ok Hrows. cbn [tail].
  apply Forall_lookup. intros i cells Hi.
  assert (Hlt : (i < length rows)%nat).
  { rewrite <- (mapM_result_length _ _ _ E). by eapply lookup_lt_Some. }
  apply lookup_lt_is_Some in Hlt as [r Hr].
  destruct (mapM_result_lookup _ _ _ i r E Hr) as (cells' & Hc & Ec).
  rewrite Hi in Hc. injection Hc as <-.
  rewrite Forall_lookup in Hrows. destruct (Hrows i r Hr) as (l & Hl & Hlen).
  exists l. split; [|done]. by eapply convert_row_values.
Qed.

Ltac invert_binds E :=
  repeat (let x := fresh "x" in let Ex := fresh "Ex" in
          apply result_bind_inv_ok in E as (x & Ex & E)).

Section series.
Context `{Externals}.

Lemma instance_hours_row_series (total : value)
    (historical_data : list (list (atom * bqrow))) (row0 row' : row) :
  instance_hours_row total historical_data row0 = Ok row' →
  ∃ l, row' !! "last 2 weeks (per request)" = Some (VList l)
    ∧ length l = length historical_data.
Proof.
  unfold instance_hours_row. intros E. invert_binds E. injection E as <-.
  eexists. split; [apply lookup_insert_eq|]. by eapply mapM_result_length.
Qed.

Lemma rpcs_row_series (historical_data : list (list (atom * bqrow))) (row0 row' : row) :
  rpcs_row historical_data row0 = Ok row' →
  ∃ l, row' !! ("last 2 weeks (" +:+ micropennies +:+ "/req)") = Some (VList l)
    ∧ length l = length historical_data.
Proof.
  unfold rpcs_row. intros E. invert_binds E. injection E as <-.
  eexists. split; [|by eapply mapM_result_length].
  rewrite lookup_delete_ne by done. apply lookup_insert_eq.
Qed.

Lemma oom_by_module_row_series (historical_data : list (list (atom * bqrow)))
    (row0 row' : row) :
  oom_by_module_row historical_data row0 = Ok row' →
  ∃ l, row' !! "last 2 weeks" = Some (VList l) ∧ length l = length historical_data.
Proof.
  unfold oom_by_module_row. intros E. invert_binds E. injection E as <-.
  eexists. split; [apply lookup_insert_eq|]. by eapply mapM_result_length.
Qed.

Lemma oom_by_route_row_series (historical_data : list (list (atom * atom * bqrow)))
    (row0 row' : row) :
  oom_by_route_row historical_data row0 = Ok row' →
  ∃ l, row' !! "last 2 weeks" = Some (VList l) ∧ length l = length historical_data.
Proof.
  unfold oom_by_route_row. intros E. invert_binds E. injection E as <-.
  eexists. split; [apply lookup_insert_eq|]. by eapply mapM_result_length.
Qed.

Lemma process_past_data_fifteen {K} (key_eqb : K → K → bool) (report : string)
    (date : Z) (keyfn : bqrow → result K) (w w' : world) (hist : list (list (K * bqrow))) :
  _process_past_data key_eqb report date 14 keyfn w = (Ok hist, w') →
  length hist = 15%nat ∧ w' = w.
Proof.
  intros E. destruct (process_past_data_frame key_eqb report date 14 keyfn w)
    as (res & E' & Hlen).
  rewrite E in E'. injection E' as Hres Hw. split; [|done]. by rewrite (Hlen hist).
Qed.

(** X18.  In the tables of the instance-hours, RPC and both out-of-memory
    reports, every data row holds a sparkline series of exactly 15 samples:
    the 14 days before the report's day and the day itself. *)
Theorem report_series_span_fifteen_days (data : list bqrow) (date : Z) (w w' : world)
    (t : table) :
  instance_hours_table data date w = (Ok t, w')
  ∨ rpcs_table data date w = (Ok t, w')
  ∨ oom_by_module_table data date w = (Ok t, w')
  ∨ oom_by_route_table data date w = (Ok t, w') →
  Forall (has_series 15) (tail t).
Proof.
  intros [E|[E|[E|E]]].
  - unfold instance_hours_table in E.
    apply M_bind_inv_ok in E as (yyyymmdd & w0 & _ & E).
    apply M_bind_inv_ok in E as (_ & w1 & _ & E).
    apply M_bind_inv_ok in E as (hist & w2 & [Hlen _]%process_past_data_fifteen & E).
    apply lift_inv in E as [E _].
    apply result_bind_inv_ok in E as (total & _ & E).
    apply result_bind_inv_ok in E as (rows & Erows & E).
    eapply convert_rows_series; [exact E|].
    eapply mapM_result_Forall; [|done]. intros r r' _ Hr.
    rewrite <- Hlen. by eapply instance_hours_row_series.
  - unfold rpcs_table in E.
    apply M_bind_inv_ok in E as (yyyymmdd & w0 & _ & E).
    apply M_bind_inv_ok in E as (_ & w1 & _ & E).
    apply M_bind_inv_ok in E as (hist & w2 & [Hlen _]%process_past_data_fifteen & E).
    apply lift_inv in E as [E _].
    apply result_bind_inv_ok in E as (rows & Erows & E).
    eapply convert_rows_series; [exact E|].
    eapply mapM_result_Forall; [|done]. intros r r' _ Hr.
    rewrite <- Hlen. by eapply rpcs_row_series.
  - unfold oom_by_module_table in E.
    apply M_bind_inv_ok in E as (yyyymmdd & w0 & _ & E).
    apply M_bind_inv_ok in E as (_ & w1 & _ & E).
    apply M_bind_inv_ok in E as (hist & w2 & [Hlen _]%process_past_data_fifteen & E).
    apply lift_inv in E as [E _].
    apply result_bind_inv_ok in E as (rows & Erows & E).
    eapply convert_rows_series; [exact E|].
    eapply mapM_result_Forall; [|done]. intros r r' _ Hr.
    rewrite <- Hlen. by eapply oom_by_module_row_series.
  - unfold oom_by_route_table in E.
    apply M_bind_inv_ok in E as (yyyymmdd & w0 & _ & E).
    apply M_bind_inv_ok in E as (_ & w1 & _ & E).
    apply M_bind_inv_ok in E as (hist & w2 & [Hlen _]%process_past_data_fifteen & E).
    apply lift_inv in E as [E _].
    apply result_bind_inv_ok in E as (rows & Erows & E).
    eapply convert_rows_series; [exact E|].
    eapply mapM_result_Forall; [|done]. intros r r' _ Hr.
    rewrite <- Hlen. by eapply oom_by_route_row_series.
Qed.

End series.

(** ** Reports: the day's own sample *)

Lemma filter_none {A} (P : A → Prop) `{∀ x, Decision (P x)} (l : list A) :
  Forall (λ x, ¬ P x) l → filter P l = [].
Proof.
  induction 1 as [|x l Hx _ IH]; [done|]. by rewrite filter_cons_False.
Qed.

Lemma last_filter_lookup {A} (P : A → Prop) `{∀ x, Decision (P x)} (l : list A)
    (i : nat) (x : A) :
  l !! i = Some x → P x →
  (∀ j y, l !! j = Some y → (i < j)%nat → ¬ P y) →
  last (filter P l) = Some x.
Proof.
  intros Hi Hx Hlater.
  rewrite <- (take_drop_middle l i x Hi), filter_app, filter_cons_True by done.
  assert (filter P (drop (S i) l) = []) as ->.
  { apply filter_none, Forall_forall. intros y Hy.
    apply list_elem_of_lookup_1 in Hy as [j Hj]. rewrite lookup_drop in Hj.
    apply (Hlater _ _ Hj). lia. }
  apply last_snoc.
Qed.

Lemma mapM_M_head {A B} (f : A → M B) (x : A) (l : list A) (w w' : world) (k : list B) :
  mapM f (x :: l) w = (Ok k, w') →
  ∃ y w1 k', f x w = (Ok y, w1) ∧ mapM f l w1 = (Ok k', w') ∧ k = y :: k'.
Proof.
  cbn [mapM].
  intros (y & w1 & Ey & (k' & w2 & Ek & [-> ->]%mret_inv)%M_bind_inv_ok)%M_bind_inv_ok.
  by exists y, w1, k'.
Qed.

Section today.
Context `{Externals}.

Lemma day_stamp_inv (end_date i : Z) (stamp : string) :
  (day ← date_sub end_date i; date_strftime day) = Ok stamp →
  stamp = strftime (end_date - i).
Proof.
  unfold date_sub, date_strftime. destruct (_ && _); [|done]. cbn.
  destruct (_ <? _); [done|]. by intros [= <-].
Qed.

Lemma process_past_data_today {K} (key_eqb : K → K → bool) (report : string)
    (date : Z) (keyfn : bqrow → result K) (w w' : world)
    (hist : list (list (K * bqrow))) :
  _process_past_data key_eqb report date 14 keyfn w = (Ok hist, w') →
  ∃ idx, hist !! 14%nat = Some idx
    ∧ day_index key_eqb report date keyfn 0 w = (Ok idx, w).
Proof.
  unfold _process_past_data.
  change (xrange (14 + 1)) with (Ok (upto 15)). rewrite M_bind_lift_ok.
  intros (days & w1 & Edays & [-> _]%mret_inv)%M_bind_inv_ok.
  assert (Hlen : length days = 15%nat).
  { by rewrite (mapM_M_length _ _ _ _ _ Edays), upto_length. }
  change (upto 15) with (0 :: (Z.of_nat <$> seq 1 14)) in Edays.
  apply mapM_M_head in Edays as (idx & w2 & days' & E0 & _ & ->).
  exists idx. split.
  - rewrite reverse_lookup by (rewrite Hlen; lia). rewrite Hlen. done.
  - pose proof (day_index_world key_eqb report date keyfn 0 w) as Hw.
    rewrite E0 in Hw. cbn in Hw. by subst w2.
Qed.

Lemma day_index_saved {K} (key_eqb : K → K → bool) (report : string) (date : Z)
    (keyfn : bqrow → result K) (data : list bqrow) (w w' : world) (idx : list (K * bqrow)) :
  _get_past_data report (strftime date) w = (Ok (Some data), w) →
  data ≠ [] →
  day_index key_eqb report date keyfn 0 w = (Ok idx, w') →
  build_index key_eqb keyfn data [] = Ok idx.
Proof.
  intros Hload Hdata. unfold day_index.
  intros (stamp & w1 & [Es ->]%lift_inv & E)%M_bind_inv_ok.
  apply day_stamp_inv in Es. rewrite Z.sub_0_r in Es. subst stamp.
  rewrite (M_bind_ok _ _ _ _ _ Hload) in E.
  destruct data as [|r rest]; [done|]. by apply lift_inv in E as [? _].
Qed.

Lemma instance_hours_row_samples (total : value)
    (historical_data : list (list (atom * bqrow))) (row0 row' : row) (route : atom) :
  row0 !! "url_route" = Some (VAtom route) →
  instance_hours_row total historical_data row0 = Ok row' →
  ∃ l, row' !! "last 2 weeks (per request)" = Some (VList l)
    ∧ mapM (instance_hours_sample route) historical_data = Ok l.
Proof.
  intros Hroute. unfold instance_hours_row. intros E.
  apply result_bind_inv_ok in E as (x & _ & E).
  apply result_bind_inv_ok in E as (q & _ & E).
  apply result_bind_inv_ok in E as (pct & _ & E).
  apply result_bind_inv_ok in E as (x' & _ & E).
  apply result_bind_inv_ok in E as (c & _ & E).
  apply result_bind_inv_ok in E as (q' & _ & E).
  apply result_bind_inv_ok in E as (per1k & _ & E).
  apply result_bind_inv_ok in E as (l & El & [= <-]).
  exists l. split; [apply lookup_insert_eq|].
  rewrite <- El. unfold getitem.
  rewrite !lookup_insert_ne, Hroute by done. reflexivity.
Qed.

(** X17.  [email_instance_hours] saves the day's records before it reads
    the history, so the snapshot of the day itself is part of the history:
    for a record whose route no later record of the day has, the last of the
    15 samples of its row is the record's own instance hours per request. *)
Theorem instance_hours_series_ends_today (data : list bqrow) (date : Z) (w w' : world)
    (t : table) (i : nat) (r : bqrow) (route : string) (x c : atom) :
  cPickle_loads (cPickle_dumps data) = Ok data →
  instance_hours_table data date w = (Ok t, w') →
  data !! i = Some r →
  r !! "url_route" = Some (AStr route) →
  r !! "instance_hours" = Some x →
  r !! "count_" = Some c →
  (∀ j r', data !! j = Some r' → (i < j)%nat → r' !! "url_route" ≠ Some (AStr route)) →
  ∃ cells l q,
    t !! S i = Some cells
    ∧ VList l ∈ cells
    ∧ length l = 15%nat
    ∧ l !! 14%nat = Some (Some q)
    ∧ py_div x c = Ok q.
Proof.
  intros Hpickle Et Hi Hroute Hx Hc Hlater.
  unfold instance_hours_table in Et.
  apply M_bind_inv_ok in Et as (yyyymmdd & w0 & [[-> _]%date_strftime_inv ->]%lift_inv & Et).
  apply M_bind_inv_ok in Et as ([] & w1 & Hsave & Et).
  apply M_bind_inv_ok in Et as (hist & w2 & Ehist & Et).
  apply lift_inv in Et as [Et _].
  apply result_bind_inv_ok in Et as (total & _ & Et).
  apply result_bind_inv_ok in Et as (rows & Erows & Et).
  unfold _convert_table_rows_to_lists in Et.
  apply result_bind_inv_ok in Et as (body & Ebody & [= <-]).
  (* the index of the day itself *)
  destruct (process_past_data_fifteen _ _ _ _ _ _ _ Ehist) as [Hlen _].
  destruct (process_past_data_today _ _ _ _ _ _ _ Ehist) as (idx & Hidx & Eidx).
  apply (day_index_saved py_eq _ _ _ data) in Eidx;
    [|by eapply load_after_save|by intros ->].
  (* the row *)
  assert (Hri : as_rows data !! i = Some (VAtom <$> r)).
  { unfold as_rows. by rewrite list_lookup_fmap, Hi. }
  destruct (mapM_result_lookup _ _ _ i _ Erows Hri) as (row' & Hrow' & Erow).
  destruct (mapM_result_lookup _ _ _ i _ Ebody Hrow') as (cells & Hcells & Ecells).
  apply (instance_hours_row_samples _ _ _ _ (AStr route)) in Erow as (l & Hl & El);
    [|by rewrite lookup_fmap, Hroute].
  destruct (mapM_result_lookup _ _ _ 14%nat _ El Hidx) as (s & Hs & Es).
  exists cells, l. 
  assert (Hget : dict_get py_eq (AStr route) idx = Some r).
  { rewrite (build_index_lookup py_eq _ _ _ _ (AStr route) py_eq_sym py_eq_trans Eidx).
    rewrite (last_filter_lookup _ data i r); [done|done| |].
    - unfold keyed, getitem. rewrite Hroute. cbn. apply String.eqb_refl.
    - intros j r' Hj Hlt. unfold keyed, getitem.
      destruct (r' !! "url_route") as [[z|f|s']|] eqn:Er'; cbn; try done.
      intros ->%String.eqb_eq. by apply (Hlater j r' Hj Hlt). }
  unfold instance_hours_sample in Es. rewrite Hget in Es.
  rewrite (dict_truthy_lookup r "count_") in Es by eauto.
  unfold getitem in Es. rewrite Hx, Hc in Es. cbn in Es.
  destruct (py_div x c) as [q|] eqn:Eq; [|done]. injection Es as <-.
  exists q. split; [done|]. split; [by eapply convert_row_values|].
  split; [|done]. by rewrite (mapM_result_length _ _ _ El).
Qed.

End today.

Lemma mapM_result_raises {A B} (f : A → result B) (l : list A) :
  (∃ e, mapM f l = Raise e) ↔ ∃ x e, x ∈ l ∧ f x = Raise e.
Proof.
  induction l as [|x l IH]; cbn [mapM].
  { split; [by intros [e ?]|]. by intros (x & e & ?%elem_of_nil & _). }
  destruct (f x) as [y|e] eqn:E; cbn.
  - destruct (mapM f l) as [k|e']; cbn.
    + split; [by intros [e ?]|]. intros (x' & e & [->|Hin]%elem_of_cons & Hx'); [congruence|].
      destruct (proj2 IH) as [e' ?]; [eauto|done].
    + split; [|by eauto]. intros _.
      destruct (proj1 IH) as (x' & e'' & Hin & Hx'); [eauto|].
      exists x', e''. split; [by right|done].
  - split; [|by eauto]. intros _. exists x, e. split; [by left|done].
Qed.

(** ** [_is_number] *)

Lemma drop_while_nil {A} (p : A → bool) (l : list A) :
  drop_while p l = [] ↔ forallb p l = true.
Proof.
  induction l as [|x l IH]; cbn; [done|].
  destruct (p x); cbn; [done|]. split; done.
Qed.

Lemma forallb_drop_while {A} (p : A → bool) (l : list A) :
  forallb p l = false → forallb p (drop_while p l) = false.
Proof.
  induction l as [|x l IH]; cbn; [done|].
  destruct (p x) eqn:E; cbn; [done|]. by rewrite E.
Qed.

Lemma forallb_reverse {A} (p : A → bool) (l : list A) :
  forallb p (reverse l) = forallb p l.
Proof.
  induction l as [|x l IH]; [done|].
  rewrite reverse_cons, forallb_app, IH. cbn. rewrite andb_true_r. apply andb_comm.
Qed.

Lemma py_strip_empty (cs s : string) :
  String.eqb (py_strip cs s) "" = forallb (λ c, in_chars c cs) (chars s).
Proof.
  unfold py_strip. cbv zeta. set (p := λ c, in_chars c cs).
  destruct (forallb p (chars s)) eqn:E.
  - apply drop_while_nil in E. rewrite E. reflexivity.
  - apply forallb_drop_while in E. rewrite <- forallb_reverse in E.
    apply forallb_drop_while in E. rewrite <- forallb_reverse in E.
    destruct (reverse (drop_while p (reverse (drop_while p (chars s))))); done.
Qed.

(** X1.  [_is_number] accepts every int and float, rejects what is
    neither a number nor a string, and accepts a string exactly when each of
    its characters is a digit, a dot or a minus sign: the empty string and
    "-" count as numbers, "1e5" does not. *)
Theorem is_number_spec :
  (∀ z, _is_number (Some (VAtom (AInt z))) = true)
  ∧ (∀ f, _is_number (Some (VAtom (AFloat f))) = true)
  ∧ (∀ s, _is_number (Some (VAtom (AStr s)))
          = forallb (λ c, in_chars c "0123456789.-") (chars s))
  ∧ (∀ l, _is_number (Some (VList l)) = false)
  ∧ _is_number None = false
  ∧ _is_number (Some (VAtom (AStr ""))) = true
  ∧ _is_number (Some (VAtom (AStr "-"))) = true
  ∧ _is_number (Some (VAtom (AStr "1e5"))) = false.
Proof.
  repeat split; try done.
  intros s. cbn [_is_number]. rewrite py_strip_empty.
  induction (chars s) as [|c l IH]; [done|]. cbn [forallb]. rewrite IH. f_equal.
  unfold in_chars. cbn. by repeat destruct (Ascii.eqb c _).
Qed.

(** ** [_query_bigquery]: the naive type conversion *)

Lemma int_of_float_truncates (f : float) (q : Q) :
  exact_float f = XFin q → int_of_float f = Ok (Z.quot (Qnum q) (Z.pos (Qden q))).
Proof.
  unfold exact_float, int_of_float.
  destruct (Prim2SF f) as [s|s| |s m e]; try done.
  - intros [= <-]. reflexivity.
  - intros [= <-]. f_equal.
    destruct (Z.leb_spec 0 e) as [He|He].
    + cbn [inject_Z Qnum Qden]. rewrite Z.quot_1_r.
      destruct s; [|done]. change (Z.neg m) with (- Z.pos m). lia.
    + cbn [Qnum Qden]. rewrite Pos2Z.inj_pow.
      rewrite Z2Pos.id by lia.
      assert (Hpow : 0 < 2 ^ (- e)) by (apply Z.pow_pos_nonneg; lia).
      destruct s.
      * change (Z.neg m) with (- Z.pos m). rewrite Z.quot_opp_l by lia.
        rewrite Z.quot_div_nonneg by lia. done.
      * rewrite Z.quot_div_nonneg by lia. done.
Qed.

Section query_facts.
Variables (int_of_str : string → option Z) (float_of_str : string → option float).

Lemma convert_cell_raises (v : json) (e : exn) :
  convert_cell int_of_str float_of_str v = Raise e →
  (v = JContainer ∧ e = TypeError)
  ∨ (∃ f s, v = JFloat f ∧ Prim2SF f = S754_infinity s ∧ e = OverflowError).
Proof.
  destruct v as [|b|z|f|s|]; cbn; try done.
  - unfold int_of_float. destruct (Prim2SF f) as [s|s| |s m ex] eqn:Ef; try done.
    intros [= <-]. right. by exists f, s.
  - by destruct (int_of_str s), (float_of_str s).
  - intros [= <-]. by left.
Qed.

(** X6.  The type conversion of [_query_bigquery] tries [int] first: a JSON
    boolean becomes 1 or 0, a finite JSON float is truncated towards zero
    (1.5 becomes 1, -2.75 becomes -2), only a NaN stays a float, and a string
    that [int] accepts becomes that int. *)
Theorem naive_conversion_int_first :
  (∀ b, convert_cell int_of_str float_of_str (JBool b) = Ok (AInt (if b then 1 else 0)))
  ∧ (∀ f q, exact_float f = XFin q →
       convert_cell int_of_str float_of_str (JFloat f)
       = Ok (AInt (Z.quot (Qnum q) (Z.pos (Qden q)))))
  ∧ (∀ f, exact_float f = XNaN →
       convert_cell int_of_str float_of_str (JFloat f) = Ok (AFloat f))
  ∧ (∀ s z, int_of_str s = Some z →
       convert_cell int_of_str float_of_str (JStr s) = Ok (AInt z))
  ∧ convert_cell int_of_str float_of_str (JFloat 1.5) = Ok (AInt 1)
  ∧ convert_cell int_of_str float_of_str (JFloat (-2.75)) = Ok (AInt (-2)).
Proof.
  split; [done|]. split; [|split; [|split; [|done]]].
  - intros f q Hq. cbn. by rewrite (int_of_float_truncates f q Hq).
  - intros f. unfold exact_float. cbn. unfold int_of_float.
    by destruct (Prim2SF f) as [s|s| |s m e].
  - intros s z Hz. cbn. by rewrite Hz.
Qed.

Lemma convert_json_row_shape (r : list (string * json)) (r' : list (string * atom)) :
  convert_json_row int_of_str float_of_str r = Ok r' →
  r'.*1 = r.*1
  ∧ ∀ j k v, r !! j = Some (k, v) →
      ∃ a, r' !! j = Some (k, a) ∧ convert_cell int_of_str float_of_str v = Ok a.
Proof.
  unfold convert_json_row. intros E. split.
  - apply list_eq. intros j. rewrite !list_lookup_fmap.
    destruct (r !! j) as [[k v]|] eqn:Hj.
    + destruct (mapM_result_lookup _ _ _ j _ E Hj) as (y & Hy & Ey).
      cbn in Ey. apply result_bind_inv_ok in Ey as (a & _ & [= <-]).
      by rewrite Hy.
    + apply lookup_ge_None in Hj. rewrite <- (mapM_result_length _ _ _ E) in Hj.
      apply lookup_ge_None in Hj. by rewrite Hj.
  - intros j k v Hj.
    destruct (mapM_result_lookup _ _ _ j _ E Hj) as (y & Hy & Ey).
    cbn in Ey. apply result_bind_inv_ok in Ey as (a & Ea & [= <-]). eauto.
Qed.

(** X7.  When the type conversion of [_query_bigquery] succeeds, the table
    has as many rows as before, every row has the same field names in the
    same order, every null has become the string '(None)', and a string
    that neither [int] nor [float] accepts is kept as it is. *)
Theorem naive_conversion_keeps_shape (table : list (list (string * json)))
    (out : list (list (string * atom))) :
  convert_json_table int_of_str float_of_str table = Ok out →
  length out = length table
  ∧ ∀ i r, table !! i = Some r →
      ∃ r', out !! i = Some r'
        ∧ r'.*1 = r.*1
        ∧ (∀ j k, r !! j = Some (k, JNull) → r' !! j = Some (k, AStr "(None)"))
        ∧ (∀ j k s, r !! j = Some (k, JStr s) →
             int_of_str s = None → float_of_str s = None → r' !! j = Some (k, AStr s)).
Proof.
  unfold convert_json_table. intros E. split; [by eapply mapM_result_length|].
  intros i r Hi. destruct (mapM_result_lookup _ _ _ i r E Hi) as (r' & Hr' & Er).
  exists r'. split; [done|].
  destruct (convert_json_row_shape r r' Er) as [Hkeys Hcells].
  split; [done|]. split.
  - intros j k Hj. destruct (Hcells j k JNull Hj) as (a & Ha & [= <-]). done.
  - intros j k s Hj Hint Hfloat. destruct (Hcells j k (JStr s) Hj) as (a & Ha & Ea).
    cbn in Ea. rewrite Hint, Hfloat in Ea. by injection Ea as <-.
Qed.

(** X8.  The type conversion of [_query_bigquery] raises exactly when some
    cell is a JSON array or object (TypeError from [int]) or an infinite
    float (OverflowError from [int]); only ValueError is caught. *)
Theorem naive_conversion_failures (table : list (list (string * json))) :
  (∃ e, convert_json_table int_of_str float_of_str table = Raise e)
  ↔ ∃ r k v, r ∈ table ∧ (k, v) ∈ r
      ∧ (v = JContainer ∨ ∃ f s, v = JFloat f ∧ Prim2SF f = S754_infinity s).
Proof.
  unfold convert_json_table, convert_json_row.
  rewrite mapM_result_raises. split.
  - intros (r & e & Hr & Er).
    assert (∃ e', mapM (λ kv : string * json,
                          v ← convert_cell int_of_str float_of_str kv.2; Ok (kv.1, v)) r
                  = Raise e') as Hex by eauto.
    apply mapM_result_raises in Hex as ([k v] & e' & Hkv & Ekv).
    exists r, k, v. split; [done|]. split; [done|]. cbn in Ekv.
    destruct (convert_cell int_of_str float_of_str v) as [a|e''] eqn:Ev; [done|].
    apply convert_cell_raises in Ev as [[-> _]|(f & s' & -> & Hf & _)]; [by left|].
    right. by exists f, s'.
  - intros (r & k & v & Hr & Hkv & Hv).
    assert (∃ e, mapM (λ kv : string * json,
                         v ← convert_cell int_of_str float_of_str kv.2; Ok (kv.1, v)) r
                 = Raise e) as [e He]; [|by exists r, e].
    apply mapM_result_raises. exists (k, v). cbn.
    destruct Hv as [->|(f & s' & -> & Hf)]; cbn.
    + by exists TypeError.
    + exists OverflowError. split; [done|]. unfold int_of_float. by rewrite Hf.
Qed.

End query_facts.

(** ** Memory increases: the groups *)

Lemma group_append_keys (h0 : string) (r : bqrow) (g : list (string * list bqrow)) :
  (group_append h0 r g).*1 = if decide (h0 ∈ g.*1) then g.*1 else g.*1 ++ [h0].
Proof.
  induction g as [|[h rows] g IH]; cbn.
  { rewrite decide_False; [done|]. by intros ?%elem_of_nil. }
  destruct (String.eqb_spec h h0) as [->|Hne]; cbn.
  - rewrite decide_True; [done|]. by left.
  - rewrite IH. destruct (decide (h0 ∈ g.*1)) as [Hin|Hout].
    + rewrite decide_True; [done|]. by right.
    + rewrite decide_False; [done|]. intros [?|?]%elem_of_cons; done.
Qed.

Lemma group_append_NoDup (h0 : string) (r : bqrow) (g : list (string * list bqrow)) :
  NoDup g.*1 → NoDup (group_append h0 r g).*1.
Proof.
  intros Hnd. rewrite group_append_keys. destruct (decide _) as [Hin|Hout]; [done|].
  apply NoDup_app. split; [done|]. split; [|apply NoDup_singleton].
  intros x Hx ->%list_elem_of_singleton. done.
Qed.

Lemma group_append_elem_of (h0 : string) (r : bqrow) (g : list (string * list bqrow))
    (h : string) (rows : list bqrow) :
  NoDup g.*1 →
  (h, rows) ∈ group_append h0 r g
  ↔ (h ≠ h0 ∧ (h, rows) ∈ g)
    ∨ (h = h0 ∧ ((∃ rows0, (h0, rows0) ∈ g ∧ rows = rows0 ++ [r])
                 ∨ ((h0 ∉ g.*1) ∧ rows = [r]))).
Proof.
  induction g as [|[h' rows'] g IH]; intros Hnd; cbn.
  { rewrite list_elem_of_singleton. split.
    - intros [= -> ->]. right. split; [done|]. right. split; [|done]. by intros ?%elem_of_nil.
    - intros [[_ ?%elem_of_nil]|[-> [(rows0 & ?%elem_of_nil & _)|[_ ->]]]]; done. }
  apply NoDup_cons in Hnd as [Hnotin Hnd]. specialize (IH Hnd).
  assert (Hfst : ∀ rows0, (h', rows0) ∈ g → False).
  { intros rows0 Hin. apply Hnotin. apply list_elem_of_fmap. by exists (h', rows0). }
  cbn [fmap list_fmap fst]. rewrite not_elem_of_cons.
  destruct (String.eqb_spec h' h0) as [->|Hne].
  - split.
    + intros [[= -> ->]|Hin]%elem_of_cons.
      * right. split; [done|]. left. exists rows'. split; [by left|done].
      * left. split; [|by right]. intros ->. by eapply Hfst.
    + intros [[Hh Hin]|[-> Hcase]].
      * apply elem_of_cons in Hin as [[= ? _]|Hin]; [done|by right].
      * destruct Hcase as [(rows0 & Hin & ->)|[[? _] _]]; [|done].
        apply elem_of_cons in Hin as [[= <-]|Hin]; [by left|].
        exfalso. by eapply Hfst.
  - split.
    + intros [[= -> ->]|Hin]%elem_of_cons.
      * left. split; [done|]. by left.
      * apply IH in Hin as [[Hh Hin]|[-> Hcase]].
        -- left. split; [done|]. by right.
        -- right. split; [done|].
           destruct Hcase as [(rows0 & Hin & ->)|[Hout ->]].
           ++ left. exists rows0. split; [by right|done].
           ++ right. split; [|done]. split; [done|done].
    + intros [[Hh Hin]|[-> Hcase]].
      * apply elem_of_cons in Hin as [[= -> ->]|Hin]; [by left|].
        right. apply IH. left. done.
      * right. apply IH. right. split; [done|].
        destruct Hcase as [(rows0 & Hin & ->)|[[_ Hout] ->]].
        -- apply elem_of_cons in Hin as [[= ? _]|Hin]; [done|]. left. by exists rows0.
        -- by right.
Qed.

Section memory_increases_facts.
Context `{Externals}.
Variable dict_order : list (string * list bqrow) → list (string * list bqrow).

Lemma groups_of_step (min_increase_in_mb : Z) (yyyymmdd : string) (seen : list bqrow)
    (g : list (string * list bqrow)) (r : bqrow) (x m : atom) :
  r !! "added_total" = Some x → r !! "module" = Some m →
  py_gt x (AInt min_increase_in_mb) = true →
  groups_of min_increase_in_mb yyyymmdd seen g →
  groups_of min_increase_in_mb yyyymmdd (seen ++ [r])
    (group_append (memory_increases_heading m yyyymmdd) r g).
Proof.
  intros Hx Hm Hgt [Hnd Hg]. split; [by apply group_append_NoDup|].
  intros h rows. rewrite group_append_elem_of by done.
  rewrite filter_app.
  assert (Hr : ∀ h, listed_under min_increase_in_mb yyyymmdd h r
                    = String.eqb (memory_increases_heading m yyyymmdd) h).
  { intros h'. unfold listed_under. by rewrite Hx, Hm, Hgt. }
  set (h0 := memory_increases_heading m yyyymmdd) in *.
  destruct (decide (h = h0)) as [->|Hne].
  - rewrite filter_cons_True by (by rewrite Hr, String.eqb_refl). rewrite filter_nil. split.
    + intros [[? _]|[_ [(rows0 & Hin & ->)|[Hout ->]]]]; [done| |].
      * apply Hg in Hin as [-> _]. split; [done|]. by intros [_ ?]%app_eq_nil.
      * split; [|done].
        destruct (filter _ seen) as [|r1 l1] eqn:Ef; [done|]. exfalso. apply Hout.
        apply list_elem_of_fmap. exists (h0, r1 :: l1). split; [done|].
        apply Hg. by rewrite Ef.
    + intros [-> _]. right. split; [done|].
      destruct (filter (λ r0, listed_under min_increase_in_mb yyyymmdd h0 r0 = true) seen)
        as [|r1 l1] eqn:Ef.
      * right. split; [|done]. intros ([h' rows'] & Eh & Hin)%list_elem_of_fmap.
        cbn in Eh. subst h'. apply Hg in Hin as [-> Hne']. by rewrite Ef in Hne'.
      * left. exists (r1 :: l1). split; [|done]. apply Hg. by rewrite Ef.
  - rewrite filter_cons_False, filter_nil, app_nil_r; cycle 1.
    { rewrite Hr. intros E%String.eqb_eq. done. }
    rewrite <- Hg. split; [|by left]. intros [[_ ?]|[? _]]; done.
Qed.

Lemma groups_of_skip (min_increase_in_mb : Z) (yyyymmdd : string) (seen : list bqrow)
    (g : list (string * list bqrow)) (r : bqrow) (x : atom) :
  r !! "added_total" = Some x →
  py_gt x (AInt min_increase_in_mb) = false →
  groups_of min_increase_in_mb yyyymmdd seen g →
  groups_of min_increase_in_mb yyyymmdd (seen ++ [r]) g.
Proof.
  intros Hx Hgt [Hnd Hg]. split; [done|]. intros h rows.
  rewrite filter_app, filter_cons_False, filter_nil, app_nil_r; [apply Hg|].
  unfold listed_under. rewrite Hx, Hgt. by destruct (r !! "module").
Qed.

Lemma memory_increases_by_module_groups (min_increase_in_mb : Z) (yyyymmdd : string)
    (data seen : list bqrow) (acc g : list (string * list bqrow)) :
  groups_of min_increase_in_mb yyyymmdd seen acc →
  memory_increases_by_module min_increase_in_mb yyyymmdd data acc = Ok g →
  groups_of min_increase_in_mb yyyymmdd (seen ++ data) g.
Proof.
  revert seen acc. induction data as [|r rest IH]; intros seen acc Hacc; cbn.
  { intros [= <-]. by rewrite app_nil_r. }
  unfold getitem. destruct (r !! "added_total") as [x|] eqn:Hx; cbn; [|done].
  replace (seen ++ r :: rest) with ((seen ++ [r]) ++ rest) by (by rewrite <- app_assoc).
  destruct (py_gt x (AInt min_increase_in_mb)) eqn:Hgt.
  - destruct (r !! "module") as [m|] eqn:Hm; cbn; [|done].
    apply IH. by eapply groups_of_step.
  - apply IH. by eapply groups_of_skip.
Qed.

Lemma memory_increases_module_table_shape
    (historical_data : list (list (atom * atom * bqrow))) (rows0 : list bqrow) (t : table) :
  memory_increases_module_table historical_data rows0 = Ok t →
  ∃ body, t = header_row memory_increases_ORDER :: body
    ∧ length body = Nat.min 50 (length rows0).
Proof.
  unfold memory_increases_module_table. cbv zeta. intros E.
  apply result_bind_inv_ok in E as (total & _ & E).
  apply result_bind_inv_ok in E as (rows & Erows & E).
  apply convert_table_rows_shape in E as (body & -> & Hlen).
  exists body. split; [done|].
  by rewrite Hlen, length_take, (mapM_result_length _ _ _ Erows), as_rows_length.
Qed.

(** X19.  In [email_memory_increases], the table under a heading holds the
    header and the first 50 of the records listed under it (those of the
    heading's module whose [added_total] exceeds the threshold): the slice is
    taken before the header is added.  A heading without such a record has
    no table. *)
Theorem memory_increases_slices_before_shaping (data : list bqrow) (date min_increase_in_mb : Z)
    (w w' : world) (content : gmap string table) :
  (∀ l, dict_order l ≡ₚ l) →
  memory_increases_content dict_order data date min_increase_in_mb w = (Ok content, w') →
  ∀ heading,
    match content !! heading with
    | Some t =>
        ∃ body, t = header_row memory_increases_ORDER :: body
          ∧ length body
            = Nat.min 50 (length (filter (λ r, listed_under min_increase_in_mb
                                                 (strftime date) heading r = true) data))
          ∧ (0 < length body)%nat
    | None =>
        filter (λ r, listed_under min_increase_in_mb (strftime date) heading r = true) data
        = []
    end.
Proof.
  intros Hperm E heading. unfold memory_increases_content in E.
  apply M_bind_inv_ok in E as (yyyymmdd & w0 & [[-> _]%date_strftime_inv ->]%lift_inv & E).
  apply M_bind_inv_ok in E as (_ & w1 & _ & E).
  apply M_bind_inv_ok in E as (hist & w2 & _ & E).
  apply lift_inv in E as [E _].
  apply result_bind_inv_ok in E as (g & Eg & E).
  apply result_bind_inv_ok in E as (tables & Et & [= <-]).
  apply (memory_increases_by_module_groups _ _ _ []) in Eg as [Hnd Hg]; cycle 1.
  { split; [constructor|]. intros h rows. split; [by intros ?%elem_of_nil|].
    by intros [-> ?]. }
  rewrite app_nil_l in Hg.
  assert (Hkeys : tables.*1 = (dict_order g).*1).
  { apply list_eq. intros j. rewrite !list_lookup_fmap.
    destruct (dict_order g !! j) as [[h rows]|] eqn:Hj.
    - destruct (mapM_result_lookup _ _ _ j _ Et Hj) as (y & Hy & Ey).
      cbn in Ey. apply result_bind_inv_ok in Ey as (t & _ & [= <-]). by rewrite Hy.
    - apply lookup_ge_None in Hj. rewrite <- (mapM_result_length _ _ _ Et) in Hj.
      apply lookup_ge_None in Hj. by rewrite Hj. }
  assert (Hnd' : NoDup tables.*1) by (by rewrite Hkeys, Hperm).
  destruct ((list_to_map tables : gmap string table) !! heading) as [t|] eqn:Ec.
  - apply elem_of_list_to_map in Ec; [|done].
    apply list_elem_of_lookup_1 in Ec as [j Hj].
    assert (Hlt : (j < length (dict_order g))%nat).
    { rewrite <- (mapM_result_length _ _ _ Et). by eapply lookup_lt_Some. }
    apply lookup_lt_is_Some in Hlt as [[h rows] Hg'].
    destruct (mapM_result_lookup _ _ _ j _ Et Hg') as (y & Hy & Ey).
    rewrite Hj in Hy. injection Hy as <-.
    cbn in Ey. apply result_bind_inv_ok in Ey as (t' & Et' & [= -> ->]).
    apply memory_increases_module_table_shape in Et' as (body & -> & Hlen).
    apply list_elem_of_lookup_2 in Hg'. rewrite Hperm in Hg'.
    apply Hg in Hg' as [-> Hne].
    exists body. split; [done|]. split; [done|]. rewrite Hlen.
    destruct (filter _ data); [done|]. cbn. lia.
  - apply not_elem_of_list_to_map in Ec.
    destruct (filter (λ r, listed_under min_increase_in_mb (strftime date) heading r = true)
                data) as [|r1 l1] eqn:Ef; [done|].
    exfalso. apply Ec. rewrite Hkeys, Hperm. apply list_elem_of_fmap.
    exists (heading, r1 :: l1). split; [done|]. apply Hg. by rewrite Ef.
Qed.

End memory_increases_facts.

(** ** Memory increases: nothing above the threshold *)

Section memory_increases_empty.
Context `{Externals}.
Variable dict_order : list (string * list bqrow) → list (string * list bqrow).




End memory_increases_empty.

(** ** [main]: the reports in order *)




Section main_facts.
Context `{Externals}.
Variable dict_order : list (string * list bqrow) → list (string * list bqrow).








Lemma Script_step {A} (line : string) (m : M A) (rest : Script unit) (out : list string) (w : world) :
  (print line;; run m;; rest) (out, w)
  = match m w with
    | (Ok _, w') => rest (out ++ [line], w')
    | (Raise e, w') => (Raise e, (out ++ [line], w'))
    end.
Proof.
  unfold mbind, Script_bind, print, run. cbn. by destruct (m w) as [[a|e] w'].
Qed.


End main_facts.

(** ** Instance hours: the cells of a row *)

Lemma v_div_atoms (x y : atom) (q : value) :
  v_div (VAtom x) (VAtom y) = Ok q → ∃ a, py_div x y = Ok a ∧ q = VAtom a.
Proof. cbn. destruct (py_div x y) as [a|]; [|done]. intros [= <-]. eauto. Qed.

Lemma v_mul_atoms (x y : atom) (q : value) :
  v_mul (VAtom x) (VAtom y) = Ok q → ∃ a, py_mul x y = Ok a ∧ q = VAtom a.
Proof. cbn. destruct (py_mul x y) as [a|]; [|done]. intros [= <-]. eauto. Qed.

Lemma sum_field_atom (k : string) (rows : list row) (a : atom) (t : value) :
  sum_field k rows (VAtom a) = Ok t → ∃ b, t = VAtom b.
Proof.
  revert a. induction rows as [|r rest IH]; intros a; cbn [sum_field].
  { intros [= <-]. eauto. }
  intros E. apply result_bind_inv_ok in E as (x & _ & E).
  apply result_bind_inv_ok in E as (t1 & Et1 & E).
  destruct x as [b|l]; [|done]. cbn in Et1.
  destruct (py_add a b) as [s|]; [|done]. injection Et1 as <-. by eapply IH.
Qed.

Section instance_hours_cells.
Context `{Externals}.

Lemma instance_hours_row_cells (total : atom)
    (historical_data : list (list (atom * bqrow))) (route ih c : atom) (row' : row) :
  instance_hours_row (VAtom total) historical_data
    (VAtom <$> instance_hours_record route ih c) = Ok row' →
  ∃ q1 pct q2 per1k series,
    py_div ih total = Ok q1 ∧ py_mul q1 (AInt 100) = Ok pct
    ∧ py_div ih c = Ok q2 ∧ py_mul q2 (AInt 1000) = Ok per1k
    ∧ length series = length historical_data
    ∧ convert_row instance_hours_ORDER row'
      = Ok [VAtom pct; VAtom ih; VAtom c; VAtom per1k; VList series; VAtom route].
Proof.
  unfold instance_hours_row. intros E.
  apply result_bind_inv_ok in E as (x & Ex & E).
  assert (x = VAtom ih) as -> by (by vm_compute in Ex; injection Ex as <-).
  apply result_bind_inv_ok in E as (q & Eq & E).
  apply v_div_atoms in Eq as (q1 & Eq1 & ->).
  apply result_bind_inv_ok in E as (pct' & Epct & E).
  apply v_mul_atoms in Epct as (pct & Epct & ->).
  apply result_bind_inv_ok in E as (x' & Ex' & E).
  assert (x' = VAtom ih) as -> by (by vm_compute in Ex'; injection Ex' as <-).
  apply result_bind_inv_ok in E as (c' & Ec' & E).
  assert (c' = VAtom c) as -> by (by vm_compute in Ec'; injection Ec' as <-).
  apply result_bind_inv_ok in E as (q' & Eq' & E).
  apply v_div_atoms in Eq' as (q2 & Eq2 & ->).
  apply result_bind_inv_ok in E as (per1k' & Eper & E).
  apply v_mul_atoms in Eper as (per1k & Eper & ->).
  apply result_bind_inv_ok in E as (series & Es & [= <-]).
  exists q1, pct, q2, per1k, series. repeat (split; [done|]).
  split; [by eapply mapM_result_length|].
  rewrite convert_row_listed.
  - vm_compute. reflexivity.
  - unfold instance_hours_ORDER. refine (bool_decide_unpack _ _). by vm_compute.
  - intros k [v Hv]. unfold instance_hours_record in Hv.
    rewrite !lookup_insert_Some, lookup_fmap, fmap_Some in Hv.
    unfold instance_hours_ORDER.
    destruct Hv as [[<- _]|[_ [[<- _]|[_ [[<- _]|[_ (a & Ha & _)]]]]]];
      try (refine (bool_decide_unpack _ _); by vm_compute).
    rewrite !lookup_insert_Some, lookup_singleton_Some in Ha.
    destruct Ha as [[<- _]|[_ [[<- _]|[_ [<- _]]]]];
      refine (bool_decide_unpack _ _); by vm_compute.
Qed.

(** X16.  For a record with exactly the fields url_route, instance_hours
    and count_, the row of the instance-hours table lists, in this order,
    instance_hours / total * 100, instance_hours, count_,
    instance_hours / count_ * 1000, the series of 15 samples and url_route,
    where total is the sum of the instance hours of all the day's records. *)
Theorem instance_hours_table_rows (data : list bqrow) (date : Z) (w w' : world)
    (t : table) (i : nat) (route ih c : atom) :
  instance_hours_table data date w = (Ok t, w') →
  data !! i = Some (instance_hours_record route ih c) →
  ∃ total q1 pct q2 per1k series,
    sum_field "instance_hours" (as_rows data) (VAtom (AFloat 0)) = Ok (VAtom total)
    ∧ py_div ih total = Ok q1 ∧ py_mul q1 (AInt 100) = Ok pct
    ∧ py_div ih c = Ok q2 ∧ py_mul q2 (AInt 1000) = Ok per1k
    ∧ length series = 15%nat
    ∧ t !! S i
      = Some [VAtom pct; VAtom ih; VAtom c; VAtom per1k; VList series; VAtom route].
Proof.
  intros Et Hi. unfold instance_hours_table in Et.
  apply M_bind_inv_ok in Et as (yyyymmdd & w0 & _ & Et).
  apply M_bind_inv_ok in Et as (_ & w1 & _ & Et).
  apply M_bind_inv_ok in Et as (hist & w2 & [Hlen _]%process_past_data_fifteen & Et).
  apply lift_inv in Et as [Et _].
  apply result_bind_inv_ok in Et as (total' & Etotal & Et).
  destruct (sum_field_atom _ _ _ _ Etotal) as [total ->].
  apply result_bind_inv_ok in Et as (rows & Erows & Et).
  unfold _convert_table_rows_to_lists in Et.
  apply result_bind_inv_ok in Et as (body & Ebody & [= <-]).
  assert (Hri : as_rows data !! i = Some (VAtom <$> instance_hours_record route ih c)).
  { unfold as_rows. by rewrite list_lookup_fmap, Hi. }
  destruct (mapM_result_lookup _ _ _ i _ Erows Hri) as (row' & Hrow' & Erow).
  destruct (mapM_result_lookup _ _ _ i _ Ebody Hrow') as (cells & Hcells & Ecells).
  apply instance_hours_row_cells in Erow
    as (q1 & pct & q2 & per1k & series & ? & ? & ? & ? & Hs & Econv).
  rewrite Econv in Ecells. injection Ecells as <-.
  exists total, q1, pct, q2, per1k, series.
  repeat (split; [done|]). split; [congruence|done].
Qed.

End instance_hours_cells.

(** ** [_pretty_date] *)

(** X2.  For a date stamp of eight characters, [_pretty_date] yields its
    first four, next two and last two characters, joined by dashes: no
    character is lost or reordered. *)
Theorem pretty_date_keeps_digits (yyyymmdd : string) :
  String.length yyyymmdd = 8%nat →
  ∃ y m d,
    _pretty_date yyyymmdd = y +:+ "-" +:+ m +:+ "-" +:+ d
    ∧ yyyymmdd = y +:+ m +:+ d
    ∧ String.length y = 4%nat ∧ String.length m = 2%nat ∧ String.length d = 2%nat.
Proof.
  destruct yyyymmdd as [|c1 [|c2 [|c3 [|c4 [|c5 [|c6 [|c7 [|c8 [|c9 s]]]]]]]]]; try done.
  intros _.
  by exists (String c1 (String c2 (String c3 (String c4 "")))),
            (String c5 (String c6 "")), (String c7 (String c8 "")).
Qed.

(** ** gae_util: finding the SDK *)

Lemma find_sdk_first (os : os_view) (before after : list string) (dir : string) :
  Forall (passed_over os) before → holds_sdk os dir →
  find_sdk os (before ++ dir :: after)
  = inr (dirname (os_realpath os (path_join dir "dev_appserver.py"))).
Proof.
  intros Hbefore [Hdir (names & Hls & Hin)].
  induction Hbefore as [|p before [Hp|(ns & Hns & Hout)] _ IH]; cbn.
  - rewrite Hdir, Hls. by rewrite bool_decide_eq_true_2.
  - by rewrite Hp.
  - rewrite Hns. destruct (os_isdir os p); [|done]. by rewrite bool_decide_eq_false_2.
Qed.

Lemma find_sdk_none (os : os_view) (paths : list string) :
  Forall (passed_over os) paths → find_sdk os paths = inl GaeRuntimeError.
Proof.
  induction 1 as [|p paths [Hp|(ns & Hns & Hout)] _ IH]; cbn; [done|by rewrite Hp|].
  rewrite Hns. destruct (os_isdir os p); [|done]. by rewrite bool_decide_eq_false_2.
Qed.

Lemma find_sdk_found (os : os_view) (paths : list string) (sdk : string) :
  find_sdk os paths = inr sdk →
  ∃ before dir after,
    paths = before ++ dir :: after
    ∧ Forall (passed_over os) before ∧ holds_sdk os dir
    ∧ sdk = dirname (os_realpath os (path_join dir "dev_appserver.py")).
Proof.
  induction paths as [|p paths IH]; cbn; [done|].
  destruct (os_isdir os p) eqn:Hp.
  - destruct (os_listdir os p) as [names|] eqn:Hls; [|done].
    destruct (decide ("dev_appserver.py" ∈ names)) as [Hin|Hout].
    + rewrite bool_decide_eq_true_2 by done. intros [= <-].
      exists [], p, paths. split; [done|]. split; [constructor|]. split; [|done].
      split; [done|]. by exists names.
    + rewrite bool_decide_eq_false_2 by done. intros E.
      destruct (IH E) as (before & dir & after & -> & Hb & Hd & ->).
      exists (p :: before), dir, after. split; [done|]. split; [|done].
      constructor; [|done]. right. by exists names.
  - intros E. destruct (IH E) as (before & dir & after & -> & Hb & Hd & ->).
    exists (p :: before), dir, after. split; [done|]. split; [|done].
    constructor; [|done]. by left.
Qed.

(** X22.  Whatever [_discover_sdk_path] returns is the directory of the
    real path (symbolic links followed) of the [dev_appserver.py] in the
    first PATH entry that is a directory holding that file, every earlier
    entry having been passed over, and it has a google/appengine
    directory. *)
Theorem discover_sdk_path_result (os : os_view) (environ : gmap string string)
    (sdk : string) :
  _discover_sdk_path os environ = inr sdk →
  os_isdir os (path_join (path_join sdk "google") "appengine") = true
  ∧ ∃ p before dir after,
      environ !! "PATH" = Some p
      ∧ split_on ":" p = before ++ dir :: after
      ∧ Forall (passed_over os) before
      ∧ holds_sdk os dir
      ∧ sdk = dirname (os_realpath os (path_join dir "dev_appserver.py")).
Proof.
  unfold _discover_sdk_path. destruct (environ !! "PATH") as [p|]; [|done].
  destruct (find_sdk os (split_on ":" p)) as [e|path] eqn:E; [done|].
  destruct (os_isdir os _) eqn:Hlayout; [|done]. intros [= <-].
  split; [done|].
  destruct (find_sdk_found os _ _ E) as (before & dir & after & ? & ? & ? & ?).
  by exists p, before, dir, after.
Qed.

(** X23.  [_discover_sdk_path] raises KeyError when PATH is not set,
    RuntimeError when no PATH entry is a directory holding
    [dev_appserver.py] (so for an empty PATH), and AssertionError when the
    directory found has no google/appengine directory. *)
Theorem discover_sdk_path_failures (os : os_view) (environ : gmap string string) :
  (environ !! "PATH" = None → _discover_sdk_path os environ = inl GaeKeyError)
  ∧ (∀ p, environ !! "PATH" = Some p →
       Forall (passed_over os) (split_on ":" p) →
       _discover_sdk_path os environ = inl GaeRuntimeError)
  ∧ (∀ p before dir after,
       environ !! "PATH" = Some p →
       split_on ":" p = before ++ dir :: after →
       Forall (passed_over os) before → holds_sdk os dir →
       os_isdir os (path_join (path_join
         (dirname (os_realpath os (path_join dir "dev_appserver.py"))) "google")
         "appengine") = false →
       _discover_sdk_path os environ = inl GaeAssertionError)
  ∧ (os_isdir os "" = false → environ !! "PATH" = Some "" →
       _discover_sdk_path os environ = inl GaeRuntimeError).
Proof.
  unfold _discover_sdk_path. split; [|split; [|split]].
  - by intros ->.
  - intros p -> Hall. by rewrite find_sdk_none.
  - intros p before dir after -> -> Hb Hd Hlayout.
    by rewrite (find_sdk_first os before after dir Hb Hd), Hlayout.
  - intros Hempty ->. cbn. by rewrite Hempty.
Qed.

(** ** gae_util: [fix_sys_path] *)

Lemma set_default_lookup (k v k' : string) (environ : gmap string string) :
  set_default k v environ !! k'
  = if decide (k = k') then Some (default v (environ !! k)) else environ !! k'.
Proof.
  unfold set_default. destruct (decide (k = k')) as [<-|Hne].
  - destruct (environ !! k) as [old|] eqn:E; [done|]. by rewrite lookup_insert_eq.
  - destruct (environ !! k); [done|]. by rewrite lookup_insert_ne.
Qed.

Section fix_sys_path_facts.
Variable os : os_view.
Variable dev_appserver_fix_sys_path : py_state → option gae_exn * py_state.

(** X24.  [fix_sys_path] sets SERVER_SOFTWARE and CURRENT_VERSION only
    where they are not set, and changes no other variable.  Then either the
    SDK lookup fails, and the exception leaves [sys.path] and the google
    module untouched, or it hands over to the SDK's own [fix_sys_path] with
    the SDK directory both first and last in [sys.path]; the PATH is
    searched only when no directory was given. *)
Theorem fix_sys_path_hands_over (appengine_sdk_dir : option string) (st : py_state) :
  ∃ st1,
    os_environ st1 !! "SERVER_SOFTWARE"
      = Some (default "Development" (os_environ st !! "SERVER_SOFTWARE"))
    ∧ os_environ st1 !! "CURRENT_VERSION"
      = Some (default "764.1" (os_environ st !! "CURRENT_VERSION"))
    ∧ (∀ k, k ≠ "SERVER_SOFTWARE" → k ≠ "CURRENT_VERSION" →
         os_environ st1 !! k = os_environ st !! k)
    ∧ sys_path st1 = sys_path st
    ∧ sys_modules_google st1 = sys_modules_google st
    ∧ ((∃ e, fix_sys_path os dev_appserver_fix_sys_path appengine_sdk_dir st
             = (Some e, st1))
       ∨ ∃ sdk st2,
           fix_sys_path os dev_appserver_fix_sys_path appengine_sdk_dir st
             = dev_appserver_fix_sys_path st2
           ∧ os_environ st2 = os_environ st1
           ∧ sys_path st2 = sdk :: sys_path st ++ [sdk]
           ∧ (match appengine_sdk_dir with
              | Some (String c s) => sdk = String c s
              | _ => _discover_sdk_path os (os_environ st1) = inr sdk
              end)).
Proof.
  unfold fix_sys_path. cbv zeta.
  set (environ := set_default "CURRENT_VERSION" "764.1"
                    (set_default "SERVER_SOFTWARE" "Development" (os_environ st))).
  eexists {| os_environ := environ; sys_path := sys_path st;
             sys_modules_google := sys_modules_google st |}.
  cbn [os_environ sys_path sys_modules_google].
  split; [|split; [|split; [|split; [done|split; [done|]]]]].
  - unfold environ. rewrite !set_default_lookup. cbn.
    rewrite decide_False by done. by rewrite decide_True.
  - unfold environ. rewrite !set_default_lookup. rewrite decide_True by done.
    rewrite decide_False by done. done.
  - intros k Hk1 Hk2. unfold environ. rewrite !set_default_lookup.
    by rewrite !decide_False.
  - destruct appengine_sdk_dir as [[|c s]|].
    + destruct (_discover_sdk_path os environ) as [e|sdk] eqn:E; [left; by exists e|].
      right. eexists sdk, _. split; [reflexivity|]. done.
    + right. eexists (String c s), _. split; [reflexivity|]. done.
    + destruct (_discover_sdk_path os environ) as [e|sdk] eqn:E; [left; by exists e|].
      right. eexists sdk, _. split; [reflexivity|]. done.
Qed.

End fix_sys_path_facts.

(** ** The history after a first save *)

Section first_save.
Context `{Externals}.


End first_save.

(** ** Days that [strftime] does not print *)

Lemma mapM_M_raise_at {A B} (f : A → M B) (pre post : list A) (x : A) (e : exn)
    (w : world) :
  (∀ y, y ∈ pre → ∃ b, f y w = (Ok b, w)) →
  f x w = (Raise e, w) →
  mapM f (pre ++ x :: post) w = (Raise e, w).
Proof.
  intros Hpre Hx. induction pre as [|y pre IH]; cbn [app mapM].
  { by rewrite (M_bind_raise _ _ _ _ _ Hx). }
  destruct (Hpre y) as [b Hy]; [by left|].
  rewrite (M_bind_ok _ _ _ _ _ Hy).
  rewrite (M_bind_raise _ _ w w e); [done|].
  apply IH. intros z Hz. apply Hpre. by right.
Qed.

Lemma upto_split (n j : Z) :
  0 ≤ j < n →
  upto n = upto j ++ j :: (Z.of_nat <$> seq (S (Z.to_nat j)) (Z.to_nat n - S (Z.to_nat j))).
Proof.
  intros Hj. unfold upto.
  replace (Z.to_nat n) with (Z.to_nat j + S (Z.to_nat n - S (Z.to_nat j)))%nat at 1 by lia.
  rewrite seq_app, fmap_app. cbn [seq fmap list_fmap]. do 2 f_equal. lia.
Qed.

Section before_1900.
Context `{Externals} {K : Type} (key_eqb : K → K → bool).

Lemma day_index_reads (keyfn : bqrow → result K) (report : string)
    (end_date i : Z) (w : world) :
  strftime_first ≤ end_date - i ≤ date_max →
  snapshot_readable keyfn report (strftime (end_date - i)) w →
  ∃ idx, day_index key_eqb report end_date keyfn i w = (Ok idx, w).
Proof.
  intros Hday [Hd Hf]. unfold day_index.
  rewrite (day_stamp _ _ Hday), M_bind_lift_ok.
  destruct (files w !! _get_data_filename report (strftime (end_date - i)))
    as [s|] eqn:E.
  - destruct (Hf s eq_refl) as (old_data & Hl & Hk).
    rewrite (M_bind_ok _ _ w w (Some old_data)) by (by eapply get_past_data_present).
    destruct old_data as [|r rest]; [by exists []|].
    destruct (build_index_total key_eqb keyfn (r :: rest) [] Hk) as [idx Hidx].
    exists idx. unfold lift. by rewrite Hidx.
  - rewrite (M_bind_ok _ _ w w None) by (by apply get_past_data_absent).
    by exists [].
Qed.

Lemma day_index_before_1900 (keyfn : bqrow → result K) (report : string)
    (end_date i : Z) (w : world) :
  date_min ≤ end_date - i < strftime_first →
  day_index key_eqb report end_date keyfn i w = (Raise ValueError, w).
Proof.
  intros [Hlo Hhi]. unfold day_index, date_sub, date_strftime.
  rewrite (proj2 (Z.leb_le _ _) Hlo).
  assert (Hmax : end_date - i ≤ date_max) by (unfold strftime_first, date_max in *; lia).
  rewrite (proj2 (Z.leb_le _ _) Hmax). cbn.
  by rewrite (proj2 (Z.ltb_lt _ _) Hhi).
Qed.

(** X14.  When the window reaches a day before 1900 and the snapshots of
    its days from 1900 on are readable, [_process_past_data] raises
    ValueError (the [strftime] of Python 2 refuses the year) and leaves the
    world as it found it; this comes before any OverflowError of the date
    subtraction, which is only reached below the year 1. *)
Theorem process_past_data_before_1900 (keyfn : bqrow → result K) (report : string)
    (end_date history_length : Z) (w : world) :
  date_min ≤ end_date ≤ date_max →
  0 ≤ history_length ≤ LONG_MAX - 1 →
  end_date - history_length < strftime_first →
  (∀ i, 0 ≤ i → strftime_first ≤ end_date - i →
        snapshot_readable keyfn report (strftime (end_date - i)) w) →
  _process_past_data key_eqb report end_date history_length keyfn w
  = (Raise ValueError, w).
Proof.
  intros Hdate HW Hreach Hw. unfold _process_past_data, xrange.
  destruct (Z.ltb_spec (history_length + 1) (- LONG_MAX - 1)) as [Hlo|_].
  { exfalso. revert Hlo. change LONG_MAX with 9223372036854775807 in *. lia. }
  destruct (Z.ltb_spec LONG_MAX (history_length + 1)) as [Hhi|_]; [lia|].
  cbn [orb]. rewrite M_bind_lift_ok.
  apply M_bind_raise with (w' := w).
  set (j := Z.max 0 (end_date - strftime_first + 1)).
  rewrite (upto_split (history_length + 1) j) by lia.
  apply mapM_M_raise_at.
  - intros i Hi%upto_elem_of.
    apply day_index_reads; [lia|]. apply Hw; lia.
  - apply day_index_before_1900. unfold date_min, strftime_first in *. lia.
Qed.

End before_1900.

Section reports_before_1900.
Context `{Externals}.
Variable dict_order : list (string * list bqrow) → list (string * list bqrow).

Lemma date_strftime_before_1900 (date : Z) :
  date < strftime_first → date_strftime date = Raise ValueError.
Proof. intros Hd. unfold date_strftime. by rewrite (proj2 (Z.ltb_lt _ _) Hd). Qed.

(** X25.  For a day before 1900 each of the four reports raises ValueError
    at its first statement, the [strftime]: nothing is saved, no process is
    started and no mail is sent; [main] prints its first line and stops. *)
Theorem reports_refuse_days_before_1900 (date : Z) (w : world) :
  date < strftime_first →
  (∀ data, email_instance_hours data date w = (Raise ValueError, w))
  ∧ (∀ data, email_rpcs data date w = (Raise ValueError, w))
  ∧ (∀ data1 data2, email_out_of_memory_errors data1 data2 date w = (Raise ValueError, w))
  ∧ (∀ data min_increase_in_mb,
       email_memory_increases dict_order data date min_increase_in_mb w
       = (Raise ValueError, w))
  ∧ (∀ q out,
       main dict_order q date (out, w)
       = (Raise ValueError, (out ++ ["Emailing instance hour info"], w))).
Proof.
  intros Hd. pose proof (date_strftime_before_1900 date Hd) as E.
  assert (H1 : ∀ data, email_instance_hours data date w = (Raise ValueError, w)).
  { intros data. unfold email_instance_hours, instance_hours_content.
    apply M_bind_raise with (w' := w). by rewrite E. }
  split; [exact H1|]. split; [|split; [|split]].
  - intros data. unfold email_rpcs, rpcs_content.
    apply M_bind_raise with (w' := w). by rewrite E.
  - intros data1 data2. unfold email_out_of_memory_errors. by rewrite E.
  - intros data min_increase_in_mb. unfold email_memory_increases, memory_increases_content.
    apply M_bind_raise with (w' := w). by rewrite E.
  - intros q out. unfold main. rewrite Script_step. by rewrite H1.
Qed.

End reports_before_1900.

(** ** A regular file above the data directory *)

Section blocked.
Context `{Externals}.

(** X26.  When the data directory does not exist and it, or a directory
    above it, is a regular file, [_save_daily_data] raises OSError (from
    [os.makedirs]) and changes nothing. *)
Theorem save_daily_data_blocked_by_file (data : list bqrow) (report yyyymmdd : string)
    (w : world) (a : string) :
  dirname (_get_data_filename report yyyymmdd) ∉ dirs w →
  a ∈ data_dirs report yyyymmdd →
  is_Some (files w !! a) →
  _save_daily_data data report yyyymmdd w = (Raise OSError, w).
Proof.
  intros Hdir Ha Hfile. unfold _save_daily_data. cbv zeta.
  rewrite M_bind_unfold. unfold os_path_isdir.
  rewrite bool_decide_eq_false_2 by done. cbn [negb].
  apply M_bind_raise with (w' := w). unfold os_makedirs.
  assert (Hb : bool_decide (is_Some (files w !! dirname (_get_data_filename report yyyymmdd)))
               || bool_decide (dirname (_get_data_filename report yyyymmdd) ∈ dirs w)
               || existsb (λ a, bool_decide (is_Some (files w !! a)))
                    (ancestors (dirname (_get_data_filename report yyyymmdd))) = true).
  { unfold data_dirs in Ha. apply elem_of_cons in Ha as [->|Ha].
    - by rewrite bool_decide_eq_true_2.
    - apply orb_true_intro. right. apply existsb_exists. exists a.
      split; [by apply list_elem_of_In|]. by apply bool_decide_eq_true_2. }
  by rewrite Hb.
Qed.

End blocked.

(** ** Images that [MIMEImage] does not recognise, and the page that is mailed *)

Section mailed_page.
Context `{Externals}.

(** X27.  When [MIMEImage] cannot guess the type of one of the images,
    [_embed_images_to_mime] raises TypeError, whatever the HTML. *)
Theorem embed_images_unrecognised (html : string) (images : list string) :
  Exists (λ image, imghdr_what image = None) images →
  _embed_images_to_mime html images = Raise TypeError.
Proof.
  intros Hex. unfold _embed_images_to_mime.
  destruct images as [|image images]; [by apply Exists_nil in Hex|].
  rewrite (mapM_result_raise embed_image TypeError); [done| |].
  - intros x _. unfold embed_image. destruct (imghdr_what x); eauto.
  - apply Exists_exists in Hex as (x & Hin & Hx). exists x. split; [done|].
    unfold embed_image. by rewrite Hx.
Qed.


End mailed_page.

(** ** The further theorems at concrete inputs *)

Lemma demo_day_first : strftime_first ≤ demo_day - 14.
Proof. by vm_compute. Qed.

Lemma demo_day_last : demo_day ≤ date_max.
Proof. by vm_compute. Qed.

Lemma demo_instance_hours_table :
  ∃ t w', instance_hours_table (H:=demo_externals) scenario demo_day empty_world = (Ok t, w').
Proof. eexists _, _. vm_compute. reflexivity. Qed.

Lemma sparkline_points_zero_based_witness :
  ∃ r, sparkline_range [Some (AInt 1); None; Some (AInt 2); Some (AInt 3)] = Ok r
    ∧ xmin r = 1 ∧ xmax r = 4
    ∧ data_points [Some (AInt 1); None; Some (AInt 2); Some (AInt 3)] !! 0%nat
      = Some (Some (0%nat, AInt 1)).
Proof.
  eexists. split; [reflexivity|].
  destruct (sparkline_points_zero_based (H:=demo_externals)
              [Some (AInt 1); None; Some (AInt 2); Some (AInt 3)] _ eq_refl)
    as (Hmin & Hmax & _ & Hfirst & _).
  split; [exact Hmin|]. split; [exact Hmax|]. by apply (Hfirst (AInt 1)).
Defined.

Lemma render_sparkline_string_sample_witness :
  _render_sparkline (H:=demo_externals)
    [Some (AInt 1); Some (AStr "(None)"); Some (AInt 2)] empty_world
  = (Raise TypeError, empty_world).
Proof.
  apply (render_sparkline_string_sample (H:=demo_externals) _ "(None)").
  - vm_compute. lia.
  - right. left.
Defined.

Lemma embed_images_count_mismatch_witness :
  _embed_images_to_mime (H:=demo_externals) "<td>%s</td>" [] = Raise TypeError.
Proof.
  apply (embed_images_count_mismatch (H:=demo_externals) _ _ 1); [reflexivity|done].
Defined.

Lemma save_daily_data_clobbers_witness :
  ∃ w2,
    _save_daily_data (H:=demo_externals) scenario "instance_hours" "20140831"
      (saved_world (H:=demo_externals) fifty_routes "instance_hours" "20140831")
    = (Ok (), w2)
    ∧ _get_past_data (H:=demo_externals) "instance_hours" "20140831" w2
      = (Ok (Some scenario), w2).
Proof.
  destruct (save_daily_data_clobbers (H:=demo_externals) fifty_routes scenario
              "instance_hours" "20140831" empty_world
              (saved_world (H:=demo_externals) fifty_routes "instance_hours" "20140831"))
    as (w2 & Hsave & Hload & _).
  - by apply (save_on_empty_world (H:=demo_externals)).
  - reflexivity.
  - exists w2. split; [exact Hsave|exact Hload].
Defined.

Lemma save_daily_data_keeps_other_snapshots_witness :
  (_get_past_data (H:=demo_externals) "instance_hours" "20140831"
     (_save_daily_data (H:=demo_externals) scenario "rpcs" "20140831"
        (saved_world (H:=demo_externals) scenario "instance_hours" "20140831")).2).1
  = Ok (Some scenario).
Proof.
  rewrite (save_daily_data_keeps_other_snapshots (H:=demo_externals) scenario
             "rpcs" "20140831" "instance_hours" "20140831"
             (saved_world (H:=demo_externals) scenario "instance_hours" "20140831")
             (_save_daily_data (H:=demo_externals) scenario "rpcs" "20140831"
                (saved_world (H:=demo_externals) scenario "instance_hours" "20140831")).2
             (_save_daily_data (H:=demo_externals) scenario "rpcs" "20140831"
                (saved_world (H:=demo_externals) scenario "instance_hours" "20140831")).1).
  - reflexivity.
  - by repeat split.
  - by repeat split.
  - done.
  - apply surjective_pairing.
Defined.

Lemma process_past_data_reads_only_witness :
  ∃ historical_data,
    (_process_past_data (H:=demo_externals) py_eq "instance_hours" demo_day 0
       (λ r, getitem r "url_route") empty_world).1 = Ok historical_data
    ∧ length historical_data = 1%nat
    ∧ (_process_past_data (H:=demo_externals) py_eq "instance_hours" demo_day 0
         (λ r, getitem r "url_route") empty_world).2 = empty_world.
Proof.
  destruct (process_past_data_reads_only (H:=demo_externals) py_eq "instance_hours" demo_day 0
              (λ r, getitem r "url_route") empty_world) as [Hw Hlen].
  exists [[]]. split; [reflexivity|]. split; [|exact Hw].
  apply Hlen. reflexivity.
Defined.

Lemma convert_table_rows_listed_columns_witness :
  _convert_table_rows_to_lists [row_a_only; row_ab] ["a"; "b"]
  = Ok [[VAtom (AStr "a"); VAtom (AStr "b")]; [VAtom (AInt 1)];
        [VAtom (AInt 1); VAtom (AInt 2)]].
Proof.
  rewrite (convert_table_rows_listed_columns [row_a_only; row_ab] ["a"; "b"]).
  - reflexivity.
  - refine (bool_decide_unpack _ _). by vm_compute.
  - intros r k [->|[->|Hr%elem_of_nil]%elem_of_cons]%elem_of_cons [v Hv]; [| |done].
    + unfold row_a_only in Hv. apply lookup_singleton_Some in Hv as [<- _]. by left.
    + unfold row_ab in Hv.
      apply lookup_insert_Some in Hv as [[<- _]|[_ Hv]]; [by right; left|].
      apply lookup_singleton_Some in Hv as [<- _]. by left.
Defined.

Lemma instance_hours_zero_total_witness :
  email_instance_hours (H:=demo_externals) [route_row "/a" 0 5] demo_day empty_world
  = (Raise ZeroDivisionError,
     saved_world (H:=demo_externals) [route_row "/a" 0 5] "instance_hours" "20140831")
  ∧ outbox (saved_world (H:=demo_externals) [route_row "/a" 0 5]
              "instance_hours" "20140831") = [].
Proof.
  destruct (instance_hours_zero_total (H:=demo_externals) [route_row "/a" 0 5] demo_day
              empty_world
              (saved_world (H:=demo_externals) [route_row "/a" 0 5]
                 "instance_hours" "20140831") 0%float) as (E & Hout & _).
  - by vm_compute.
  - discriminate.
  - reflexivity.
  - reflexivity.
  - exact (save_on_empty_world (H:=demo_externals) [route_row "/a" 0 5]
             "instance_hours" "20140831" eq_refl eq_refl).
  - exists (replicate 14 [] ++ [scenario_index]).
    exact (scenario_history (H:=demo_externals) demo_day demo_day_first demo_day_last
             demo_stamps_no_slash demo_stamps_differ eq_refl).
  - exact (conj E Hout).
Defined.

Lemma demo_memory_increases_content :
  ∃ content w',
    memory_increases_content (H:=memory_externals) id memory_rows demo_day 1 empty_world
    = (Ok content, w').
Proof.
  assert (Hok : match (memory_increases_content (H:=memory_externals) id memory_rows
                         demo_day 1 empty_world).1 with
                | Ok _ => true
                | Raise _ => false
                end = true) by (vm_compute; reflexivity).
  destruct (memory_increases_content (H:=memory_externals) id memory_rows demo_day 1
              empty_world) as [[content|e] w']; [by eexists _, _|discriminate Hok].
Qed.

Lemma report_series_span_fifteen_days_witness :
  ∃ t w',
    instance_hours_table (H:=demo_externals) scenario demo_day empty_world = (Ok t, w')
    ∧ Forall (has_series 15) (tail t).
Proof.
  destruct demo_instance_hours_table as (t & w' & E).
  exists t, w'. split; [exact E|].
  apply (report_series_span_fifteen_days (H:=demo_externals) scenario demo_day empty_world w' t).
  by left.
Defined.

Lemma instance_hours_series_ends_today_witness :
  ∃ t w' cells l q,
    instance_hours_table (H:=demo_externals) scenario demo_day empty_world = (Ok t, w')
    ∧ t !! 1%nat = Some cells
    ∧ VList l ∈ cells
    ∧ l !! 14%nat = Some (Some q)
    ∧ py_div (AFloat 10) (AInt 100) = Ok q.
Proof.
  destruct demo_instance_hours_table as (t & w' & E).
  destruct (instance_hours_series_ends_today (H:=demo_externals) scenario demo_day empty_world
              w' t 0 (route_row "/a" 10 100) "/a" (AFloat 10) (AInt 100))
    as (cells & l & q & Hcells & Hin & _ & Hl & Hq).
  - reflexivity.
  - exact E.
  - reflexivity.
  - by vm_compute.
  - by vm_compute.
  - by vm_compute.
  - intros [|[|[|j]]] r' Hj Hlt; [lia| | |done].
    + injection Hj as <-. intros Hr. vm_compute in Hr. discriminate Hr.
    + injection Hj as <-. intros Hr. vm_compute in Hr. discriminate Hr.
  - exists t, w', cells, l, q.
    exact (conj E (conj Hcells (conj Hin (conj Hl Hq)))).
Defined.

Lemma naive_conversion_int_first_witness :
  convert_cell (λ _, None) (λ _, None) (JFloat 1.5) = Ok (AInt 1).
Proof.
  destruct (naive_conversion_int_first (λ _, None) (λ _, None)) as (_ & Hfloat & _).
  rewrite (Hfloat 1.5%float _ eq_refl). reflexivity.
Defined.

Lemma naive_conversion_keeps_shape_witness :
  ∃ out r',
    convert_json_table (λ _, None) (λ _, None)
      [[("url_route", JStr "/a"); ("module_id", JNull)]] = Ok out
    ∧ length out = 1%nat
    ∧ out !! 0%nat = Some r'
    ∧ r' !! 0%nat = Some ("url_route", AStr "/a")
    ∧ r' !! 1%nat = Some ("module_id", AStr "(None)").
Proof.
  destruct (naive_conversion_keeps_shape (λ _, None) (λ _, None)
              [[("url_route", JStr "/a"); ("module_id", JNull)]] _ eq_refl)
    as [Hlen Hrows].
  destruct (Hrows 0%nat _ eq_refl) as (r' & Hr' & _ & Hnull & Hstr).
  eexists _, r'. split; [reflexivity|]. split; [exact Hlen|]. split; [exact Hr'|].
  split; [by apply (Hstr 0%nat)|by apply (Hnull 1%nat)].
Defined.

Lemma naive_conversion_failures_witness :
  ∃ e, convert_json_table (λ _, None) (λ _, None)
         [[("url_route", JStr "/a"); ("tags", JContainer)]] = Raise e.
Proof.
  apply (proj2 (naive_conversion_failures (λ _, None) (λ _, None) _)).
  exists [("url_route", JStr "/a"); ("tags", JContainer)], "tags", JContainer.
  split; [by left|]. split; [by right; left|by left].
Defined.

Lemma memory_increases_slices_before_shaping_witness :
  ∃ content w' body,
    memory_increases_content (H:=memory_externals) id memory_rows demo_day 1 empty_world
    = (Ok content, w')
    ∧ content !! "Memory increases by route for default module on 2014-08-31"
      = Some (header_row memory_increases_ORDER :: body)
    ∧ length body = 2%nat.
Proof.
  destruct demo_memory_increases_content as (content & w' & E).
  pose proof (memory_increases_slices_before_shaping (H:=memory_externals) id
                memory_rows demo_day 1 empty_world w' content (λ l, reflexivity l) E
                "Memory increases by route for default module on 2014-08-31") as Hh.
  assert (Hn : length (filter (λ r, listed_under (H:=memory_externals) 1
                                      (strftime (Externals:=memory_externals) demo_day)
                                      "Memory increases by route for default module on 2014-08-31"
                                      r = true) memory_rows) = 2%nat)
    by (vm_compute; reflexivity).
  destruct (content !! "Memory increases by route for default module on 2014-08-31")
    as [t|] eqn:Et.
  - destruct Hh as (body & Ht & Hlen & _). exists content, w', body.
    rewrite Hn in Hlen. rewrite Ht in Et. exact (conj E (conj Et Hlen)).
  - rewrite Hh in Hn. discriminate Hn.
Defined.


Lemma instance_hours_table_rows_witness :
  ∃ t w' pct per1k series,
    instance_hours_table (H:=demo_externals) scenario demo_day empty_world = (Ok t, w')
    ∧ t !! 1%nat
      = Some [VAtom pct; VAtom (AFloat 10); VAtom (AInt 100); VAtom per1k;
              VList series; VAtom (AStr "/a")].
Proof.
  destruct demo_instance_hours_table as (t & w' & E).
  assert (Hrow : scenario !! 0%nat
                 = Some (instance_hours_record (AStr "/a") (AFloat 10) (AInt 100))).
  { unfold scenario, route_row, instance_hours_record. reflexivity. }
  destruct (instance_hours_table_rows (H:=demo_externals) scenario demo_day empty_world w' t
              0 (AStr "/a") (AFloat 10) (AInt 100) E Hrow)
    as (total & q1 & pct & q2 & per1k & series & _ & _ & _ & _ & _ & _ & Ht).
  exists t, w', pct, per1k, series. exact (conj E Ht).
Defined.

Lemma pretty_date_keeps_digits_witness :
  ∃ y m d,
    _pretty_date "20140831" = y +:+ "-" +:+ m +:+ "-" +:+ d
    ∧ "20140831" = y +:+ m +:+ d
    ∧ String.length y = 4%nat ∧ String.length m = 2%nat ∧ String.length d = 2%nat.
Proof. exact (pretty_date_keeps_digits "20140831" eq_refl). Defined.

Lemma discover_sdk_path_result_witness :
  _discover_sdk_path demo_os {[ "PATH" := "/usr/bin:/nonexistent:/opt/bin" ]}
  = inr "/opt/google_appengine"
  ∧ os_isdir demo_os "/opt/google_appengine/google/appengine" = true.
Proof.
  assert (E : _discover_sdk_path demo_os {[ "PATH" := "/usr/bin:/nonexistent:/opt/bin" ]}
              = inr "/opt/google_appengine") by reflexivity.
  split; [exact E|].
  apply (discover_sdk_path_result demo_os _ _ E).
Defined.

Lemma discover_sdk_path_failures_witness :
  _discover_sdk_path demo_os ∅ = inl GaeKeyError
  ∧ _discover_sdk_path demo_os {[ "PATH" := "" ]} = inl GaeRuntimeError.
Proof.
  split.
  - by apply (proj1 (discover_sdk_path_failures demo_os ∅)).
  - by apply (proj2 (proj2 (proj2 (discover_sdk_path_failures demo_os {[ "PATH" := "" ]})))).
Defined.

Lemma fix_sys_path_hands_over_witness :
  ∃ st1 st2,
    os_environ st1 !! "SERVER_SOFTWARE" = Some "Production"
    ∧ os_environ st1 !! "CURRENT_VERSION" = Some "764.1"
    ∧ fix_sys_path demo_os (λ st, (None, st)) None demo_state = (None, st2)
    ∧ sys_path st2
      = ["/opt/google_appengine"; "/usr/lib/python2.7"; "/opt/google_appengine"].
Proof.
  destruct (fix_sys_path_hands_over demo_os (λ st, (None, st)) None demo_state)
    as (st1 & Hserver & Hversion & _).
  exists st1. eexists. split; [exact Hserver|]. split; [exact Hversion|].
  split; [reflexivity|]. by vm_compute.
Defined.

Lemma process_past_data_before_1900_witness :
  demo_strftime 693600 = "19000105"
  ∧ _process_past_data (H:=demo_externals) py_eq "instance_hours" 693600 14
      (λ r, getitem r "url_route") empty_world
    = (Raise ValueError, empty_world).
Proof.
  split; [reflexivity|].
  apply (process_past_data_before_1900 (H:=demo_externals)).
  - by vm_compute.
  - by vm_compute.
  - by vm_compute.
  - intros i _ _. split; [apply not_elem_of_empty|].
    intros s Hs. cbn [files empty_world] in Hs. by rewrite lookup_empty in Hs.
Defined.

Lemma reports_refuse_days_before_1900_witness :
  demo_strftime 693595 = "18991231"
  ∧ email_instance_hours (H:=demo_externals) scenario 693595 empty_world
    = (Raise ValueError, empty_world)
  ∧ main (H:=demo_externals) id
      {| instance_hours_data := scenario; rpcs_data := []; oom_by_module_data := [];
         oom_by_route_data := []; memory_increases_data := [] |} 693595 ([], empty_world)
    = (Raise ValueError, (["Emailing instance hour info"], empty_world)).
Proof.
  split; [reflexivity|].
  destruct (reports_refuse_days_before_1900 (H:=demo_externals) id 693595 empty_world)
    as (H1 & _ & _ & _ & Hmain); [by vm_compute|].
  split; [apply H1|apply Hmain].
Defined.

(** A world in which the home directory is a regular file. *)
Lemma save_daily_data_blocked_by_file_witness :
  _save_daily_data (H:=demo_externals) scenario "instance_hours" "20140831"
    {| files := {[ "/home/analytics" := "" ]}; dirs := {[ "/home" ]};
       spawned := []; outbox := [] |}
  = (Raise OSError,
     {| files := {[ "/home/analytics" := "" ]}; dirs := {[ "/home" ]};
        spawned := []; outbox := [] |}).
Proof.
  apply (save_daily_data_blocked_by_file (H:=demo_externals) _ _ _ _ "/home/analytics").
  - refine (bool_decide_unpack _ _). by vm_compute.
  - refine (bool_decide_unpack _ _). by vm_compute.
  - by eexists.
Defined.

Lemma embed_images_unrecognised_witness :
  _embed_images_to_mime (H:=demo_externals) "<td>%s</td>" ["<html>502</html>"]
  = Raise TypeError.
Proof.
  apply (embed_images_unrecognised (H:=demo_externals)). by left.
Defined.

